(** * Enterprise Smart-IMS backend: the stock ledger of [backend/app.py]

    A shallow embedding of the Flask/SQLite request handlers that create and
    update products, record sales, restock, and report (dashboard trend,
    sales history), together with the properties of the stock ledger they
    maintain; then of the handlers that read the catalogue (one product, the
    product list with its search, the categories, the rows of the PDF
    report) and of [init_db] on an existing database, with the invariants of
    the stored rows.

    Conventions of the embedding.
    - A request body is a JSON object: a finite map from keys to Python
      values ([pyval]).  Python [int] is [Z]; Python [float] and SQLite
      [REAL] are IEEE binary64 ([PrimFloat.float]).
    - The database is a record of the four tables.  A handler maps the
      committed state before the request to the response and the committed
      state after it: a handler that returns or raises before
      [conn.commit()] leaves the committed state as it was.
    - Every read of a clock is an explicit argument: [clk k] is what the
      k-th evaluation of [CURRENT_TIMESTAMP] (or of [datetime.now()])
      within the request yields.
    - [OutOfScope] marks the Python/SQLite behaviours that are not embedded
      (text-to-number parsing, fractional numbers written into INTEGER
      columns, SQLite's column-affinity coercions of text keys); a handler
      then has no result in the model ([None]).
    - [add_sale] and [restock] take the quantity as the request gives it.
      Each is embedded in two parts: [add_sale] and [restock] are the
      handlers on a quantity that is not a float, in integer arithmetic;
      [add_sale_float] and [restock_float] are the handlers on a float, in
      floating point.  [reachable] is the states that requests without a
      float quantity produce, [reachable_float] the states with them. *)

From Stdlib Require Import ZArith Floats Lia Ascii String.
From stdpp Require Import gmap strings list fin_maps pretty sorting.

Open Scope Z_scope.

(** ** Python values and exceptions *)

Inductive pyval : Type :=
| PNone
| PBool (b : bool)
| PInt (z : Z)
| PFloat (f : float)
| PStr (s : string)
| PColl (len : nat).  (* a JSON array or object; only its length is kept *)

Inductive exn : Type :=
| ValueError
| TypeError
| OverflowError
| AttributeError
| IntegrityError   (* sqlite3.IntegrityError *)
| BindingError.    (* sqlite3: unsupported type of a bound parameter *)

(** [data.get(key)] on a dict: [None] when the key is missing. *)
Definition py_get (data : gmap string pyval) (key : string) : pyval :=
  default PNone (data !! key).

(** [data.get(key, dflt)]. *)
Definition py_get_default (data : gmap string pyval) (key : string) (dflt : pyval) : pyval :=
  default dflt (data !! key).

(** [key in data]. *)
Definition py_in (key : string) (data : gmap string pyval) : bool :=
  bool_decide (is_Some (data !! key)).

(** Truth value of a Python object ([not v] is its negation). *)
Definition truthy (v : pyval) : bool :=
  match v with
  | PNone => false
  | PBool b => b
  | PInt z => negb (z =? 0)
  | PFloat f => negb (PrimFloat.eqb f 0%float)
  | PStr s => negb (bool_decide (s = ""))
  | PColl len => negb (Nat.eqb len 0)
  end.

(** [str(v)] as an f-string prints it, for the values that reach one. *)
Definition py_str_int (v : pyval) : string :=
  match v with
  | PBool true => "True"
  | PBool false => "False"
  | PInt z => pretty z
  | _ => ""
  end.

(** ** Responses *)

Inductive body : Type :=
| ErrorMessage (message : string)          (* format_error(message, _) *)
| ErrorStr (pre : string) (e : exn)        (* format_error(f"{pre}{str(e)}", _) *)
| ProductCreated (message : string) (product_id : Z)
| ProductUpdated
| SaleRecorded (sale_id : Z) (message : string) (total_price : float)
               (remaining_stock : Z)
  (* [total_price] is the product before [round(_, 2)] *)
| Restocked (message : string) (new_stock : Z).

(** A response: the JSON body and the HTTP status code. *)
Definition response : Type := body * Z.

Definition format_error (message : string) (status_code : Z) : response :=
  (ErrorMessage message, status_code).

(** The replies that report an error. *)
Definition is_error (r : response) : bool :=
  match r.1 with
  | ErrorMessage _ | ErrorStr _ _ => true
  | _ => false
  end.

(** ** The control monad of a handler body *)

Inductive res (A : Type) : Type :=
| Ret (a : A)
| ReturnError (message : string) (status_code : Z)
    (* [return format_error(message, status_code)] before the commit *)
| Raise (e : exn)
| OutOfScope.
Arguments Ret {A} a.
Arguments ReturnError {A} message status_code.
Arguments Raise {A} e.
Arguments OutOfScope {A}.

#[global] Instance res_ret : MRet res := λ A a, Ret a.
#[global] Instance res_bind : MBind res := λ A B k m,
  match m with
  | Ret a => k a
  | ReturnError message status_code => ReturnError message status_code
  | Raise e => Raise e
  | OutOfScope => OutOfScope
  end.

(** ** Numeric conversions *)

(** Python's [int -> float] conversion rounds to nearest, ties to even. *)
Definition float_of_Z (z : Z) : float :=
  SF2Prim (binary_normalize prec emax z 0 false).

(** The implicit conversion of an [int] operand of a float operation.  "int
    too large to convert to float" when the rounded value overflows, that is
    from the midpoint of the largest double and [2 ^ 1024] on. *)
Definition int_as_double (z : Z) : res float :=
  if Z.abs z <? 2 ^ 1024 - 2 ^ 970 then Ret (float_of_Z z)
  else Raise OverflowError.

(** Truncation of a finite float towards zero. *)
Definition trunc_float (f : float) : res Z :=
  match Prim2SF f with
  | S754_zero _ => Ret 0
  | S754_infinity _ => Raise OverflowError
  | S754_nan => Raise ValueError
  | S754_finite s m e =>
      let a := if 0 <=? e then Z.pos m * 2 ^ e else Z.pos m / 2 ^ (- e) in
      Ret (if s then - a else a)
  end.

(** [int(v)]. *)
Definition py_int (v : pyval) : res Z :=
  match v with
  | PInt z => Ret z
  | PBool b => Ret (if b then 1 else 0)
  | PFloat f => trunc_float f
  | PStr _ => OutOfScope
  | PNone | PColl _ => Raise TypeError
  end.

(** [float(v)]. *)
Definition py_float (v : pyval) : res float :=
  match v with
  | PInt z => int_as_double z
  | PBool b => Ret (if b then 1%float else 0%float)
  | PFloat f => Ret f
  | PStr _ => OutOfScope
  | PNone | PColl _ => Raise TypeError
  end.

(** [v <= 0]. *)
Definition py_le_zero (v : pyval) : res bool :=
  match v with
  | PInt z => Ret (z <=? 0)
  | PBool b => Ret (negb b)
  | PFloat f => Ret (PrimFloat.leb f 0%float)
  | PNone | PStr _ | PColl _ => Raise TypeError
  end.

(** A quantity used in integer arithmetic with the stock: an [int] (or a
    [bool], which is one).  A float quantity is accepted by the handlers as
    well and makes the stock arithmetic floating point: that path is
    [add_sale_float] and [restock_float], and [OutOfScope] here sends a
    float there. *)
Definition py_quantity (v : pyval) : res Z :=
  match v with
  | PInt z => Ret z
  | PBool b => Ret (if b then 1 else 0)
  | PFloat _ => OutOfScope
  | PNone | PStr _ | PColl _ => Raise TypeError
  end.

(** [s.strip()]: the white space of [str.strip] among the code points below
    256. *)
Definition py_isspace (c : ascii) : bool :=
  let n := Z.of_N (N_of_ascii c) in
  ((9 <=? n) && (n <=? 13)) || ((28 <=? n) && (n <=? 32))
  || (n =? 133) || (n =? 160).

Fixpoint lstrip (s : string) : string :=
  match s with
  | String c s' => if py_isspace c then lstrip s' else s
  | EmptyString => EmptyString
  end.

Fixpoint rstrip (s : string) : string :=
  match s with
  | String c s' =>
      match rstrip s' with
      | EmptyString => if py_isspace c then EmptyString else String c EmptyString
      | t => String c t
      end
  | EmptyString => EmptyString
  end.

Definition py_strip (v : pyval) : res string :=
  match v with
  | PStr s => Ret (rstrip (lstrip s))
  | _ => Raise AttributeError
  end.

(** ** SQLite parameter binding *)

Definition int64 (z : Z) : bool := (- 2 ^ 63 <=? z) && (z <? 2 ^ 63).

(** A Python [int] bound to a statement: "Python int too large to convert
    to SQLite INTEGER" outside 64 bits. *)
Definition bind_int (z : Z) : res Z :=
  if int64 z then Ret z else Raise OverflowError.

(** A float bound to a [NOT NULL] column: SQLite stores NaN as NULL. *)
Definition bind_real_not_null (f : float) : res float :=
  if PrimFloat.is_nan f then Raise IntegrityError else Ret f.

(** A value compared with an [INTEGER PRIMARY KEY] in [WHERE id = ?]:
    the key it can match, if any. *)
Definition bind_key (v : pyval) : res (option Z) :=
  match v with
  | PNone => Ret None
  | PInt z => z' ← bind_int z; Ret (Some z')
  | PBool b => Ret (Some (if b then 1 else 0))
  | PFloat _ | PStr _ => OutOfScope
  | PColl _ => Raise BindingError
  end.

(** A value written into a [TEXT NOT NULL] column. *)
Definition bind_text_not_null (v : pyval) : res string :=
  match v with
  | PStr s => Ret s
  | PNone => Raise IntegrityError
  | PInt z => z' ← bind_int z; Ret (pretty z')
  | PBool b => Ret (if b then "1" else "0")
  | PFloat _ => OutOfScope
  | PColl _ => Raise BindingError
  end.

(** ** The database *)

(** A stored [CURRENT_TIMESTAMP], text 'YYYY-MM-DD HH:MM:SS' (UTC): the day
    as a day number, and the second of that day. *)
Record timestamp : Type := { ts_day : Z; ts_sec : Z }.

Record product : Type := {
  p_name : string;
  p_sku : string;
  p_category_id : Z;
  p_price : float;
  p_purchasing_price : float;
  p_stock_quantity : Z;
  p_min_stock_level : Z;
  p_created_at : timestamp;
  p_updated_at : timestamp
}.

Record sale : Type := {
  s_id : Z;
  s_product_id : Z;
  s_quantity : Z;
  s_total_price : float;
  s_sale_date : timestamp
}.

Record stock_log : Type := {
  l_id : Z;
  l_product_id : Z;
  l_change_amount : Z;
  l_reason : string;
  l_timestamp : timestamp
}.

(** Tables keyed by their [INTEGER PRIMARY KEY AUTOINCREMENT]; the
    append-only tables [sales] and [stock_logs] in insertion order.  The
    [seq_] fields are the rows of [sqlite_sequence].  Rowids are not bounded
    here: a table never runs out of them. *)
Record db : Type := {
  categories : gmap Z string;
  products : gmap Z product;
  sales : list sale;
  stock_logs : list stock_log;
  seq_products : Z;
  seq_sales : Z;
  seq_stock_logs : Z
}.

(** The largest key of a table, 0 when it is empty. *)
Definition max_key {A} (m : gmap Z A) : Z :=
  map_fold (λ k _ acc, Z.max k acc) 0 m.

Definition max_id {A} (id : A → Z) (rows : list A) : Z :=
  foldr (λ r acc, Z.max (id r) acc) 0 rows.

(** AUTOINCREMENT: one more than the largest rowid that ever existed. *)
Definition next_product_id (st : db) : Z :=
  Z.max (seq_products st) (max_key (products st)) + 1.
Definition next_sale_id (st : db) : Z :=
  Z.max (seq_sales st) (max_id s_id (sales st)) + 1.
Definition next_stock_log_id (st : db) : Z :=
  Z.max (seq_stock_logs st) (max_id l_id (stock_logs st)) + 1.

(** [INSERT INTO stock_logs (product_id, change_amount, reason, timestamp)
    VALUES (?, ?, ?, CURRENT_TIMESTAMP)]. *)
Definition insert_stock_log (pid change : Z) (reason : string) (now : timestamp)
    (st : db) : db :=
  let id := next_stock_log_id st in
  {| categories := categories st;
     products := products st;
     sales := sales st;
     stock_logs := stock_logs st ++
       [{| l_id := id; l_product_id := pid; l_change_amount := change;
           l_reason := reason; l_timestamp := now |}];
     seq_products := seq_products st;
     seq_sales := seq_sales st;
     seq_stock_logs := id |}.

(** [INSERT INTO sales (product_id, quantity, total_price, sale_date)
    VALUES (?, ?, ?, CURRENT_TIMESTAMP)]. *)
Definition insert_sale (pid quantity : Z) (total_price : float) (now : timestamp)
    (st : db) : db :=
  let id := next_sale_id st in
  {| categories := categories st;
     products := products st;
     sales := sales st ++
       [{| s_id := id; s_product_id := pid; s_quantity := quantity;
           s_total_price := total_price; s_sale_date := now |}];
     stock_logs := stock_logs st;
     seq_products := seq_products st;
     seq_sales := id;
     seq_stock_logs := seq_stock_logs st |}.

Definition with_products (ps : gmap Z product) (st : db) : db :=
  {| categories := categories st;
     products := ps;
     sales := sales st;
     stock_logs := stock_logs st;
     seq_products := seq_products st;
     seq_sales := seq_sales st;
     seq_stock_logs := seq_stock_logs st |}.

Definition set_stock (new_stock : Z) (now : timestamp) (p : product) : product :=
  {| p_name := p_name p; p_sku := p_sku p; p_category_id := p_category_id p;
     p_price := p_price p; p_purchasing_price := p_purchasing_price p;
     p_stock_quantity := new_stock;
     p_min_stock_level := p_min_stock_level p;
     p_created_at := p_created_at p; p_updated_at := now |}.

(** [UPDATE products SET stock_quantity = ?, updated_at = CURRENT_TIMESTAMP
    WHERE id = ?]. *)
Definition update_stock (pid new_stock : Z) (now : timestamp) (st : db) : db :=
  with_products (alter (set_stock new_stock now) pid (products st)) st.

(** ** Handlers: the outcome of a request *)

(** The [try]/[except] around a handler body: [except ValueError] (when the
    handler has one) answers 400, [except Exception] answers 500.  Nothing is
    committed on those paths. *)
Definition handle (value_error_400 : bool) (failed : string) (st : db)
    (m : res (response * db)) : option (response * db) :=
  match m with
  | Ret out => Some out
  | ReturnError message status_code =>
      Some (format_error message status_code, st)
  | Raise ValueError =>
      if value_error_400
      then Some ((ErrorStr "Invalid value: " ValueError, 400), st)
      else Some ((ErrorStr failed ValueError, 500), st)
  | Raise e => Some ((ErrorStr failed e, 500), st)
  | OutOfScope => None
  end.

(** ** [add_sale]: POST /api/add-sale *)

(** The checks made before the connection is opened. *)
Definition check_quantity (product_id quantity : pyval) : res unit :=
  if negb (truthy product_id) || negb (truthy quantity)
  then ReturnError "product_id and quantity are required" 400
  else
    nonpos ← py_le_zero quantity;
    if nonpos : bool
    then ReturnError "Quantity must be greater than 0" 400
    else Ret ().

(** The handler on a quantity that is not a float. *)
Definition add_sale_body (data : gmap string pyval) (clk : nat → timestamp)
    (st : db) : res (response * db) :=
  let product_id := py_get data "product_id" in
  let quantity := py_get data "quantity" in
  _ ← check_quantity product_id quantity;
  key ← bind_key product_id;
  match key ≫= (products st !!.) with
  | None => ReturnError "Product not found" 404
  | Some product =>
      let pid := default 0 key in
      let current_stock := p_stock_quantity product in
      let price := p_price product in
      let product_name := p_name product in
      q ← py_quantity quantity;
      if current_stock <? q
      then ReturnError ("Insufficient stock. Available: " +:+ pretty current_stock
                     +:+ ", Requested: " +:+ py_str_int quantity) 400
      else
        fq ← int_as_double q;
        let total_price := PrimFloat.mul price fq in
        let new_stock := current_stock - q in
        new_stock' ← bind_int new_stock;
        let st1 := update_stock pid new_stock' (clk 0%nat) st in
        q' ← bind_int q;
        total' ← bind_real_not_null total_price;
        let sale_id := next_sale_id st1 in
        let st2 := insert_sale pid q' total' (clk 1%nat) st1 in
        change ← bind_int (- q);
        let st3 := insert_stock_log pid change ("Sale #" +:+ pretty sale_id)
                     (clk 2%nat) st2 in
        Ret ((SaleRecorded sale_id
                ("Sale recorded: " +:+ py_str_int quantity +:+ " x " +:+ product_name)
                total_price new_stock, 201), st3)
  end.

Definition add_sale (data : gmap string pyval) (clk : nat → timestamp) (st : db)
    : option (response * db) :=
  handle false "Failed to record sale: " st (add_sale_body data clk st).

(** ** [restock]: POST /api/restock *)

(** The handler on a quantity that is not a float. *)
Definition restock_body (data : gmap string pyval) (clk : nat → timestamp)
    (st : db) : res (response * db) :=
  let product_id := py_get data "product_id" in
  let quantity := py_get data "quantity" in
  let reason := py_get_default data "reason" (PStr "Manual restock") in
  _ ← check_quantity product_id quantity;
  key ← bind_key product_id;
  match key ≫= (products st !!.) with
  | None => ReturnError "Product not found" 404
  | Some product =>
      let pid := default 0 key in
      let current_stock := p_stock_quantity product in
      let product_name := p_name product in
      q ← py_quantity quantity;
      let new_stock := current_stock + q in
      new_stock' ← bind_int new_stock;
      let st1 := update_stock pid new_stock' (clk 0%nat) st in
      q' ← bind_int q;
      reason' ← bind_text_not_null reason;
      let st2 := insert_stock_log pid q' reason' (clk 1%nat) st1 in
      Ret ((Restocked
              ("Restocked " +:+ py_str_int quantity +:+ " units of " +:+ product_name)
              new_stock, 200), st2)
  end.

Definition restock (data : gmap string pyval) (clk : nat → timestamp) (st : db)
    : option (response * db) :=
  handle false "Failed to restock: " st (restock_body data clk st).

(** ** [add_sale] and [restock] on a quantity that is a float *)

(** Neither handler converts [quantity], where [create_product] and
    [update_product] convert their numbers with [int()] and [float()]: a
    JSON number written with a fraction or an exponent reaches the
    statements of the handler as a float, and they compute in floating
    point.  [add_sale_body] and [restock_body] above are the handlers on
    every other quantity; the definitions below are the same statements on a
    float.  The two together are the source functions. *)

(** The integer that a float is, when it is one. *)
Definition float_to_Z (f : float) : option Z :=
  match Prim2SF f with
  | S754_zero _ => Some 0
  | S754_finite s m e =>
      if 0 <=? e then Some (cond_Zopp s (Z.pos m * 2 ^ e))
      else if Z.pos m mod 2 ^ (- e) =? 0
      then Some (cond_Zopp s (Z.pos m / 2 ^ (- e)))
      else None
  | S754_infinity _ | S754_nan => None
  end.

(** [z < f] for an [int] and a float: Python compares the exact values. *)
Definition Z_ltb_float (z : Z) (f : float) : bool :=
  match Prim2SF f with
  | S754_zero _ => z <? 0
  | S754_finite s m e =>
      if 0 <=? e then z <? cond_Zopp s (Z.pos m * 2 ^ e)
      else z * 2 ^ (- e) <? cond_Zopp s (Z.pos m)
  | S754_infinity s => negb s
  | S754_nan => false
  end.

(** A float written into an [INTEGER NOT NULL] column.  NaN is stored as
    NULL, which the constraint refuses.  The affinity of the column turns a
    float that is an integer strictly between the least and the largest
    64-bit integer into that integer.  Any other float stays a REAL in the
    column, which the tables of [db] do not hold. *)
Definition bind_float_integer_column (f : float) : res Z :=
  if PrimFloat.is_nan f then Raise IntegrityError
  else
    match float_to_Z f with
    | Some z =>
        if (- 2 ^ 63 <? z) && (z <? 2 ^ 63 - 1) then Ret z else OutOfScope
    | None => OutOfScope
    end.

(** [str(f)] as an f-string prints a float: for a float that is an integer
    other than zero and below ten to the sixteenth, the digits of the
    integer and ".0".  The other floats are printed with a fraction or an
    exponent, whose digits are not embedded. *)
Definition py_str_float (f : float) : res string :=
  match float_to_Z f with
  | Some z =>
      if negb (z =? 0) && (Z.abs z <? 10 ^ 16) then Ret (pretty z +:+ ".0")
      else OutOfScope
  | None => OutOfScope
  end.

(** The replies on a float quantity: the numbers of the successful ones are
    floats. *)
Inductive float_reply : Type :=
| SaleRecordedFloat (sale_id : Z) (message : string)
    (total_price remaining_stock : float)            (* status 201 *)
| RestockedFloat (message : string) (new_stock : float)  (* status 200 *)
| ErrorReply (r : response).

(** The [try]/[except Exception] of the two handlers. *)
Definition handle_float (failed : string) (st : db)
    (m : res (float_reply * db)) : option (float_reply * db) :=
  match m with
  | Ret out => Some out
  | ReturnError message status_code =>
      Some (ErrorReply (format_error message status_code), st)
  | Raise e => Some (ErrorReply (ErrorStr failed e, 500), st)
  | OutOfScope => None
  end.

(** The statements of [add_sale] before its first write, on a float
    quantity: the checks, the row of the product, [total_price] and
    [new_stock]. *)
Definition add_sale_float_checks (data : gmap string pyval) (st : db)
    : res (Z * product * float * float * float) :=
  let product_id := py_get data "product_id" in
  let quantity := py_get data "quantity" in
  _ ← check_quantity product_id quantity;
  key ← bind_key product_id;
  match key ≫= (products st !!.) with
  | None => ReturnError "Product not found" 404
  | Some product =>
      match quantity with
      | PFloat q =>
          let current_stock := p_stock_quantity product in
          let price := p_price product in
          if Z_ltb_float current_stock q
          then
            requested ← py_str_float q;
            ReturnError ("Insufficient stock. Available: " +:+ pretty current_stock
                         +:+ ", Requested: " +:+ requested) 400
          else
            let total_price := PrimFloat.mul price q in
            stock ← int_as_double current_stock;
            let new_stock := PrimFloat.sub stock q in
            Ret (default 0 key, product, q, total_price, new_stock)
      | _ => OutOfScope
      end
  end.

Definition add_sale_float_body (data : gmap string pyval) (clk : nat → timestamp)
    (st : db) : res (float_reply * db) :=
  '(pid, product, q, total_price, new_stock) ← add_sale_float_checks data st;
  new_stock' ← bind_float_integer_column new_stock;
  let st1 := update_stock pid new_stock' (clk 0%nat) st in
  q' ← bind_float_integer_column q;
  total' ← bind_real_not_null total_price;
  let sale_id := next_sale_id st1 in
  let st2 := insert_sale pid q' total' (clk 1%nat) st1 in
  change ← bind_float_integer_column (PrimFloat.opp q);
  let st3 := insert_stock_log pid change ("Sale #" +:+ pretty sale_id)
               (clk 2%nat) st2 in
  sold ← py_str_float q;
  Ret (SaleRecordedFloat sale_id
         ("Sale recorded: " +:+ sold +:+ " x " +:+ p_name product)
         total_price new_stock, st3).

Definition add_sale_float (data : gmap string pyval) (clk : nat → timestamp)
    (st : db) : option (float_reply * db) :=
  handle_float "Failed to record sale: " st (add_sale_float_body data clk st).

Definition restock_float_body (data : gmap string pyval) (clk : nat → timestamp)
    (st : db) : res (float_reply * db) :=
  let product_id := py_get data "product_id" in
  let quantity := py_get data "quantity" in
  let reason := py_get_default data "reason" (PStr "Manual restock") in
  _ ← check_quantity product_id quantity;
  key ← bind_key product_id;
  match key ≫= (products st !!.) with
  | None => ReturnError "Product not found" 404
  | Some product =>
      match quantity with
      | PFloat q =>
          let pid := default 0 key in
          let current_stock := p_stock_quantity product in
          let product_name := p_name product in
          stock ← int_as_double current_stock;
          let new_stock := PrimFloat.add stock q in
          new_stock' ← bind_float_integer_column new_stock;
          let st1 := update_stock pid new_stock' (clk 0%nat) st in
          q' ← bind_float_integer_column q;
          reason' ← bind_text_not_null reason;
          let st2 := insert_stock_log pid q' reason' (clk 1%nat) st1 in
          added ← py_str_float q;
          Ret (RestockedFloat
                 ("Restocked " +:+ added +:+ " units of " +:+ product_name)
                 new_stock, st2)
      | _ => OutOfScope
      end
  end.

Definition restock_float (data : gmap string pyval) (clk : nat → timestamp)
    (st : db) : option (float_reply * db) :=
  handle_float "Failed to restock: " st (restock_float_body data clk st).

(** ** [init_db]: the tables of a fresh database file *)

Definition sample_categories : list string :=
  ["Electronics"; "Clothing"; "Food & Beverages"; "Books"; "Home & Garden";
   "Sports & Outdoors"; "Toys & Games"; "Health & Beauty"].

Definition init_db : db :=
  {| categories :=
       list_to_map (zip (Z.of_nat <$> seq 1 (length sample_categories))
                        sample_categories);
     products := ∅;
     sales := [];
     stock_logs := [];
     seq_products := 0;
     seq_sales := 0;
     seq_stock_logs := 0 |}.

(** ** [create_product]: POST /api/products *)

Definition required_fields : list string :=
  ["name"; "sku"; "category_id"; "price"; "purchasing_price"].

(** The loop over [required_fields]: the first missing one is reported. *)
Fixpoint check_required (fields : list string) (data : gmap string pyval)
    : res unit :=
  match fields with
  | [] => Ret ()
  | field :: rest =>
      if py_in field data then check_required rest data
      else ReturnError (field +:+ " is required") 400
  end.

(** [SELECT id FROM products WHERE sku = ?] finds a row. *)
Definition sku_exists (sku : string) (st : db) : bool :=
  bool_decide (map_Exists (λ _ p, p_sku p = sku) (products st)).

(** [SELECT id FROM products WHERE sku = ? AND id != ?] finds a row. *)
Definition sku_taken_by_other (sku : string) (product_id : Z) (st : db) : bool :=
  bool_decide (map_Exists (λ k p, p_sku p = sku ∧ k ≠ product_id) (products st)).

(** [INSERT INTO products (...) VALUES (?, ?, ?, ?, ?, ?, ?)]: the bound
    parameters are converted, then the [NOT NULL] and [UNIQUE] constraints of
    the table are checked. *)
Definition insert_product (name sku : string) (category_id : Z)
    (price purchasing_price : float) (stock_quantity min_stock_level : Z)
    (now : timestamp) (st : db) : res db :=
  stock' ← bind_int stock_quantity;
  min' ← bind_int min_stock_level;
  price' ← bind_real_not_null price;
  purchasing' ← bind_real_not_null purchasing_price;
  if sku_exists sku st then Raise IntegrityError
  else
    let id := next_product_id st in
    Ret {| categories := categories st;
           products :=
             <[id := {| p_name := name; p_sku := sku;
                        p_category_id := category_id;
                        p_price := price';
                        p_purchasing_price := purchasing';
                        p_stock_quantity := stock';
                        p_min_stock_level := min';
                        p_created_at := now; p_updated_at := now |}]>
               (products st);
           sales := sales st;
           stock_logs := stock_logs st;
           seq_products := id;
           seq_sales := seq_sales st;
           seq_stock_logs := seq_stock_logs st |}.

Definition dquote : string := String (ascii_of_nat 34) EmptyString.

(** The body of the handler.  [seen] is the committed state that the two
    [SELECT]s read, [st] the committed state when the [INSERT] runs: they
    differ when another request commits in between. *)
Definition create_product_body (data : gmap string pyval) (clk : nat → timestamp)
    (seen st : db) : res (response * db) :=
  _ ← check_required required_fields data;
  name ← py_strip (py_get data "name");
  sku ← py_strip (py_get data "sku");
  let category_id := py_get data "category_id" in
  price ← py_float (py_get data "price");
  purchasing_price ← py_float (py_get_default data "purchasing_price" (PInt 0));
  stock_quantity ← py_int (py_get_default data "stock_quantity" (PInt 0));
  min_stock_level ← py_int (py_get_default data "min_stock_level" (PInt 5));
  if bool_decide (name = "") || bool_decide (sku = "")
  then ReturnError "Name and SKU are required" 400
  else if PrimFloat.leb price 0%float
  then ReturnError "Price must be greater than 0" 400
  else if PrimFloat.ltb purchasing_price 0%float
  then ReturnError "Purchasing price cannot be negative" 400
  else if stock_quantity <? 0
  then ReturnError "Stock quantity cannot be negative" 400
  else if sku_exists sku seen
  then ReturnError "SKU already exists" 400
  else
    key ← bind_key category_id;
    match key ≫= (categories seen !!.) with
    | None => ReturnError "Category not found" 404
    | Some _ =>
        let cat := default 0 key in
        let product_id := next_product_id st in
        st1 ← insert_product name sku cat price purchasing_price
                stock_quantity min_stock_level (clk 0%nat) st;
        let st2 :=
          if 0 <? stock_quantity
          then insert_stock_log product_id stock_quantity "Initial stock"
                 (clk 1%nat) st1
          else st1 in
        Ret ((ProductCreated
                ("Product " +:+ dquote +:+ name +:+ dquote
                 +:+ " created successfully") product_id, 201), st2)
    end.

(** [except sqlite3.IntegrityError] of the inner [try], then the handlers
    of the outer one. *)
Definition create_product_racing (data : gmap string pyval)
    (clk : nat → timestamp) (seen st : db) : option (response * db) :=
  match create_product_body data clk seen st with
  | Raise IntegrityError => Some (format_error "SKU already exists" 400, st)
  | m => handle true "Failed to create product: " st m
  end.

(** The handler with no other request in between. *)
Definition create_product (data : gmap string pyval) (clk : nat → timestamp)
    (st : db) : option (response * db) :=
  create_product_racing data clk st st.

(** ** [update_product]: PUT /api/products/<int:product_id> *)

(** [if key in data: ...]: the field's branch when the key is present. *)
Definition if_present {A} (key : string) (data : gmap string pyval)
    (branch : pyval → res A) : res (option A) :=
  match data !! key with
  | Some v => a ← branch v; Ret (Some a)
  | None => Ret None
  end.

(** [UPDATE products SET <the provided fields>, updated_at =
    CURRENT_TIMESTAMP WHERE id = ?] on one row. *)
Definition set_fields (name sku : option string) (category_id : option Z)
    (price purchasing_price : option float)
    (stock_quantity min_stock_level : option Z) (now : timestamp)
    (p : product) : product :=
  {| p_name := default (p_name p) name;
     p_sku := default (p_sku p) sku;
     p_category_id := default (p_category_id p) category_id;
     p_price := default (p_price p) price;
     p_purchasing_price := default (p_purchasing_price p) purchasing_price;
     p_stock_quantity := default (p_stock_quantity p) stock_quantity;
     p_min_stock_level := default (p_min_stock_level p) min_stock_level;
     p_created_at := p_created_at p;
     p_updated_at := now |}.

(** The conversion of an optional bound parameter. *)
Definition bind_opt {A} (bind : A → res A) (o : option A) : res (option A) :=
  match o with
  | Some a => a' ← bind a; Ret (Some a')
  | None => Ret None
  end.

Definition update_product_body (product_id : Z) (data : gmap string pyval)
    (clk : nat → timestamp) (st : db) : res (response * db) :=
  pid ← bind_int product_id;
  match products st !! pid with
  | None => ReturnError "Product not found" 404
  | Some row =>
      name ← if_present "name" data (λ v,
        name ← py_strip v;
        if bool_decide (name = "")
        then ReturnError "Name cannot be empty" 400
        else Ret name);
      sku ← if_present "sku" data (λ v,
        sku ← py_strip v;
        if bool_decide (sku = "")
        then ReturnError "SKU cannot be empty" 400
        else if sku_taken_by_other sku pid st
        then ReturnError "SKU already exists" 400
        else Ret sku);
      category_id ← if_present "category_id" data (λ v,
        key ← bind_key v;
        match key ≫= (categories st !!.) with
        | None => ReturnError "Category not found" 404
        | Some _ => Ret (default 0 key)
        end);
      price ← if_present "price" data (λ v,
        price ← py_float v;
        if PrimFloat.leb price 0%float
        then ReturnError "Price must be greater than 0" 400
        else Ret price);
      purchasing_price ← if_present "purchasing_price" data (λ v,
        purchasing_price ← py_float v;
        if PrimFloat.ltb purchasing_price 0%float
        then ReturnError "Purchasing price cannot be negative" 400
        else Ret purchasing_price);
      stock ← if_present "stock_quantity" data (λ v,
        stock_quantity ← py_int v;
        if stock_quantity <? 0
        then ReturnError "Stock quantity cannot be negative" 400
        else
          let current_stock := p_stock_quantity row in
          let stock_change := stock_quantity - current_stock in
          Ret (stock_quantity, stock_change));
      min_stock_level ← if_present "min_stock_level" data (λ v,
        min_stock_level ← py_int v;
        if min_stock_level <? 0
        then ReturnError "Min stock level cannot be negative" 400
        else Ret min_stock_level);
      if bool_decide (name = None) && bool_decide (sku = None)
         && bool_decide (category_id = None) && bool_decide (price = None)
         && bool_decide (purchasing_price = None) && bool_decide (stock = None)
         && bool_decide (min_stock_level = None)
      then ReturnError "No fields to update" 400
      else
        stock' ← bind_opt bind_int (fst <$> stock);
        min' ← bind_opt bind_int min_stock_level;
        price' ← bind_opt bind_real_not_null price;
        purchasing' ← bind_opt bind_real_not_null purchasing_price;
        let st1 :=
          with_products
            (<[pid := set_fields name sku category_id price' purchasing'
                        stock' min' (clk 0%nat) row]> (products st)) st in
        match stock with
        | Some (_, stock_change) =>
            if stock_change =? 0 then Ret ((ProductUpdated, 200), st1)
            else
              let reason := if 0 <? stock_change then "Stock adjustment"
                            else "Stock reduction" in
              change ← bind_int stock_change;
              Ret ((ProductUpdated, 200),
                   insert_stock_log pid change reason (clk 1%nat) st1)
        | None => Ret ((ProductUpdated, 200), st1)
        end
  end.

Definition update_product (product_id : Z) (data : gmap string pyval)
    (clk : nat → timestamp) (st : db) : option (response * db) :=
  handle true "Failed to update product: " st
    (update_product_body product_id data clk st).

(** ** Reporting: [dashboard_stats] and [get_sales] *)

(** [datetime.now()]: the local date as a day number, the second of the day
    and the microsecond. *)
Record datetime : Type := { dt_day : Z; dt_sec : Z; dt_usec : Z }.

(** [dt - timedelta(days=n)]. *)
Definition minus_days (dt : datetime) (n : Z) : datetime :=
  {| dt_day := dt_day dt - n; dt_sec := dt_sec dt; dt_usec := dt_usec dt |}.

(** [sale_date >= ?] with [?] bound to [dt.isoformat()].  Both sides are
    text and are compared byte by byte: a stored 'YYYY-MM-DD HH:MM:SS'
    against 'YYYY-MM-DDTHH:MM:SS[.ffffff]'.  The ten characters of the date
    decide; on equal dates the eleventh does, a space against a 'T'. *)
Definition sale_date_ge_isoformat (t : timestamp) (dt : datetime) : bool :=
  match ts_day t ?= dt_day dt with
  | Gt => true
  | Lt => false
  | Eq => Z.of_N (N_of_ascii "T") <=? Z.of_N (N_of_ascii " ")
  end.

(** One row of [get_sales]: a sale joined with its product. *)
Record sales_row : Type := {
  r_id : Z;
  r_product_id : Z;
  r_product_name : string;
  r_sku : string;
  r_quantity : Z;
  r_total_price : float;
  r_sale_date : timestamp
}.

(** The order of stored timestamps, that of their text. *)
Definition ts_leb (a b : timestamp) : bool :=
  (ts_day a <? ts_day b) || ((ts_day a =? ts_day b) && (ts_sec a <=? ts_sec b)).

(** The columns selected from a sale and its product. *)
Definition joined_row (s : sale) (p : product) : sales_row :=
  {| r_id := s_id s; r_product_id := s_product_id s;
     r_product_name := p_name p; r_sku := p_sku p;
     r_quantity := s_quantity s; r_total_price := s_total_price s;
     r_sale_date := s_sale_date s |}.

(** [FROM sales s JOIN products p ON s.product_id = p.id]. *)
Definition join_sales (st : db) : list sales_row :=
  omap (λ s, joined_row s <$> products st !! s_product_id s) (sales st).

Section Reporting.

(** SQLite's [SUM] over [REAL] values; its summation algorithm is left
    open. *)
Variable sql_sum : list float → float.

(** SQLite's [ORDER BY s.sale_date DESC]: some rearrangement of the rows
    in descending order; the order among equal timestamps is left open. *)
Variable order_by_sale_date_desc : list sales_row → list sales_row.

(** The rows selected by [WHERE sale_date >= ?]. *)
Definition recent_sales (bound : datetime) (st : db) : list sale :=
  filter (λ s, sale_date_ge_isoformat (s_sale_date s) bound = true) (sales st).

(** The group of one [DATE(sale_date)]. *)
Definition sales_of_day (d : Z) (rows : list sale) : list sale :=
  filter (λ s, ts_day (s_sale_date s) = d) rows.

(** The dict built from [SELECT DATE(sale_date), COALESCE(SUM(total_price),
    0) ... GROUP BY DATE(sale_date)]: one key per date that has a selected
    sale. *)
Definition sales_data (bound : datetime) (st : db) : gmap Z float :=
  let rows := recent_sales bound st in
  list_to_map
    ((λ s, let d := ts_day (s_sale_date s) in
           (d, sql_sum (s_total_price <$> sales_of_day d rows))) <$> rows).

(** The loop [for i in range(7)], from [i] on: the [i]-th pass reads the
    clock anew ([now (S i)]; [now 0] was read for the query). *)
Fixpoint trend_loop (now : nat → datetime) (data : gmap Z float)
    (i n : nat) : list (Z * float) :=
  match n with
  | O => []
  | S n' =>
      let date := dt_day (minus_days (now (S i)) (6 - Z.of_nat i)) in
      let daily_sale := default 0%float (data !! date) in
      (date, daily_sale) :: trend_loop now data (S i) n'
  end.

(** The [sales_trend] of [dashboard_stats]: the list of
    [{'date': ..., 'value': ...}]. *)
Definition sales_trend (now : nat → datetime) (st : db) : list (Z * float) :=
  let seven_days_ago := minus_days (now 0%nat) 7 in
  trend_loop now (sales_data seven_days_ago st) 0 7.

(** The value reported for a date: the sum over the sales of that date,
    [0.0] when there are none. *)
Definition daily_value (st : db) (d : Z) : float :=
  match sales_of_day d (sales st) with
  | [] => 0%float
  | rows => sql_sum (s_total_price <$> rows)
  end.

(** [SELECT COUNT( * ) FROM products WHERE stock_quantity <=
    min_stock_level] and [SELECT COUNT( * ) FROM sales]. *)
Definition low_stock_count (st : db) : Z :=
  Z.of_nat (size (filter
    (λ kp : Z * product, p_stock_quantity kp.2 ≤ p_min_stock_level kp.2)
    (products st))).
Definition total_orders (st : db) : Z := Z.of_nat (length (sales st)).

(** [get_sales]: GET /api/sales.  The handler reads nothing of the
    request; [args] are the query parameters it was sent. *)
Definition get_sales (args : gmap string string) (st : db) : list sales_row :=
  take 100 (order_by_sale_date_desc (join_sales st)).

End Reporting.

(** An [ORDER BY] for concrete runs: insertion into a descending list, equal
    timestamps in insertion order. *)
Fixpoint insert_desc (r : sales_row) (l : list sales_row) : list sales_row :=
  match l with
  | [] => [r]
  | r' :: l' =>
      if ts_leb (r_sale_date r') (r_sale_date r) then r :: l
      else r' :: insert_desc r l'
  end.

Definition sort_desc (l : list sales_row) : list sales_row :=
  foldr insert_desc [] l.

(** A [SUM] for concrete runs: the floats added from left to right. *)
Definition sum_left (l : list float) : float :=
  foldl PrimFloat.add 0%float l.

(** ** The public operations and the reachable states *)

Inductive request : Type :=
| CreateProduct (data : gmap string pyval)
| UpdateProduct (product_id : Z) (data : gmap string pyval)
| RecordSale (data : gmap string pyval)
| Restock (data : gmap string pyval).

Definition perform (rq : request) (clk : nat → timestamp) (st : db)
    : option (response * db) :=
  match rq with
  | CreateProduct data => create_product data clk st
  | UpdateProduct product_id data => update_product product_id data clk st
  | RecordSale data => add_sale data clk st
  | Restock data => restock data clk st
  end.

(** The committed states that requests served one after the other produce
    from a fresh database, when no sale and no restock has a float
    quantity ([perform] has no result on one). *)
Inductive reachable : db → Prop :=
| reachable_init : reachable init_db
| reachable_step st rq clk r st' :
    reachable st → perform rq clk st = Some (r, st') → reachable st'.

(** The state after a request, the same state when the request has no
    result in the model. *)
Definition after (rq : request) (clk : nat → timestamp) (st : db) : db :=
  match perform rq clk st with
  | Some (_, st') => st'
  | None => st
  end.

(** The committed states when the quantity of a sale or of a restock may
    also be a float.  [add_sale_float] and [restock_float] have no result
    where a float stays a REAL in an INTEGER column, so these are states of
    the program, and not all of them: enough to show that a property of
    every state fails, where [reachable] is the states that requests
    without a float quantity produce. *)
Inductive reachable_float : db → Prop :=
| reachable_float_init : reachable_float init_db
| reachable_float_step st rq clk r st' :
    reachable_float st → perform rq clk st = Some (r, st') →
    reachable_float st'
| reachable_float_sale st data clk r st' :
    reachable_float st → add_sale_float data clk st = Some (r, st') →
    reachable_float st'
| reachable_float_restock st data clk r st' :
    reachable_float st → restock_float data clk st = Some (r, st') →
    reachable_float st'.

(** ** The ledger *)

Definition sum_Z (l : list Z) : Z := foldr Z.add 0 l.

(** The sum of [change_amount] over the [stock_logs] rows of a product. *)
Definition ledger_sum (pid : Z) (logs : list stock_log) : Z :=
  sum_Z (l_change_amount <$> filter (λ l, l_product_id l = pid) logs).

(** Stock and ledger agree; a key without a product has no ledger rows that
    count. *)
Definition ledger_consistent (st : db) : Prop :=
  ∀ pid, ledger_sum pid (stock_logs st)
         = from_option p_stock_quantity 0 (products st !! pid).

Definition stock_nonneg (st : db) : Prop :=
  ∀ pid p, products st !! pid = Some p → 0 ≤ p_stock_quantity p.

(** The price of a product is a positive number, plus infinity included:
    what the checks of the handlers and the [NOT NULL] column let through. *)
Definition price_positive (p : product) : Prop :=
  PrimFloat.is_nan (p_price p) = false ∧
  PrimFloat.leb (p_price p) 0%float = false.

(** What the schema, AUTOINCREMENT and the checks give of every stored
    product: a positive rowid, a 64-bit stock and a positive price. *)
Definition rows_ok (st : db) : Prop :=
  0 ≤ seq_products st ∧
  ∀ pid p, products st !! pid = Some p →
    0 < pid ∧ int64 (p_stock_quantity p) = true ∧ price_positive p.

(** Every sale is the sale of a stored product. *)
Definition sales_have_products (st : db) : Prop :=
  ∀ s, s ∈ sales st → is_Some (products st !! s_product_id s).

(** ** The effect of a request on the stock *)

(** The row that [stock_logs] gains. *)
Definition log_entry (st : db) (pid change : Z) (reason : string)
    (now : timestamp) : stock_log :=
  {| l_id := next_stock_log_id st; l_product_id := pid;
     l_change_amount := change; l_reason := reason; l_timestamp := now |}.

(** What a request does to the stock, whichever operation it is: nothing,
    or one product row is written and the ledger gains the row of the change
    of its stock (none for no change). *)
Definition writes (st st' : db) (pid : Z) (row' : product) : Prop :=
  let old := from_option p_stock_quantity 0 (products st !! pid) in
  let change := p_stock_quantity row' - old in
  products st' = <[pid := row']> (products st) ∧
  (∃ reason now,
     stock_logs st' = stock_logs st ++
       (if change =? 0 then [] else [log_entry st pid change reason now])) ∧
  (0 ≤ old → 0 ≤ p_stock_quantity row') ∧
  (int64 old = true → int64 (p_stock_quantity row') = true) ∧
  (products st !! pid = None → pid = next_product_id st) ∧
  (from_option price_positive True (products st !! pid) → price_positive row') ∧
  seq_products st ≤ seq_products st' ∧
  ∃ new_sales, sales st' = sales st ++ new_sales ∧
    ∀ s, s ∈ new_sales → s_product_id s = pid.

(** ** Requests that pass the checks *)

(** The request passes the field checks of [create_product], with these
    values of the fields. *)
Record valid_fields (data : gmap string pyval) (name sku : string)
    (price purchasing_price : float) (stock_quantity min_stock_level : Z)
    : Prop := {
  vf_required : check_required required_fields data = Ret ();
  vf_name : py_strip (py_get data "name") = Ret name;
  vf_sku : py_strip (py_get data "sku") = Ret sku;
  vf_price : py_float (py_get data "price") = Ret price;
  vf_purchasing_price :
    py_float (py_get_default data "purchasing_price" (PInt 0))
    = Ret purchasing_price;
  vf_stock_quantity :
    py_int (py_get_default data "stock_quantity" (PInt 0)) = Ret stock_quantity;
  vf_min_stock_level :
    py_int (py_get_default data "min_stock_level" (PInt 5)) = Ret min_stock_level;
  vf_name_given : name ≠ "";
  vf_sku_given : sku ≠ "";
  vf_price_positive : PrimFloat.leb price 0%float = false;
  vf_purchasing_price_nonneg : PrimFloat.ltb purchasing_price 0%float = false;
  vf_stock_nonneg : 0 ≤ stock_quantity
}.

(** ** The order of the sales history, the sign of a float *)

(** [a] is listed before [b] in descending order of sale time. *)
Definition not_older (a b : sales_row) : Prop :=
  ts_leb (r_sale_date b) (r_sale_date a) = true.

(** The finite positive numbers and plus infinity. *)
Definition positive_sf (x : spec_float) : Prop :=
  match x with
  | S754_finite false _ _ | S754_infinity false => True
  | _ => False
  end.

(** ** Handlers that only read *)

(** The [try]/[except Exception] around a handler that commits nothing: the
    value that [jsonify] answers with (status 200), or the error reply. *)
Definition read_handle {A} (failed : string) (m : res A)
    : option (A + response) :=
  match m with
  | Ret a => Some (inl a)
  | ReturnError message status_code =>
      Some (inr (format_error message status_code))
  | Raise e => Some (inr (ErrorStr failed e, 500))
  | OutOfScope => None
  end.

(** ** [get_product]: GET /api/products/<int:product_id> *)

(** The nine columns of the row that [get_product] answers with. *)
Record product_row : Type := {
  pr_id : Z;
  pr_name : string;
  pr_sku : string;
  pr_category_id : Z;
  pr_category_name : string;
  pr_price : float;
  pr_purchasing_price : float;
  pr_stock_quantity : Z;
  pr_min_stock_level : Z
}.

(** The columns selected from a product and the name of its category. *)
Definition product_columns (id : Z) (p : product) (category_name : string)
    : product_row :=
  {| pr_id := id; pr_name := p_name p; pr_sku := p_sku p;
     pr_category_id := p_category_id p; pr_category_name := category_name;
     pr_price := p_price p; pr_purchasing_price := p_purchasing_price p;
     pr_stock_quantity := p_stock_quantity p;
     pr_min_stock_level := p_min_stock_level p |}.

(** [FROM products p JOIN categories c ON p.category_id = c.id WHERE
    p.id = ?]: the row, when the product exists and its category does. *)
Definition get_product_body (product_id : Z) (st : db) : res product_row :=
  pid ← bind_int product_id;
  match products st !! pid with
  | Some p =>
      match categories st !! p_category_id p with
      | Some category_name => Ret (product_columns pid p category_name)
      | None => ReturnError "Product not found" 404
      end
  | None => ReturnError "Product not found" 404
  end.

Definition get_product (product_id : Z) (st : db)
    : option (product_row + response) :=
  read_handle "Failed to fetch product: " (get_product_body product_id st).

(** ** SQLite's [LIKE] and [ORDER BY] on text *)

(** [LIKE] folds the case of the ASCII letters only. *)
Definition ascii_lower (c : ascii) : ascii :=
  let n := N_of_ascii c in
  if ((65 <=? n) && (n <=? 90))%N then ascii_of_N (n + 32) else c.

Definition like_char (c d : ascii) : bool :=
  Ascii.eqb (ascii_lower c) (ascii_lower d).

(** The match of a pattern against a text: ['%'] stands for any run of
    characters, ['_'] for any one character, every other character for
    itself up to the case of ASCII letters.  There is no escape character. *)
Fixpoint like (pattern s : string) : bool :=
  match pattern with
  | EmptyString =>
      match s with
      | EmptyString => true
      | String _ _ => false
      end
  | String c pattern' =>
      if Ascii.eqb c "%"
      then
        (fix any (s : string) : bool :=
           like pattern' s ||
           match s with
           | String _ s' => any s'
           | EmptyString => false
           end) s
      else
        match s with
        | EmptyString => false
        | String d s' =>
            (Ascii.eqb c "_" || like_char c d) && like pattern' s'
        end
  end.

(** The [LIKE] function reads its arguments as C strings: up to the first
    NUL character. *)
Fixpoint c_str (s : string) : string :=
  match s with
  | String c s' => if Ascii.eqb c zero then EmptyString else String c (c_str s')
  | EmptyString => EmptyString
  end.

(** [value LIKE pattern]. *)
Definition sql_like (pattern value : string) : bool :=
  like (c_str pattern) (c_str value).

(** What a search for a plain text is meant to find: [t] starts [s], and
    [t] occurs in [s], up to the case of ASCII letters. *)
Fixpoint starts_nocase (t s : string) : bool :=
  match t, s with
  | EmptyString, _ => true
  | String _ _, EmptyString => false
  | String c t', String d s' => like_char c d && starts_nocase t' s'
  end.

Fixpoint occurs_nocase (t s : string) : bool :=
  starts_nocase t s ||
  match s with
  | String _ s' => occurs_nocase t s'
  | EmptyString => false
  end.

(** A text without the characters that [LIKE] and a C string read
    specially. *)
Fixpoint plain_text (t : string) : bool :=
  match t with
  | String c t' =>
      negb (Ascii.eqb c "%") && negb (Ascii.eqb c "_") && negb (Ascii.eqb c zero)
      && plain_text t'
  | EmptyString => true
  end.

(** The number of bytes of the UTF-8 encoding of a text of code points
    below 256. *)
Fixpoint utf8_length (s : string) : Z :=
  match s with
  | String c s' => (if (N_of_ascii c <? 128)%N then 1 else 2) + utf8_length s'
  | EmptyString => 0
  end.

(** SQLITE_MAX_LIKE_PATTERN_LENGTH: a longer pattern makes [LIKE] fail. *)
Definition max_like_pattern_length : Z := 50000.

(** [str.lower] on the code points below 256: the ASCII capitals and the
    Latin-1 capitals (U+00C0 to U+00DE without the multiplication sign). *)
Definition py_lower_char (c : ascii) : ascii :=
  let n := N_of_ascii c in
  if ((65 <=? n) && (n <=? 90) || (192 <=? n) && (n <=? 222) && negb (n =? 215))%N
  then ascii_of_N (n + 32) else c.

Fixpoint py_lower (s : string) : string :=
  match s with
  | String c s' => String (py_lower_char c) (py_lower s')
  | EmptyString => EmptyString
  end.

(** [a] is listed no later than [b] by [ORDER BY <key> ASC]: the texts are
    compared code point by code point (the BINARY collation). *)
Definition name_le {A} (key : A → string) (a b : A) : Prop :=
  String.leb (key a) (key b) = true.

(** ** [get_products], [get_categories] and [export_pdf] *)

(** A row of [get_products]: the columns of [get_product], then
    [created_at] and [updated_at]. *)
Record listed_product : Type := {
  lp_row : product_row;
  lp_created_at : timestamp;
  lp_updated_at : timestamp
}.

(** [FROM products p JOIN categories c ON p.category_id = c.id], one row
    at a time. *)
Definition join_category (st : db) (kp : Z * product) : option listed_product :=
  (λ category_name,
     {| lp_row := product_columns kp.1 kp.2 category_name;
        lp_created_at := p_created_at kp.2;
        lp_updated_at := p_updated_at kp.2 |})
  <$> categories st !! p_category_id kp.2.

Definition products_with_categories (st : db) : list listed_product :=
  omap (join_category st) (map_to_list (products st)).

(** [(p.name LIKE ? OR p.sku LIKE ?)], both parameters bound to
    [f"%{search}%"]. *)
Definition matches_search (search : string) (r : listed_product) : bool :=
  let search_pattern := "%" +:+ search +:+ "%" in
  sql_like search_pattern (pr_name (lp_row r))
  || sql_like search_pattern (pr_sku (lp_row r)).

(** [p.stock_quantity <= p.min_stock_level]. *)
Definition is_low_stock (r : listed_product) : bool :=
  pr_stock_quantity (lp_row r) <=? pr_min_stock_level (lp_row r).

(** The status column of the report:
    [CASE WHEN p.stock_quantity = 0 THEN 'Out of Stock'
          WHEN p.stock_quantity <= p.min_stock_level THEN 'Low Stock'
          ELSE 'In Stock' END]. *)
Definition stock_status (stock_quantity min_stock_level : Z) : string :=
  if stock_quantity =? 0 then "Out of Stock"
  else if stock_quantity <=? min_stock_level then "Low Stock"
  else "In Stock".

(** A row of the query of [export_pdf]. *)
Record report_row : Type := {
  rr_sku : string;
  rr_name : string;
  rr_category_name : string;
  rr_price : float;
  rr_stock_quantity : Z;
  rr_min_stock_level : Z;
  rr_status : string
}.

Definition report_columns (r : listed_product) : report_row :=
  let row := lp_row r in
  {| rr_sku := pr_sku row; rr_name := pr_name row;
     rr_category_name := pr_category_name row; rr_price := pr_price row;
     rr_stock_quantity := pr_stock_quantity row;
     rr_min_stock_level := pr_min_stock_level row;
     rr_status := stock_status (pr_stock_quantity row) (pr_min_stock_level row) |}.

(** The text colour of a status cell. *)
Definition status_colour (status : string) : string :=
  if bool_decide (status = "Out of Stock") then "#dc2626"
  else if bool_decide (status = "Low Stock") then "#ca8a04"
  else "#16a34a".

Section Catalogue.

(** SQLite's [ORDER BY <text column> ASC]: some rearrangement of the rows in
    ascending order of the column; the order among equal texts is left
    open. *)
Variable order_by_name : ∀ A : Type, (A → string) → list A → list A.

(** Python's [f"{x:.2f}"]; the decimal expansion is left open. *)
Variable format_2f : float → string.

(** The body of [get_products].  [args] are the query parameters.  When the
    pattern is longer than SQLite's limit the statement fails on the first
    row for which [LIKE] is evaluated, if there is one: which rows those are
    is the query planner's choice, and that case is not embedded. *)
Definition get_products_body (args : gmap string string) (st : db)
    : res (list listed_product) :=
  let search := rstrip (lstrip (default "" (args !! "search"))) in
  let low_stock_only :=
    bool_decide (py_lower (default "false" (args !! "low_stock_only")) = "true") in
  if negb (bool_decide (search = ""))
     && (max_like_pattern_length <? utf8_length ("%" +:+ search +:+ "%"))
  then OutOfScope
  else
    let rows := products_with_categories st in
    let rows :=
      if bool_decide (search = "") then rows
      else filter (λ r, matches_search search r = true) rows in
    let rows :=
      if low_stock_only then filter (λ r, is_low_stock r = true) rows
      else rows in
    Ret (order_by_name _ (λ r, pr_name (lp_row r)) rows).

(** [get_products]: GET /api/products. *)
Definition get_products (args : gmap string string) (st : db)
    : option (list listed_product + response) :=
  read_handle "Failed to fetch products: " (get_products_body args st).

(** [get_categories]: GET /api/categories, the rows of
    [SELECT id, name FROM categories ORDER BY name ASC]. *)
Definition get_categories (st : db) : list (Z * string) :=
  order_by_name _ snd (map_to_list (categories st)).

(** [export_pdf]: GET /api/export-pdf.  The rows of its query, the cells of
    the table that is handed to the PDF library, and the colour given to the
    status cell of each data row (the header is row 0). *)
Definition report_rows (st : db) : list report_row :=
  order_by_name _ rr_name (report_columns <$> products_with_categories st).

Definition table_data (st : db) : list (list string) :=
  ["SKU"; "Product Name"; "Category"; "Price"; "Stock"; "Min Level"; "Status"]
  :: ((λ product,
         [rr_sku product; rr_name product; rr_category_name product;
          "$" +:+ format_2f (rr_price product);
          pretty (rr_stock_quantity product);
          pretty (rr_min_stock_level product);
          rr_status product]) <$> report_rows st).

Definition status_colours (st : db) : list (nat * string) :=
  imap (λ i product, (S i, status_colour (rr_status product))) (report_rows st).

End Catalogue.

(** An [ORDER BY] for concrete runs: insertion into an ascending list. *)
Fixpoint insert_asc {A} (key : A → string) (a : A) (l : list A) : list A :=
  match l with
  | [] => [a]
  | b :: l' =>
      if String.leb (key a) (key b) then a :: l
      else b :: insert_asc key a l'
  end.

Definition sort_asc (A : Type) (key : A → string) (l : list A) : list A :=
  foldr (insert_asc key) [] l.

(** ** [init_db] on a database that exists *)

(** A database file with the four tables and no row. *)
Definition no_rows : db :=
  {| categories := ∅; products := ∅; sales := []; stock_logs := [];
     seq_products := 0; seq_sales := 0; seq_stock_logs := 0 |}.

(** [INSERT OR IGNORE INTO categories (name) VALUES (?)]: nothing when the
    name is taken ([name] is [UNIQUE]).  No statement of the program deletes
    a category, so the rowid after the largest that ever existed is the one
    after the largest key.  The record does not keep the AUTOINCREMENT
    counter of the table, which SQLite may advance on an ignored insert as
    well: the key of a new name is that of SQLite when no insert was ignored
    before it, as on [no_rows]; on a database that has all the names, as
    every reachable one has, no name is new. *)
Definition insert_or_ignore_category (st : db) (name : string) : db :=
  if bool_decide (map_Exists (λ _ n, n = name) (categories st)) then st
  else
    {| categories := <[max_key (categories st) + 1 := name]> (categories st);
       products := products st;
       sales := sales st;
       stock_logs := stock_logs st;
       seq_products := seq_products st;
       seq_sales := seq_sales st;
       seq_stock_logs := seq_stock_logs st |}.

(** [init_db()] as every start of the server runs it: the tables and the
    [purchasing_price] column are there ([CREATE TABLE IF NOT EXISTS] and
    the ignored [ALTER TABLE] do nothing), and the sample categories are
    inserted unless present. *)
Definition run_init_db (st : db) : db :=
  foldl insert_or_ignore_category st sample_categories.

(** ** What every stored row satisfies *)

(** No two products share a sku. *)
Definition sku_unique (st : db) : Prop :=
  ∀ pid1 pid2 p1 p2,
    products st !! pid1 = Some p1 → products st !! pid2 = Some p2 →
    p_sku p1 = p_sku p2 → pid1 = pid2.

(** The name and the sku are not empty and carry no white space at either
    end, the purchasing price is a number that is not negative, the category
    exists, and the threshold fits the column. *)
Definition row_ok (st : db) (p : product) : Prop :=
  p_name p ≠ "" ∧ py_strip (PStr (p_name p)) = Ret (p_name p) ∧
  p_sku p ≠ "" ∧ py_strip (PStr (p_sku p)) = Ret (p_sku p) ∧
  PrimFloat.is_nan (p_purchasing_price p) = false ∧
  PrimFloat.ltb (p_purchasing_price p) 0%float = false ∧
  is_Some (categories st !! p_category_id p) ∧
  int64 (p_min_stock_level p) = true.

Definition rows_wellformed (st : db) : Prop :=
  ∀ pid p, products st !! pid = Some p → row_ok st p.

(** The rowids of a table that only grows: 1, 2, ... in insertion order. *)
Definition ids_from_one {A} (id : A → Z) (rows : list A) (last : Z) : Prop :=
  id <$> rows = Z.of_nat <$> seq 1 (length rows) ∧ last = Z.of_nat (length rows).

(** The ledger row that accounts for a sale. *)
Definition sale_log (s : sale) (l : stock_log) : Prop :=
  l_product_id l = s_product_id s ∧ l_change_amount l = - s_quantity s ∧
  l_reason l = "Sale #" +:+ pretty (s_id s).

Definition sales_logged (st : db) : Prop :=
  ∀ s, s ∈ sales st → 0 < s_quantity s ∧ ∃ l, l ∈ stock_logs st ∧ sale_log s l.

(** What a committed request does besides the change of the stock: it
    writes one product row and appends at most one sale and one ledger
    row. *)
Definition commits (st st' : db) (pid : Z) (row' : product) : Prop :=
  categories st' = categories st ∧
  products st' = <[pid := row']> (products st) ∧
  (from_option (row_ok st) True (products st !! pid) → row_ok st row') ∧
  (sku_unique st →
   ∀ pid' p', products st !! pid' = Some p' → p_sku p' = p_sku row' → pid' = pid) ∧
  (∀ p, products st !! pid = Some p → p_created_at row' = p_created_at p) ∧
  (sales st' = sales st ∧ seq_sales st' = seq_sales st ∧
     (stock_logs st' = stock_logs st ∧ seq_stock_logs st' = seq_stock_logs st
      ∨ ∃ change reason now,
          stock_logs st' = stock_logs st ++ [log_entry st pid change reason now] ∧
          seq_stock_logs st' = next_stock_log_id st)
   ∨ ∃ s l,
       sales st' = sales st ++ [s] ∧ s_id s = next_sale_id st ∧
       seq_sales st' = next_sale_id st ∧ 0 < s_quantity s ∧
       stock_logs st' = stock_logs st ++ [l] ∧ l_id l = next_stock_log_id st ∧
       seq_stock_logs st' = next_stock_log_id st ∧ sale_log s l).

(** ** A concrete shop *)

(** The clock of the store on one day, a second per statement. *)
Definition noon (k : nat) : timestamp :=
  {| ts_day := 738998; ts_sec := 43200 + Z.of_nat k |}.

Definition afternoon (k : nat) : timestamp :=
  {| ts_day := 738998; ts_sec := 54000 + Z.of_nat k |}.

(** A widget at 10.00, bought at 4.00, five in stock, in category 1. *)
Definition widget : gmap string pyval :=
  <["name" := PStr "Widget"]> (<["sku" := PStr "W-1"]>
  (<["category_id" := PInt 1]> (<["price" := PFloat 10%float]>
  (<["purchasing_price" := PFloat 4%float]>
  (<["stock_quantity" := PInt 5]> ∅))))).

(** A gadget with neither an initial stock nor a threshold. *)
Definition gadget : gmap string pyval :=
  <["name" := PStr " Gadget "]> (<["sku" := PStr "G-1"]>
  (<["category_id" := PInt 2]> (<["price" := PFloat 2.5%float]>
  (<["purchasing_price" := PInt 1]> ∅)))).

Definition widget_row : product :=
  {| p_name := "Widget"; p_sku := "W-1"; p_category_id := 1;
     p_price := 10%float; p_purchasing_price := 4%float;
     p_stock_quantity := 5; p_min_stock_level := 5;
     p_created_at := noon 0; p_updated_at := noon 0 |}.

Definition sale_of (product_id quantity : Z) : gmap string pyval :=
  <["product_id" := PInt product_id]> (<["quantity" := PInt quantity]> ∅).

Definition stock_to (n : Z) : gmap string pyval := {["stock_quantity" := PInt n]}.

(** The shop after the widget is created, after three are sold, and after
    one more is. *)
Definition shop : db := after (CreateProduct widget) noon init_db.
Definition sold : db := after (RecordSale (sale_of 1 3)) noon shop.
Definition sold_twice : db := after (RecordSale (sale_of 1 1)) afternoon sold.

(** A clock that passes midnight between the fourth and the fifth pass of
    the loop, and one that stays on the first of the two days. *)
Definition across_midnight (k : nat) : datetime :=
  if (k <=? 4)%nat
  then {| dt_day := 739000; dt_sec := 86399; dt_usec := 999990 + Z.of_nat k |}
  else {| dt_day := 739001; dt_sec := 0; dt_usec := Z.of_nat k |}.

Definition same_day (k : nat) : datetime :=
  {| dt_day := 739000; dt_sec := 36000; dt_usec := Z.of_nat k |}.

(** A trinket that is out of stock, with a threshold below zero. *)
Definition trinket : gmap string pyval :=
  <["name" := PStr "Trinket"]> (<["sku" := PStr "T-1"]>
  (<["category_id" := PInt 3]> (<["price" := PFloat 1.5%float]>
  (<["purchasing_price" := PInt 1]> (<["stock_quantity" := PInt 0]>
  (<["min_stock_level" := PInt (-1)]> ∅)))))).

(** The shop with the widget and the gadget, and with the trinket too. *)
Definition two_products : db := after (CreateProduct gadget) noon shop.
Definition three_products : db := after (CreateProduct trinket) afternoon two_products.

(** The widget's stock after three are sold and three come back. *)
Definition returned : db := after (Restock (sale_of 1 3)) afternoon sold.

(** The widget with one in stock, and with one more in stock than the
    doubles can count to. *)
Definition last_widget : gmap string pyval := <["stock_quantity" := PInt 1]> widget.
Definition many_widgets : gmap string pyval :=
  <["stock_quantity" := PInt (2 ^ 53 + 1)]> widget.

Definition float_quantity (product_id : Z) (quantity : float) : gmap string pyval :=
  <["product_id" := PInt product_id]> (<["quantity" := PFloat quantity]> ∅).

(** * Properties *)

(** ** The control monad *)

Lemma bind_Ret {A B} (m : res A) (k : A → res B) (b : B) :
  m ≫= k = Ret b → ∃ a, m = Ret a ∧ k a = Ret b.
Proof. destruct m; simpl; intros H; try discriminate. eauto. Qed.

Lemma handle_Some flag failed st m r st' :
  handle flag failed st m = Some (r, st') →
  m = Ret (r, st') ∨ (st' = st ∧ is_error r = true).
Proof.
  destruct m as [[]| |e|]; simpl; intros H.
  - left. congruence.
  - right. by simplify_eq.
  - right. destruct e, flag; by simplify_eq.
  - discriminate.
Qed.

(** Peels the successful run of a handler body, one statement at a time. *)
Ltac peel :=
  repeat match goal with
  | H : _ ≫= _ = Ret _ |- _ =>
      let a := fresh "a" in let E := fresh "E" in
      apply bind_Ret in H as (a & E & H)
  | H : (if ?b then _ else _) = Ret _ |- _ =>
      let E := fresh "E" in destruct b eqn:E; try discriminate H
  | H : match ?x with _ => _ end = Ret _ |- _ =>
      let E := fresh "E" in destruct x eqn:E; try discriminate H
  | H : Ret _ = Ret _ |- _ => injection H as H
  | H : mret _ = Ret _ |- _ => injection H as H
  end.

Lemma bind_int_Ret z z' : bind_int z = Ret z' → z' = z ∧ int64 z = true.
Proof. unfold bind_int. destruct (int64 z); intros H; by simplify_eq. Qed.

Lemma bind_real_Ret f f' :
  bind_real_not_null f = Ret f' → f' = f ∧ PrimFloat.is_nan f = false.
Proof.
  unfold bind_real_not_null. destruct (PrimFloat.is_nan f); intros H; by simplify_eq.
Qed.

Lemma int64_bounds z : int64 z = true ↔ - 2 ^ 63 ≤ z < 2 ^ 63.
Proof. unfold int64. rewrite andb_true_iff, Z.leb_le, Z.ltb_lt. tauto. Qed.

(** A quantity that passes the check is a positive integer. *)
Lemma check_quantity_Ret product_id quantity q :
  check_quantity product_id quantity = Ret () →
  py_quantity quantity = Ret q → 0 < q.
Proof.
  unfold check_quantity. intros H Hq. peel.
  destruct quantity as [|[]|z| | |]; simplify_eq/=; lia.
Qed.

(** ** The store *)

Lemma sum_Z_app l1 l2 : sum_Z (l1 ++ l2) = sum_Z l1 + sum_Z l2.
Proof. induction l1 as [|x l1 IH]; simpl; [done | rewrite IH; lia]. Qed.

Lemma max_key_ge {A} (m : gmap Z A) k v : m !! k = Some v → k ≤ max_key m.
Proof.
  unfold max_key. revert k v.
  induction m as [|i x m Hi Hfold IH] using map_first_key_ind; intros k v.
  - by rewrite lookup_empty.
  - rewrite map_fold_insert_first_key by done.
    rewrite lookup_insert. case_decide; intros Hk; simplify_eq; [lia|].
    apply IH in Hk. lia.
Qed.

Lemma next_product_id_fresh st : products st !! next_product_id st = None.
Proof.
  destruct (products st !! next_product_id st) as [p|] eqn:E; [|done].
  apply max_key_ge in E. unfold next_product_id in E. lia.
Qed.

(** ** Successful runs of the handlers *)

Lemma int_as_double_Ret z f : int_as_double z = Ret f → f = float_of_Z z.
Proof. unfold int_as_double. case_match; intros ?; by simplify_eq. Qed.

Lemma int_as_double_int64 z :
  int64 z = true → int_as_double z = Ret (float_of_Z z).
Proof.
  intros Hz%int64_bounds. unfold int_as_double.
  assert (2 ^ 63 < 2 ^ 1024 - 2 ^ 970) by (vm_compute; reflexivity).
  destruct (Z.ltb_spec (Z.abs z) (2 ^ 1024 - 2 ^ 970)); [done | lia].
Qed.

(** Peels a run through the parameter conversions as well. *)
Ltac peel_store :=
  repeat first [progress peel | match goal with
  | H : bind_int _ = Ret _ |- _ => apply bind_int_Ret in H as [-> H]
  | H : bind_real_not_null _ = Ret _ |- _ => apply bind_real_Ret in H as [-> H]
  | H : int_as_double _ = Ret _ |- _ => apply int_as_double_Ret in H as ->
  | u : () |- _ => destruct u
  | H : check_quantity _ ?v = Ret _, H' : py_quantity ?v = Ret _ |- _ =>
      apply (check_quantity_Ret _ _ _ H) in H'
  | H : ?k ≫= _ = Some _ |- _ => destruct k; [simpl in H | discriminate H]
  | H : (_ <? _) = false |- _ => apply Z.ltb_ge in H
  | H : (_ <? _) = true |- _ => apply Z.ltb_lt in H
  | H : (_ =? _) = false |- _ => apply Z.eqb_neq in H
  | H : (_ =? _) = true |- _ => apply Z.eqb_eq in H
  end]; simplify_eq/=.

(** A committed sale: the product row, the quantity, and the three writes. *)
Lemma add_sale_body_Ret data clk st r st' :
  add_sale_body data clk st = Ret (r, st') →
  ∃ pid p q,
    products st !! pid = Some p ∧ 0 < q ∧ q ≤ p_stock_quantity p ∧
    int64 (p_stock_quantity p - q) = true ∧
    let st1 := update_stock pid (p_stock_quantity p - q) (clk 0%nat) st in
    let total := PrimFloat.mul (p_price p) (float_of_Z q) in
    r = (SaleRecorded (next_sale_id st1)
           ("Sale recorded: " +:+ py_str_int (py_get data "quantity") +:+ " x "
            +:+ p_name p)
           total (p_stock_quantity p - q), 201) ∧
    st' = insert_stock_log pid (- q) ("Sale #" +:+ pretty (next_sale_id st1))
            (clk 2%nat) (insert_sale pid q total (clk 1%nat) st1).
Proof.
  unfold add_sale_body. intros H. peel_store. eauto 10.
Qed.

(** A committed restock. *)
Lemma restock_body_Ret data clk st r st' :
  restock_body data clk st = Ret (r, st') →
  ∃ pid p q reason,
    products st !! pid = Some p ∧ 0 < q ∧
    int64 (p_stock_quantity p + q) = true ∧
    r.2 = 200 ∧
    st' = insert_stock_log pid q reason (clk 1%nat)
            (update_stock pid (p_stock_quantity p + q) (clk 0%nat) st).
Proof.
  unfold restock_body. intros H. peel_store. eauto 10.
Qed.

(** A committed creation: the new row under a fresh rowid, and the ledger
    row of a positive initial stock. *)
Lemma create_product_body_Ret data clk seen st r st' :
  create_product_body data clk seen st = Ret (r, st') →
  ∃ row,
    py_strip (py_get data "sku") = Ret (p_sku row) ∧
    py_int (py_get_default data "stock_quantity" (PInt 0))
      = Ret (p_stock_quantity row) ∧
    py_int (py_get_default data "min_stock_level" (PInt 5))
      = Ret (p_min_stock_level row) ∧
    0 ≤ p_stock_quantity row ∧ int64 (p_stock_quantity row) = true ∧
    price_positive row ∧
    sku_exists (p_sku row) st = false ∧
    products st' = <[next_product_id st := row]> (products st) ∧
    stock_logs st' = stock_logs st ++
      (if 0 <? p_stock_quantity row
       then [log_entry st (next_product_id st) (p_stock_quantity row)
               "Initial stock" (clk 1%nat)]
       else []) ∧
    sales st' = sales st ∧ seq_products st' = next_product_id st ∧
    r = (ProductCreated ("Product " +:+ dquote +:+ p_name row +:+ dquote
                 +:+ " created successfully") (next_product_id st), 201).
Proof.
  unfold create_product_body, insert_product. intros H. peel_store.
  match goal with
  | |- context [<[_ := ?row]> (products st)] => exists row
  end.
  unfold price_positive. simpl.
  match goal with
  | |- context [0 <? ?n] => destruct (0 <? n) eqn:Hpos
  end; split_and!; rewrite ?app_nil_r; done.
Qed.

(** A committed update: the row is replaced, its stock is the provided one
    (or is kept), and the ledger gains the row of a nonzero change. *)
Lemma update_product_body_Ret product_id data clk st r st' :
  update_product_body product_id data clk st = Ret (r, st') →
  ∃ row row',
    products st !! product_id = Some row ∧
    products st' = <[product_id := row']> (products st) ∧
    (data !! "stock_quantity" = None ∧
       p_stock_quantity row' = p_stock_quantity row
     ∨ ∃ v, data !! "stock_quantity" = Some v ∧
         py_int v = Ret (p_stock_quantity row') ∧
         0 ≤ p_stock_quantity row' ∧ int64 (p_stock_quantity row') = true) ∧
    (price_positive row → price_positive row') ∧
    let stock_change := p_stock_quantity row' - p_stock_quantity row in
    stock_logs st' = stock_logs st ++
      (if stock_change =? 0 then []
       else [log_entry st product_id stock_change
               (if 0 <? stock_change then "Stock adjustment"
                else "Stock reduction") (clk 1%nat)]) ∧
    sales st' = sales st ∧ seq_products st' = seq_products st ∧
    r = (ProductUpdated, 200).
Proof.
  unfold update_product_body. intros H.
  apply bind_Ret in H as (pid & Hpid & H).
  apply bind_int_Ret in Hpid as [-> _].
  destruct (products st !! product_id) as [row|] eqn:Hrow; [|done].
  apply bind_Ret in H as (name & _ & H).
  apply bind_Ret in H as (sku & _ & H).
  apply bind_Ret in H as (category_id & _ & H).
  apply bind_Ret in H as (price & Hprice & H).
  apply bind_Ret in H as (purchasing_price & _ & H).
  apply bind_Ret in H as (stock & Hstock & H).
  apply bind_Ret in H as (min_stock_level & _ & H).
  match type of H with (if ?b then _ else _) = _ => destruct b; [done|] end.
  apply bind_Ret in H as (stock' & Hstock' & H).
  apply bind_Ret in H as (min' & _ & H).
  apply bind_Ret in H as (price' & Hprice' & H).
  apply bind_Ret in H as (purchasing' & _ & H).
  assert (Hpp : ∀ name sku cat pp stock min now, price_positive row →
    price_positive (set_fields name sku cat price' pp stock min now row)).
  { clear -Hprice Hprice'. intros * Hrow. unfold if_present, bind_opt in *.
    destruct (data !! "price"); peel_store; [by split | done]. }
  clear Hprice Hprice'.
  exists row. unfold if_present in Hstock.
  destruct (data !! "stock_quantity") as [v|] eqn:Hv;
    peel_store; simpl in *; peel_store;
    eexists; (split_and!; [done|done| |apply Hpp|simpl|done|done|done]).
  - right; eauto.
  - match goal with H : _ - _ = 0 |- _ => by rewrite H, app_nil_r end.
  - right; eauto.
  - match goal with H : _ ≠ 0 |- _ => by apply Z.eqb_neq in H as -> end.
  - by left.
  - by rewrite Z.sub_diag, app_nil_r.
Qed.

(** ** The ledger invariant *)

Lemma ledger_sum_app pid logs1 logs2 :
  ledger_sum pid (logs1 ++ logs2) = ledger_sum pid logs1 + ledger_sum pid logs2.
Proof. unfold ledger_sum. by rewrite filter_app, fmap_app, sum_Z_app. Qed.

Lemma alter_Some {A} (f : A → A) (m : gmap Z A) k x :
  m !! k = Some x → alter f k m = <[k := f x]> m.
Proof.
  intros Hk. apply map_eq. intros j.
  rewrite lookup_alter, lookup_insert. case_decide; simplify_eq; [|done].
  by rewrite Hk.
Qed.

(** One write of a row together with the ledger rows that account for the
    change of its stock keeps stock and ledger in agreement. *)
Lemma ledger_consistent_write st st' pid row' new_logs :
  ledger_consistent st →
  products st' = <[pid := row']> (products st) →
  stock_logs st' = stock_logs st ++ new_logs →
  (∀ pid', pid' ≠ pid → ledger_sum pid' new_logs = 0) →
  ledger_sum pid new_logs
    = p_stock_quantity row' - from_option p_stock_quantity 0 (products st !! pid) →
  ledger_consistent st'.
Proof.
  intros Hst Hps Hlogs Hother Hsum pid'. rewrite Hps, Hlogs, ledger_sum_app, Hst.
  rewrite lookup_insert. case_decide; simplify_eq/=.
  - rewrite Hsum. lia.
  - rewrite Hother by done. lia.
Qed.

Lemma ledger_sum_single st pid pid' change reason now :
  ledger_sum pid' [log_entry st pid change reason now]
  = if decide (pid = pid') then change else 0.
Proof. unfold ledger_sum. rewrite filter_cons, filter_nil. simpl. case_decide; simpl; lia. Qed.

Lemma create_product_racing_Some data clk seen st r st' :
  create_product_racing data clk seen st = Some (r, st') →
  create_product_body data clk seen st = Ret (r, st')
  ∨ (st' = st ∧ is_error r = true).
Proof.
  unfold create_product_racing.
  destruct (create_product_body data clk seen st) as [[]| |[]|] eqn:E;
    simpl; intros H; simplify_eq; auto.
Qed.

Lemma perform_Some rq clk st r st' :
  perform rq clk st = Some (r, st') →
  (st' = st ∧ is_error r = true) ∨
  match rq with
  | CreateProduct data => create_product_body data clk st st
  | UpdateProduct product_id data => update_product_body product_id data clk st
  | RecordSale data => add_sale_body data clk st
  | Restock data => restock_body data clk st
  end = Ret (r, st').
Proof.
  destruct rq; simpl; intros H;
    [apply create_product_racing_Some in H | apply handle_Some in H ..];
    tauto.
Qed.

Lemma perform_writes rq clk st r st' :
  perform rq clk st = Some (r, st') →
  st' = st ∨ ∃ pid row', writes st st' pid row'.
Proof.
  intros H. apply perform_Some in H as [[-> _]|H]; [by left|right].
  assert (Hnil : ∀ (l : list sale) pid, ∃ new_sales, l = l ++ new_sales ∧
    ∀ s, s ∈ new_sales → s_product_id s = pid).
  { intros l pid. exists []. rewrite app_nil_r. split; [done|]. by intros s ?%elem_of_nil. }
  destruct rq as [data|product_id data|data|data].
  - apply create_product_body_Ret in H
      as (row & _ & _ & _ & Hnn & H64 & Hprice & _ & Hps & Hlogs & Hsales & Hseq & _).
    exists (next_product_id st), row. unfold writes.
    rewrite next_product_id_fresh, Hseq, Hsales. simpl. rewrite Z.sub_0_r.
    split_and!; [done| |done|done|done|done|unfold next_product_id; lia|done].
    exists "Initial stock", (clk 1%nat). rewrite Hlogs.
    destruct (Z.ltb_spec 0 (p_stock_quantity row)), (Z.eqb_spec (p_stock_quantity row) 0);
      done || lia.
  - apply update_product_body_Ret in H
      as (row & row' & Hrow & Hps & Hstock & Hprice & Hlogs & Hsales & Hseq & _).
    exists product_id, row'. unfold writes. rewrite Hrow, Hsales. simpl.
    split_and!; [done|eauto| | |done|done|lia|done].
    + destruct Hstock as [[_ ->]|(v & _ & _ & ? & _)]; done.
    + destruct Hstock as [[_ ->]|(v & _ & _ & _ & ?)]; done.
  - apply add_sale_body_Ret in H as (pid & p & q & Hp & ? & ? & ? & _ & ->).
    exists pid, (set_stock (p_stock_quantity p - q) (clk 0%nat) p).
    unfold writes. rewrite Hp. simpl.
    split_and!; [by apply alter_Some| |lia|done|done|done|lia|].
    + eexists _, _.
      destruct (Z.eqb_spec (p_stock_quantity p - q - p_stock_quantity p) 0); [lia|].
      do 3 f_equal. lia.
    + eexists. split; [done|]. by intros s ->%list_elem_of_singleton.
  - apply restock_body_Ret in H as (pid & p & q & reason & Hp & ? & ? & _ & ->).
    exists pid, (set_stock (p_stock_quantity p + q) (clk 0%nat) p).
    unfold writes. rewrite Hp. simpl.
    split_and!; [by apply alter_Some| |lia|done|done|done|lia|done].
    eexists _, _.
    destruct (Z.eqb_spec (p_stock_quantity p + q - p_stock_quantity p) 0); [lia|].
    do 3 f_equal. lia.
Qed.

Lemma writes_ledger st st' pid row' :
  writes st st' pid row' → ledger_consistent st → ledger_consistent st'.
Proof.
  intros (Hps & (reason & now & Hlogs) & _) Hst.
  eapply ledger_consistent_write; [done..| |].
  - intros pid' Hne. case_match; [done|].
    rewrite ledger_sum_single. by case_decide.
  - destruct (Z.eqb_spec
      (p_stock_quantity row' - from_option p_stock_quantity 0 (products st !! pid)) 0)
      as [->|Hne]; [done|].
    rewrite ledger_sum_single. by case_decide.
Qed.

Lemma writes_nonneg st st' pid row' :
  writes st st' pid row' → stock_nonneg st → stock_nonneg st'.
Proof.
  intros (Hps & _ & Hnn & _) Hst pid' p'. rewrite Hps, lookup_insert.
  case_decide; simplify_eq; [|by apply Hst]. intros [= <-]. apply Hnn.
  destruct (products st !! pid') as [p|] eqn:Hp; simpl; [by eapply Hst | done].
Qed.

Lemma writes_rows_ok st st' pid row' :
  writes st st' pid row' → rows_ok st → rows_ok st'.
Proof.
  intros (Hps & _ & _ & H64 & Hnew & Hprice & Hseq & _) [Hseq0 Hst].
  split; [lia|].
  intros pid' p'. rewrite Hps, lookup_insert.
  case_decide; simplify_eq; [|by apply Hst]. intros [= <-].
  destruct (products st !! pid') as [p|] eqn:Hp; simpl in *.
  - destruct (Hst _ _ Hp) as (? & ? & ?). auto.
  - split_and!; [|by apply H64|by apply Hprice].
    rewrite Hnew by done. unfold next_product_id. lia.
Qed.

Lemma writes_sales_have_products st st' pid row' :
  writes st st' pid row' → sales_have_products st → sales_have_products st'.
Proof.
  intros (Hps & _ & _ & _ & _ & _ & _ & new_sales & Hsales & Hnew) Hst s.
  rewrite Hsales, Hps, elem_of_app, lookup_insert_is_Some'.
  intros [Hs|Hs]; [right; by apply Hst | left; symmetry; by apply Hnew].
Qed.

Lemma init_db_ledger : ledger_consistent init_db.
Proof. intros pid. unfold init_db; simpl. by rewrite lookup_empty. Qed.

Lemma init_db_nonneg : stock_nonneg init_db.
Proof. intros pid p. unfold init_db; simpl. by rewrite lookup_empty. Qed.

Lemma init_db_rows_ok : rows_ok init_db.
Proof.
  split; [done|]. intros pid p. unfold init_db; simpl. by rewrite lookup_empty.
Qed.

(** Stock and ledger agree, stocks are not negative, and the rows are well
    formed in every reachable state. *)
Lemma reachable_invariants st :
  reachable st →
  ledger_consistent st ∧ stock_nonneg st ∧ rows_ok st ∧ sales_have_products st.
Proof.
  induction 1 as [|st rq clk r st' _ (IH1 & IH2 & IH3 & IH4) Hstep].
  - split_and!; [apply init_db_ledger | apply init_db_nonneg
                 | apply init_db_rows_ok | by intros s ?%elem_of_nil].
  - apply perform_writes in Hstep as [->|(pid & row' & Hw)]; [done|].
    split_and!; eauto using writes_ledger, writes_nonneg, writes_rows_ok,
      writes_sales_have_products.
Qed.

Lemma reachable_after rq clk st : reachable st → reachable (after rq clk st).
Proof.
  intros Hst. unfold after.
  destruct (perform rq clk st) as [[r st']|] eqn:E; [|done].
  by eapply reachable_step.
Qed.

(** Stock and ledger when no quantity is a float: in every state that
    CreateProduct, UpdateProduct, RecordSale and Restock requests produce
    from a fresh database, none of the sales and restocks with a float
    quantity, the [stock_quantity] of every product is the sum of
    [change_amount] over its [stock_logs] rows.  (The ledger rows
    themselves: [create_product_body_Ret] for "Initial stock",
    [add_sale_body_Ret] for [- quantity], [restock_body_Ret] for
    [+ quantity], [update_product_body_Ret] for new minus old.) *)
Theorem stock_is_ledger_sum st pid p :
  reachable st → products st !! pid = Some p →
  p_stock_quantity p = ledger_sum pid (stock_logs st).
Proof.
  intros Hst Hp. apply reachable_invariants in Hst as (Hledger & _).
  by rewrite Hledger, Hp.
Qed.

(** ** Stock and ledger when a quantity is a float *)

(** The states without a float quantity are among the states with one. *)
Lemma reachable_reachable_float st : reachable st → reachable_float st.
Proof.
  induction 1 as [|st rq clk r st' _ IH Hstep];
    [apply reachable_float_init | by eapply reachable_float_step].
Qed.

(** C1: the handlers break the agreement of stock and ledger when a quantity
    is a float, which [add_sale] and [restock] neither refuse nor convert.
    One widget is in stock and 9007199254740992.0 are restocked: the stock
    is computed in floating point, 1 + 2^53 rounds to 2^53, and the ledger
    row holds 2^53, so the stock is 2^53 and the ledger sums to 2^53 + 1
    (the same quantity written as an integer gives 2^53 + 1 for both).
    With 2^53 + 1 in stock a sale of 1.0 leaves 2^53 - 1 in stock and a
    ledger that sums to 2^53.  So the stock is not the sum of the ledger in
    every state that the requests produce. *)
Theorem restock_float_breaks_ledger :
  let one_left := after (CreateProduct last_widget) noon init_db in
  let many_left := after (CreateProduct many_widgets) noon init_db in
  reachable one_left ∧ reachable many_left ∧
  (∃ st',
     restock_float (float_quantity 1 9007199254740992%float) afternoon one_left
     = Some (RestockedFloat "Restocked 9007199254740992.0 units of Widget"
               9007199254740992%float, st') ∧
     p_stock_quantity <$> products st' !! 1 = Some (2 ^ 53) ∧
     l_change_amount <$> stock_logs st' = [1; 2 ^ 53] ∧
     ledger_sum 1 (stock_logs st') = 2 ^ 53 + 1) ∧
  (∃ st',
     restock (sale_of 1 (2 ^ 53)) afternoon one_left
     = Some ((Restocked "Restocked 9007199254740992 units of Widget"
                (2 ^ 53 + 1), 200), st') ∧
     p_stock_quantity <$> products st' !! 1 = Some (2 ^ 53 + 1) ∧
     ledger_sum 1 (stock_logs st') = 2 ^ 53 + 1) ∧
  (∃ st',
     add_sale_float (float_quantity 1 1%float) afternoon many_left
     = Some (SaleRecordedFloat 1 "Sale recorded: 1.0 x Widget" 10%float
               9007199254740991%float, st') ∧
     p_stock_quantity <$> products st' !! 1 = Some (2 ^ 53 - 1) ∧
     l_change_amount <$> stock_logs st' = [2 ^ 53 + 1; -1] ∧
     ledger_sum 1 (stock_logs st') = 2 ^ 53) ∧
  ¬ (∀ st pid p,
       reachable_float st → products st !! pid = Some p →
       p_stock_quantity p = ledger_sum pid (stock_logs st)).
Proof.
  intros one_left many_left.
  assert (Hone : reachable one_left) by apply reachable_after, reachable_init.
  assert (Hmany : reachable many_left) by apply reachable_after, reachable_init.
  destruct (restock_float (float_quantity 1 9007199254740992%float) afternoon
              one_left) as [[r st']|] eqn:Hrun; [|by vm_compute in Hrun].
  assert (Hr : r = RestockedFloat "Restocked 9007199254740992.0 units of Widget"
                     9007199254740992%float)
    by (vm_compute in Hrun; congruence).
  assert (Hstock : p_stock_quantity <$> products st' !! 1 = Some (2 ^ 53))
    by (vm_compute in Hrun; injection Hrun as _ <-; vm_compute; reflexivity).
  assert (Hlogs : l_change_amount <$> stock_logs st' = [1; 2 ^ 53])
    by (vm_compute in Hrun; injection Hrun as _ <-; vm_compute; reflexivity).
  assert (Hsum : ledger_sum 1 (stock_logs st') = 2 ^ 53 + 1)
    by (vm_compute in Hrun; injection Hrun as _ <-; vm_compute; reflexivity).
  split_and!; [done|done| | | |].
  - exists st'. subst r.
    split; [reflexivity|]. split; [exact Hstock|]. split; [exact Hlogs|exact Hsum].
  - eexists. split_and!; vm_compute; reflexivity.
  - eexists. split_and!; vm_compute; reflexivity.
  - intros Hall.
    destruct (products st' !! 1) as [p|] eqn:Hp; [|discriminate Hstock].
    assert (Hst' : reachable_float st')
      by (eapply reachable_float_restock;
          [apply reachable_reachable_float, Hone | exact Hrun]).
    specialize (Hall st' 1 p Hst' Hp). simpl in Hstock.
    injection Hstock as Hstock. rewrite Hall, Hsum in Hstock. lia.
Qed.

(** [add_sale] and [add_sale_float] are one handler: a request that both
    answer is refused before the arithmetic, with the same reply. *)
Lemma add_sale_float_agrees data clk st r st1 r' st2 :
  add_sale data clk st = Some (r, st1) →
  add_sale_float data clk st = Some (r', st2) →
  r' = ErrorReply r ∧ st1 = st ∧ st2 = st.
Proof.
  unfold add_sale, add_sale_float, add_sale_body, add_sale_float_body,
    add_sale_float_checks.
  destruct (check_quantity _ _) as [[]| | |]; simpl;
    [|by intros [= <- <-] [= <- <-]|by destruct e; intros [= <- <-] [= <- <-]|done].
  destruct (bind_key _) as [key| | |]; simpl;
    [|by intros [= <- <-] [= <- <-]|by destruct e; intros [= <- <-] [= <- <-]|done].
  destruct (key ≫= _) as [product|]; simpl; [|by intros [= <- <-] [= <- <-]].
  destruct (py_get data "quantity") as [|b|z|f|s|len]; simpl; try done.
Qed.

Lemma restock_float_agrees data clk st r st1 r' st2 :
  restock data clk st = Some (r, st1) →
  restock_float data clk st = Some (r', st2) →
  r' = ErrorReply r ∧ st1 = st ∧ st2 = st.
Proof.
  unfold restock, restock_float, restock_body, restock_float_body.
  destruct (check_quantity _ _) as [[]| | |]; simpl;
    [|by intros [= <- <-] [= <- <-]|by destruct e; intros [= <- <-] [= <- <-]|done].
  destruct (bind_key _) as [key| | |]; simpl;
    [|by intros [= <- <-] [= <- <-]|by destruct e; intros [= <- <-] [= <- <-]|done].
  destruct (key ≫= _) as [product|]; simpl; [|by intros [= <- <-] [= <- <-]].
  destruct (py_get data "quantity") as [|b|z|f|s|len]; simpl; try done.
Qed.

(** ** Floats: the total of a sale is a number *)

(** The overflow bound of [int_as_double] is where the rounded value turns
    infinite. *)
Example float_of_Z_overflow :
  PrimFloat.is_infinity (float_of_Z (2 ^ 1024 - 2 ^ 970)) = true ∧
  PrimFloat.is_infinity (float_of_Z (2 ^ 1024 - 2 ^ 970 - 1)) = false.
Proof. split; vm_compute; reflexivity. Qed.

Lemma iter_pos_invariant {A} (f : A → A) (P : Z → A → Prop) :
  (∀ k x, 0 ≤ k → P (k + 1) x → P k (f x)) →
  ∀ n k x, 0 ≤ k → P (k + Z.pos n) x → P k (SpecFloat.iter_pos f n x).
Proof.
  intros Hf. induction n as [n IH|n IH|]; intros k x Hk Hx; simpl.
  - apply IH; [lia|]. apply IH; [lia|]. apply Hf; [lia|].
    replace (k + Z.pos n + Z.pos n + 1) with (k + Z.pos n~1) by lia. exact Hx.
  - apply IH; [lia|]. apply IH; [lia|].
    replace (k + Z.pos n + Z.pos n) with (k + Z.pos n~0) by lia. exact Hx.
  - apply Hf; [lia|]. exact Hx.
Qed.

Lemma shr_1_lower k mrs :
  0 ≤ k → 2 ^ (k + 1) ≤ shr_m mrs → 2 ^ k ≤ shr_m (shr_1 mrs).
Proof.
  intros Hk. rewrite Z.pow_add_r by lia. change (2 ^ 1) with 2.
  destruct mrs as [[|[p|p|]|p] r s]; simpl; lia.
Qed.

Lemma shr_1_nonneg mrs : 0 ≤ shr_m mrs → 0 ≤ shr_m (shr_1 mrs).
Proof. destruct mrs as [[|[p|p|]|p] r s]; simpl; lia. Qed.

Lemma digits2_pos_lower p : 2 ^ (Z.pos (digits2_pos p) - 1) ≤ Z.pos p.
Proof.
  induction p as [p IH|p IH|]; simpl digits2_pos.
  - rewrite Pos2Z.inj_succ. replace (Z.succ (Z.pos (digits2_pos p)) - 1)
      with (Z.succ (Z.pos (digits2_pos p) - 1)) by lia.
    rewrite Z.pow_succ_r by lia. lia.
  - rewrite Pos2Z.inj_succ. replace (Z.succ (Z.pos (digits2_pos p)) - 1)
      with (Z.succ (Z.pos (digits2_pos p) - 1)) by lia.
    rewrite Z.pow_succ_r by lia. lia.
  - simpl. lia.
Qed.

(** Rounding a positive mantissa keeps it non-negative, and positive when
    the exponent is not below the least one. *)
Lemma shr_fexp_nonneg m e l :
  0 ≤ m → 0 ≤ shr_m (fst (shr_fexp prec emax m e l)).
Proof.
  intros Hm. unfold shr_fexp, shr.
  assert (H0 : 0 ≤ shr_m (shr_record_of_loc m l)) by (by destruct l as [|[]]).
  destruct (fexp prec emax (Zdigits2 m + e) - e) as [|n|n]; simpl; try exact H0.
  apply (iter_pos_invariant shr_1 (λ _ mrs, 0 ≤ shr_m mrs)) with (k := 0);
    [|lia|exact H0].
  intros _ x _. apply shr_1_nonneg.
Qed.

Lemma shr_fexp_pos m e l :
  0 < m → SpecFloat.emin prec emax ≤ e →
  0 < shr_m (fst (shr_fexp prec emax m e l))
  ∧ SpecFloat.emin prec emax ≤ snd (shr_fexp prec emax m e l).
Proof.
  intros Hm He. unfold shr_fexp, shr.
  assert (H0 : shr_m (shr_record_of_loc m l) = m) by (by destruct l as [|[]]).
  destruct (fexp prec emax (Zdigits2 m + e) - e) as [|n|n] eqn:En; simpl;
    try (rewrite H0; lia).
  split; [|lia].
  enough (2 ^ 0 ≤ shr_m (SpecFloat.iter_pos shr_1 n (shr_record_of_loc m l))) by (simpl in *; lia).
  apply (iter_pos_invariant shr_1 (λ k mrs, 2 ^ k ≤ shr_m mrs)); [|lia|].
  - intros k x Hk. by apply shr_1_lower.
  - rewrite H0. destruct m as [|p|p]; try lia.
    pose proof (digits2_pos_lower p).
    assert (Z.pos n ≤ Z.pos (digits2_pos p) - 1).
    { unfold fexp, SpecFloat.emin, prec, emax, Zdigits2 in *.
      change IntDef.Z.max with Z.max in En. lia. }
    transitivity (2 ^ (Z.pos (digits2_pos p) - 1)); [|done].
    apply Z.pow_le_mono_r; lia.
Qed.

Lemma round_nearest_even_lower m l : m ≤ round_nearest_even m l.
Proof. destruct l as [|[]]; simpl; try lia. destruct (Z.even m); lia. Qed.

Lemma binary_round_aux_not_nan s m e l :
  0 ≤ m → binary_round_aux prec emax s m e l ≠ S754_nan.
Proof.
  intros Hm. unfold binary_round_aux.
  pose proof (shr_fexp_nonneg m e l Hm) as H1.
  destruct (shr_fexp prec emax m e l) as [mrs' e']. simpl in H1.
  pose proof (round_nearest_even_lower (shr_m mrs') (loc_of_shr_record mrs')) as Hr.
  pose proof (shr_fexp_nonneg (round_nearest_even (shr_m mrs') (loc_of_shr_record mrs'))
                e' loc_Exact ltac:(lia)) as H2.
  destruct (shr_fexp prec emax _ e' loc_Exact) as [mrs'' e'']. simpl in H2.
  destruct (shr_m mrs'') as [|p|p]; [done| |lia].
  by destruct (e'' <=? emax - prec).
Qed.

Lemma binary_round_aux_positive m e l :
  0 < m → SpecFloat.emin prec emax ≤ e →
  positive_sf (binary_round_aux prec emax false m e l).
Proof.
  intros Hm He. unfold binary_round_aux.
  pose proof (shr_fexp_pos m e l Hm He) as [H1 H1'].
  destruct (shr_fexp prec emax m e l) as [mrs' e']. simpl in H1, H1'.
  pose proof (round_nearest_even_lower (shr_m mrs') (loc_of_shr_record mrs')) as Hr.
  pose proof (shr_fexp_pos (round_nearest_even (shr_m mrs') (loc_of_shr_record mrs'))
                e' loc_Exact ltac:(lia) H1') as [H2 _].
  destruct (shr_fexp prec emax _ e' loc_Exact) as [mrs'' e'']. simpl in H2.
  destruct (shr_m mrs'') as [|p|p]; [lia| |lia].
  by destruct (e'' <=? emax - prec).
Qed.

Lemma binary_normalize_positive q :
  0 < q → positive_sf (binary_normalize prec emax q 0 false).
Proof.
  intros Hq. destruct q as [|p|p]; try lia. simpl.
  unfold binary_round, shl_align.
  destruct (fexp prec emax (Z.pos (digits2_pos p) + 0) - 0) as [|d|d] eqn:E;
    apply binary_round_aux_positive; try done.
  unfold fexp in *. change IntDef.Z.max with Z.max in *. lia.
Qed.

Lemma Prim2SF_float_of_Z q :
  0 ≤ q < 2 ^ 63 →
  Prim2SF (float_of_Z q) = binary_normalize prec emax q 0 false.
Proof.
  intros Hq. unfold float_of_Z. apply Prim2SF_SF2Prim.
  pose proof (of_uint63_spec (Uint63.of_Z q)) as Hspec.
  rewrite Uint63.of_Z_spec, Z.mod_small in Hspec
    by (change Uint63.wB with (2 ^ 63); lia).
  rewrite <- Hspec. apply Prim2SF_valid.
Qed.

Lemma SFeqb_refl x : x ≠ S754_nan → SFeqb x x = true.
Proof.
  destruct x as [[]|[]| |[] m e]; try done; intros _; unfold SFeqb; simpl;
    rewrite Z.compare_refl; change (Pos.compare_cont Eq m m) with (m ?= m)%positive;
    by rewrite Pos.compare_refl.
Qed.

Lemma is_nan_false x : PrimFloat.is_nan x = false ↔ Prim2SF x ≠ S754_nan.
Proof.
  unfold PrimFloat.is_nan. rewrite FloatAxioms.eqb_spec. split.
  - intros H E. rewrite E in H. done.
  - intros H. by rewrite SFeqb_refl.
Qed.

Lemma positive_float u :
  PrimFloat.is_nan u = false → PrimFloat.leb u 0%float = false →
  positive_sf (Prim2SF u).
Proof.
  intros Hnan%is_nan_false Hle. rewrite FloatAxioms.leb_spec in Hle.
  change (Prim2SF 0) with (S754_zero false) in Hle.
  by destruct (Prim2SF u) as [[]|[]| |[] m e].
Qed.

Lemma SFmul_positive a b :
  positive_sf a → positive_sf b → SFmul prec emax a b ≠ S754_nan.
Proof.
  destruct a as [[]|[]| |[] ma ea], b as [[]|[]| |[] mb eb]; try done.
  intros _ _. simpl. by apply binary_round_aux_not_nan.
Qed.

(** The total of a sale is a number: a positive price times a positive
    64-bit quantity. *)
Lemma total_is_number u q :
  PrimFloat.is_nan u = false → PrimFloat.leb u 0%float = false →
  0 < q < 2 ^ 63 →
  PrimFloat.is_nan (PrimFloat.mul u (float_of_Z q)) = false.
Proof.
  intros Hnan Hpos Hq. apply is_nan_false. rewrite FloatAxioms.mul_spec.
  apply SFmul_positive; [by apply positive_float|].
  rewrite Prim2SF_float_of_Z by lia. apply binary_normalize_positive. lia.
Qed.

(** ** Sales *)

Lemma reachable_row st pid p :
  reachable st → products st !! pid = Some p →
  0 < pid ∧ 0 ≤ p_stock_quantity p < 2 ^ 63 ∧ price_positive p.
Proof.
  intros (_ & Hnn & (_ & Hok) & _)%reachable_invariants Hp.
  destruct (Hok _ _ Hp) as (? & H64%int64_bounds & ?). specialize (Hnn _ _ Hp).
  split_and!; [done|lia|lia|done].
Qed.

Lemma int64_intro z : - 2 ^ 63 ≤ z < 2 ^ 63 → int64 z = true.
Proof. apply int64_bounds. Qed.

Lemma pow63_pos : 0 < 2 ^ 63.
Proof. done. Qed.

(** Runs the conversion of a 64-bit parameter. *)
Ltac run_bind_int z :=
  unfold bind_int;
  rewrite (int64_intro z) by (pose proof pow63_pos; lia); simpl.

(** C2: a sale of more than the current stock of a product is answered with
    the "Insufficient stock" error (status 400), whose message gives the
    available stock and the requested quantity, and commits nothing: the
    products, the sales and the ledger are as before.  The product is any
    product of a reachable state whose rowid SQLite can hold. *)
Theorem add_sale_insufficient_stock data clk st pid p q :
  reachable st →
  data !! "product_id" = Some (PInt pid) →
  data !! "quantity" = Some (PInt q) →
  pid < 2 ^ 63 →
  products st !! pid = Some p →
  p_stock_quantity p < q →
  add_sale data clk st
  = Some (format_error
            ("Insufficient stock. Available: " +:+ pretty (p_stock_quantity p)
             +:+ ", Requested: " +:+ pretty q) 400, st).
Proof.
  intros Hst Hpid Hq Hlt Hp Hs.
  destruct (reachable_row _ _ _ Hst Hp) as (Hpos & Hstock & Hprice).
  unfold add_sale, add_sale_body, check_quantity, py_get.
  rewrite Hpid, Hq. simpl.
  destruct (Z.eqb_spec pid 0); [lia|]. destruct (Z.eqb_spec q 0); [lia|].
  destruct (Z.leb_spec q 0); [lia|]. simpl.
  run_bind_int pid. rewrite Hp.
  destruct (Z.ltb_spec (p_stock_quantity p) q); [done | lia].
Qed.

(** C3: a sale of a positive quantity [q] within the stock [s] of an existing
    product with unit price [u] commits: the stock becomes [s - q], one sale
    row (quantity [q], total [u * q]) and one ledger row (change [- q],
    reason "Sale #<sale id>") are appended, and the reply (201) carries the
    sale id and the remaining stock [s - q]. *)
Theorem add_sale_success data clk st pid p q :
  reachable st →
  data !! "product_id" = Some (PInt pid) →
  data !! "quantity" = Some (PInt q) →
  pid < 2 ^ 63 →
  products st !! pid = Some p →
  0 < q ≤ p_stock_quantity p →
  let s := p_stock_quantity p in
  let total := PrimFloat.mul (p_price p) (float_of_Z q) in
  ∃ st',
    add_sale data clk st
    = Some ((SaleRecorded (next_sale_id st)
               ("Sale recorded: " +:+ pretty q +:+ " x " +:+ p_name p)
               total (s - q), 201), st') ∧
    products st' = <[pid := set_stock (s - q) (clk 0%nat) p]> (products st) ∧
    sales st' = sales st ++
      [{| s_id := next_sale_id st; s_product_id := pid; s_quantity := q;
          s_total_price := total; s_sale_date := clk 1%nat |}] ∧
    stock_logs st' = stock_logs st ++
      [{| l_id := next_stock_log_id st; l_product_id := pid;
          l_change_amount := - q;
          l_reason := "Sale #" +:+ pretty (next_sale_id st);
          l_timestamp := clk 2%nat |}] ∧
    categories st' = categories st.
Proof.
  intros Hst Hpid Hq Hlt Hp Hrange s total.
  destruct (reachable_row _ _ _ Hst Hp) as (Hpos & Hstock & Hnan & Hprice).
  assert (Htotal : PrimFloat.is_nan total = false)
    by (apply total_is_number; [done..|lia]).
  unfold add_sale, add_sale_body, check_quantity, py_get.
  rewrite Hpid, Hq. simpl.
  destruct (Z.eqb_spec pid 0); [lia|]. destruct (Z.eqb_spec q 0); [lia|].
  destruct (Z.leb_spec q 0); [lia|]. simpl.
  run_bind_int pid. rewrite Hp.
  destruct (Z.ltb_spec (p_stock_quantity p) q); [lia|].
  rewrite int_as_double_int64 by (apply int64_intro; pose proof pow63_pos; lia).
  simpl. run_bind_int (p_stock_quantity p - q). run_bind_int q.
  unfold bind_real_not_null. fold total. rewrite Htotal. simpl.
  run_bind_int (- q). eexists. split; [done|]. simpl.
  split_and!; [by apply alter_Some|done..].
Qed.

(** X1: a restock of a positive quantity [q] of an existing product commits
    when the new stock fits the column: the stock becomes [s + q] and the
    ledger gains one row of change [+ q] with the reason of the request,
    "Manual restock" when it gives none. *)
Lemma restock_success data clk st pid p q :
  reachable st →
  data !! "product_id" = Some (PInt pid) →
  data !! "quantity" = Some (PInt q) →
  pid < 2 ^ 63 →
  products st !! pid = Some p →
  0 < q → p_stock_quantity p + q < 2 ^ 63 →
  ∀ reason, py_get_default data "reason" (PStr "Manual restock") = PStr reason →
  ∃ st',
    restock data clk st
    = Some ((Restocked
               ("Restocked " +:+ pretty q +:+ " units of " +:+ p_name p)
               (p_stock_quantity p + q), 200), st') ∧
    products st'
    = <[pid := set_stock (p_stock_quantity p + q) (clk 0%nat) p]> (products st) ∧
    stock_logs st' = stock_logs st ++
      [{| l_id := next_stock_log_id st; l_product_id := pid;
          l_change_amount := q; l_reason := reason;
          l_timestamp := clk 1%nat |}] ∧
    sales st' = sales st.
Proof.
  intros Hst Hpid Hq Hlt Hp Hpos Hfit reason Hreason.
  destruct (reachable_row _ _ _ Hst Hp) as (Hid & Hstock & _).
  unfold restock, restock_body, check_quantity, py_get.
  rewrite Hpid, Hq, Hreason. simpl.
  destruct (Z.eqb_spec pid 0); [lia|]. destruct (Z.eqb_spec q 0); [lia|].
  destruct (Z.leb_spec q 0); [lia|]. simpl.
  run_bind_int pid. rewrite Hp.
  run_bind_int (p_stock_quantity p + q). run_bind_int q.
  eexists. split; [done|]. simpl.
  split_and!; [by apply alter_Some|done..].
Qed.

(** ** Stock never goes negative *)

(** The guards.  A creation with a negative initial stock and an update to
    a negative quantity are answered with an error and commit nothing. *)
Lemma create_product_negative_stock data clk seen st n r st' :
  py_int (py_get_default data "stock_quantity" (PInt 0)) = Ret n → n < 0 →
  create_product_racing data clk seen st = Some (r, st') →
  st' = st ∧ is_error r = true.
Proof.
  intros Hn Hneg [H|H]%create_product_racing_Some; [|done].
  apply create_product_body_Ret in H as (row & _ & Hrow & _ & ? & _).
  rewrite Hn in Hrow. simplify_eq. lia.
Qed.

Lemma update_product_negative_stock product_id data clk st v n r st' :
  data !! "stock_quantity" = Some v → py_int v = Ret n → n < 0 →
  update_product product_id data clk st = Some (r, st') →
  st' = st ∧ is_error r = true.
Proof.
  intros Hv Hn Hneg [H|H]%handle_Some; [|done].
  apply update_product_body_Ret in H as (row & row' & _ & _ & Hstock & _).
  destruct Hstock as [[? _]|(v' & ? & Hv' & ? & _)]; simplify_eq.
  rewrite Hn in Hv'. simplify_eq. lia.
Qed.

(** A committed sale takes a positive quantity within the stock, a committed
    restock adds a positive quantity. *)
Lemma add_sale_within_stock data clk st r st' :
  add_sale data clk st = Some (r, st') → is_error r = false →
  ∃ pid p q, products st !! pid = Some p ∧ 0 < q ≤ p_stock_quantity p ∧
    products st' = <[pid := set_stock (p_stock_quantity p - q) (clk 0%nat) p]>
                     (products st).
Proof.
  intros [H|[_ H]]%handle_Some Hr; [|congruence].
  apply add_sale_body_Ret in H as (pid & p & q & Hp & ? & ? & _ & _ & ->).
  exists pid, p, q. split_and!; try done. simpl. by apply alter_Some.
Qed.

Lemma restock_adds_positive data clk st r st' :
  restock data clk st = Some (r, st') → is_error r = false →
  ∃ pid p q, products st !! pid = Some p ∧ 0 < q ∧
    products st' = <[pid := set_stock (p_stock_quantity p + q) (clk 0%nat) p]>
                     (products st).
Proof.
  intros [H|[_ H]]%handle_Some Hr; [|congruence].
  apply restock_body_Ret in H as (pid & p & q & reason & Hp & ? & _ & _ & ->).
  exists pid, p, q. split_and!; try done. simpl. by apply alter_Some.
Qed.

(** C4: no public operation takes a state in which every stock is
    non-negative to a state with a negative stock.  The guards, operation by
    operation: a creation with a negative initial stock and an update to a
    negative quantity are refused and commit nothing; a sale that is not
    refused takes a positive quantity within the current stock; a restock
    that is not refused adds a positive quantity. *)
Theorem stock_nonneg_preserved rq clk st r st' :
  perform rq clk st = Some (r, st') →
  (stock_nonneg st → stock_nonneg st') ∧
  match rq with
  | CreateProduct data =>
      ∀ n, py_int (py_get_default data "stock_quantity" (PInt 0)) = Ret n →
           n < 0 → st' = st ∧ is_error r = true
  | UpdateProduct product_id data =>
      ∀ v n, data !! "stock_quantity" = Some v → py_int v = Ret n →
             n < 0 → st' = st ∧ is_error r = true
  | RecordSale data =>
      is_error r = false →
      ∃ pid p q, products st !! pid = Some p ∧ 0 < q ≤ p_stock_quantity p ∧
        products st'
        = <[pid := set_stock (p_stock_quantity p - q) (clk 0%nat) p]>
            (products st)
  | Restock data =>
      is_error r = false →
      ∃ pid p q, products st !! pid = Some p ∧ 0 < q ∧
        products st'
        = <[pid := set_stock (p_stock_quantity p + q) (clk 0%nat) p]>
            (products st)
  end.
Proof.
  intros H. split.
  - intros Hst. apply perform_writes in H as [->|(pid & row' & Hw)]; [done|].
    by eapply writes_nonneg.
  - destruct rq as [data|product_id data|data|data]; simpl in H.
    + intros n Hn Hneg.
      exact (create_product_negative_stock _ _ _ _ _ _ _ Hn Hneg H).
    + intros v n Hv Hn Hneg.
      exact (update_product_negative_stock _ _ _ _ _ _ _ _ Hv Hn Hneg H).
    + exact (add_sale_within_stock _ _ _ _ _ H).
    + exact (restock_adds_positive _ _ _ _ _ H).
Qed.

(** ** Stock adjustment through [update_product] *)

(** C5: when [stock_quantity] is among the fields of an update of an
    existing product, with [stock_change] the new quantity minus the current
    one: whatever the reply, the ledger gains no row when [stock_change] is
    zero (or the update is refused), and otherwise exactly one row, of amount
    [stock_change], labelled "Stock adjustment" for an increase and "Stock
    reduction" for a decrease.  An update of the stock alone to a
    non-negative 64-bit quantity is accepted. *)
Theorem update_product_stock_ledger product_id data clk st row v n :
  products st !! product_id = Some row →
  data !! "stock_quantity" = Some v →
  py_int v = Ret n →
  let stock_change := n - p_stock_quantity row in
  let entry :=
    {| l_id := next_stock_log_id st; l_product_id := product_id;
       l_change_amount := stock_change;
       l_reason := if 0 <? stock_change then "Stock adjustment"
                   else "Stock reduction";
       l_timestamp := clk 1%nat |} in
  (∀ r st', update_product product_id data clk st = Some (r, st') →
     (stock_change = 0 → stock_logs st' = stock_logs st) ∧
     (stock_change ≠ 0 →
        if is_error r then st' = st
        else stock_logs st' = stock_logs st ++ [entry])) ∧
  (reachable st → product_id < 2 ^ 63 → 0 ≤ n < 2 ^ 63 →
   data = {["stock_quantity" := v]} →
   ∃ st', update_product product_id data clk st
          = Some ((ProductUpdated, 200), st')).
Proof.
  intros Hrow Hv Hn stock_change entry. split.
  - intros r st' [H|[-> ->]]%handle_Some; [|done].
    apply update_product_body_Ret in H
      as (row0 & row' & Hrow0 & _ & Hstock & _ & Hlogs & _ & _ & ->).
    destruct Hstock as [[? _]|(v' & ? & Hv' & _)]; simplify_eq.
    rewrite Hn in Hv'. simplify_eq. fold stock_change in Hlogs.
    destruct (Z.eqb_spec stock_change 0) as [Hz|Hz]; simpl in *.
    + by rewrite app_nil_r in Hlogs.
    + done.
  - intros Hst Hlt Hrange ->.
    destruct (reachable_row _ _ _ Hst Hrow) as (Hpos & Hstock & _).
    unfold update_product, update_product_body, if_present.
    run_bind_int product_id. rewrite Hrow.
    rewrite !lookup_singleton_ne by done. rewrite lookup_singleton_eq. simpl.
    rewrite Hn. simpl.
    destruct (Z.ltb_spec n 0); [lia|]. simpl.
    run_bind_int n.
    destruct (n - p_stock_quantity row =? 0); simpl; [eauto|].
    run_bind_int (n - p_stock_quantity row). eauto.
Qed.

(** ** Product creation *)

Lemma sku_exists_intro st pid p : products st !! pid = Some p → sku_exists (p_sku p) st = true.
Proof.
  intros Hp. unfold sku_exists. apply bool_decide_eq_true. by exists pid, p.
Qed.

(** The run of the checks of a valid request, up to the look-up of the sku. *)
Lemma create_product_body_valid data clk seen st name sku price pp stock min :
  valid_fields data name sku price pp stock min →
  create_product_body data clk seen st
  = if sku_exists sku seen then ReturnError "SKU already exists" 400
    else
      key ← bind_key (py_get data "category_id");
      match key ≫= (categories seen !!.) with
      | None => ReturnError "Category not found" 404
      | Some _ =>
          st1 ← insert_product name sku (default 0 key) price pp stock min
                  (clk 0%nat) st;
          Ret ((ProductCreated
                  ("Product " +:+ dquote +:+ name +:+ dquote
                   +:+ " created successfully") (next_product_id st), 201),
               if 0 <? stock
               then insert_stock_log (next_product_id st) stock "Initial stock"
                      (clk 1%nat) st1
               else st1)
      end.
Proof.
  intros []. unfold create_product_body.
  rewrite vf_required0, vf_name0, vf_sku0, vf_price0, vf_purchasing_price0,
    vf_stock_quantity0, vf_min_stock_level0. simpl.
  rewrite !bool_decide_eq_false_2 by done. simpl.
  rewrite vf_price_positive0, vf_purchasing_price_nonneg0.
  destruct (Z.ltb_spec stock 0); [lia|]. done.
Qed.

(** C6: when a product of the store already has the sku of a request (as
    stripped), no row is inserted and nothing is logged, whatever else the
    request holds: the state stays and the reply is an error.  For a request
    that passes the field checks the reply is "SKU already exists" (400):
    from the look-up made before the insert when it sees the sku, and from
    the store's uniqueness constraint ([sqlite3.IntegrityError]) when the
    look-up ran before the other product was committed. *)
Theorem create_product_duplicate_sku data clk seen st pid p :
  products st !! pid = Some p →
  py_strip (py_get data "sku") = Ret (p_sku p) →
  (∀ r st', create_product_racing data clk seen st = Some (r, st') →
     st' = st ∧ is_error r = true) ∧
  ∀ name price pp stock min,
    valid_fields data name (p_sku p) price pp stock min →
    create_product data clk st
      = Some (format_error "SKU already exists" 400, st) ∧
    ∀ cat cname,
     sku_exists (p_sku p) seen = false →
     bind_key (py_get data "category_id") = Ret (Some cat) →
     categories seen !! cat = Some cname →
     stock < 2 ^ 63 → - 2 ^ 63 ≤ min < 2 ^ 63 →
     create_product_racing data clk seen st
       = Some (format_error "SKU already exists" 400, st).
Proof.
  intros Hp Hsku. apply sku_exists_intro in Hp as Hdup. split.
  - intros r st' [H|H]%create_product_racing_Some; [|done].
    apply create_product_body_Ret in H
      as (row & Hsku' & _ & _ & _ & _ & _ & Hfree & _).
    rewrite Hsku in Hsku'. simplify_eq. congruence.
  - intros name price pp stock min Hvalid. split.
    + unfold create_product, create_product_racing.
      by rewrite (create_product_body_valid _ _ _ _ _ _ _ _ _ _ Hvalid), Hdup.
    + intros cat cname Hseen Hkey Hcat Hstock Hmin.
      pose proof (vf_stock_nonneg _ _ _ _ _ _ _ Hvalid).
      unfold create_product_racing.
      rewrite (create_product_body_valid _ _ _ _ _ _ _ _ _ _ Hvalid), Hseen.
      rewrite Hkey. simpl. rewrite Hcat. unfold insert_product.
      run_bind_int stock. run_bind_int min.
      unfold bind_real_not_null.
      destruct (PrimFloat.is_nan price); [done|].
      destruct (PrimFloat.is_nan pp); [done|]. simpl. by rewrite Hdup.
Qed.

(** C10: a creation that passes the checks (valid fields, a free sku, an
    existing category, values the columns can hold) commits one new row with
    the stock and the threshold of the request, and one "Initial stock"
    ledger row exactly when the initial stock is positive.  With
    [stock_quantity] omitted the stock is 0 and the ledger is as before; with
    [min_stock_level] omitted the threshold is 5. *)
Theorem create_product_defaults data clk st name sku price pp stock min cat cname :
  valid_fields data name sku price pp stock min →
  sku_exists sku st = false →
  bind_key (py_get data "category_id") = Ret (Some cat) →
  categories st !! cat = Some cname →
  PrimFloat.is_nan price = false → PrimFloat.is_nan pp = false →
  stock < 2 ^ 63 → - 2 ^ 63 ≤ min < 2 ^ 63 →
  ∃ st',
    create_product data clk st
    = Some ((ProductCreated
               ("Product " +:+ dquote +:+ name +:+ dquote
                +:+ " created successfully") (next_product_id st), 201), st') ∧
    products st'
    = <[next_product_id st :=
          {| p_name := name; p_sku := sku; p_category_id := cat;
             p_price := price; p_purchasing_price := pp;
             p_stock_quantity := stock; p_min_stock_level := min;
             p_created_at := clk 0%nat; p_updated_at := clk 0%nat |}]>
        (products st) ∧
    stock_logs st'
    = stock_logs st ++
        (if 0 <? stock
         then [{| l_id := next_stock_log_id st;
                  l_product_id := next_product_id st;
                  l_change_amount := stock; l_reason := "Initial stock";
                  l_timestamp := clk 1%nat |}]
         else []) ∧
    (data !! "stock_quantity" = None →
       stock = 0 ∧ stock_logs st' = stock_logs st) ∧
    (data !! "min_stock_level" = None → min = 5).
Proof.
  intros Hvalid Hfree Hkey Hcat Hprice Hpp Hstock Hmin.
  pose proof (vf_stock_nonneg _ _ _ _ _ _ _ Hvalid).
  unfold create_product, create_product_racing.
  rewrite (create_product_body_valid _ _ _ _ _ _ _ _ _ _ Hvalid), Hfree.
  rewrite Hkey. simpl. rewrite Hcat. unfold insert_product.
  run_bind_int stock. run_bind_int min.
  unfold bind_real_not_null. rewrite Hprice, Hpp. simpl. rewrite Hfree. simpl.
  eexists. split; [done|].
  assert (Hlogs : ∀ st1 : db, stock_logs st1 = stock_logs st →
    seq_stock_logs st1 = seq_stock_logs st →
    stock_logs (if 0 <? stock
                then insert_stock_log (next_product_id st) stock "Initial stock"
                       (clk 1%nat) st1 else st1)
    = stock_logs st ++
        (if 0 <? stock
         then [{| l_id := next_stock_log_id st;
                  l_product_id := next_product_id st;
                  l_change_amount := stock; l_reason := "Initial stock";
                  l_timestamp := clk 1%nat |}]
         else [])).
  { intros st1 E1 E2. destruct (0 <? stock); simpl.
    - unfold next_stock_log_id. by rewrite E1, E2.
    - by rewrite app_nil_r. }
  split_and!.
  - by destruct (0 <? stock).
  - by apply Hlogs.
  - intros Hnone. destruct Hvalid as [_ _ _ _ _ Hs _ _ _ _ _ _].
    unfold py_get_default in Hs. rewrite Hnone in Hs. simpl in Hs.
    injection Hs as <-. split; [done|]. rewrite Hlogs by done.
    simpl. by rewrite app_nil_r.
  - intros Hnone. destruct Hvalid as [_ _ _ _ _ _ Hm _ _ _ _ _].
    unfold py_get_default in Hm. rewrite Hnone in Hm. simpl in Hm.
    by injection Hm as <-.
Qed.

(** ** Validation of the quantity of a sale *)

(** What the check refuses besides the missing and the falsy: a
    quantity that compares as zero or less, an integer or a float. *)
Lemma check_quantity_nonpositive product_id quantity :
  truthy product_id = true → truthy quantity = true →
  py_le_zero quantity = Ret true →
  check_quantity product_id quantity
  = ReturnError "Quantity must be greater than 0" 400.
Proof. intros Hp Hq Hle. unfold check_quantity. by rewrite Hp, Hq, Hle. Qed.

(** The check lets every positive number through, an integer or not, and
    raises on a text that is not empty. *)
Lemma check_quantity_positive product_id quantity :
  truthy product_id = true → py_le_zero quantity = Ret false →
  check_quantity product_id quantity = Ret ().
Proof.
  intros Hp Hle. unfold check_quantity. rewrite Hp, Hle.
  destruct quantity as [|[]|z|f|s|len]; simpl in *; try done.
  - injection Hle as Hle. destruct (Z.eqb_spec z 0); [by subst z|done].
  - injection Hle as Hle. destruct (PrimFloat.eqb f 0) eqn:E; [|done].
    rewrite FloatAxioms.eqb_spec in E. rewrite FloatAxioms.leb_spec in Hle.
    unfold SFleb in Hle. unfold SFeqb in E.
    destruct (SFcompare (Prim2SF f) (Prim2SF 0)) as [[]|]; done.
Qed.

(** C7: [add_sale] does not require the quantity of a sale to be an
    integer, and answers none of these quantities with status 400.  The
    number 2.5 passes the checks made before the store is opened, and the
    handler comes to its writes with a total of 25.0 and a new stock of 2.5
    for the widget (five in stock at 10.00).  The number 3.0 is sold: the
    sale and its ledger row are committed, and the reply reads 3.0.  The
    JSON value [true] is sold as a quantity of one.  The text "3" makes
    [quantity <= 0] raise a [TypeError], which is answered with status 500,
    nothing written. *)
Theorem add_sale_accepts_non_integer :
  check_quantity (PInt 1) (PFloat 2.5%float) = Ret () ∧
  add_sale_float_checks (float_quantity 1 2.5%float) shop
    = Ret (1, widget_row, 2.5%float, 25%float, 2.5%float) ∧
  (∃ st',
     add_sale_float (float_quantity 1 3%float) afternoon shop
     = Some (SaleRecordedFloat 1 "Sale recorded: 3.0 x Widget" 30%float
               2%float, st') ∧
     p_stock_quantity <$> products st' !! 1 = Some 2 ∧
     s_quantity <$> sales st' = [3] ∧
     l_change_amount <$> stock_logs st' = [5; -3]) ∧
  (∃ st',
     add_sale (<["product_id" := PInt 1]> (<["quantity" := PBool true]> ∅))
       afternoon shop
     = Some ((SaleRecorded 1 "Sale recorded: True x Widget" 10%float 4, 201),
             st') ∧
     s_quantity <$> sales st' = [1] ∧
     l_change_amount <$> stock_logs st' = [5; -1]) ∧
  add_sale (<["product_id" := PInt 1]> (<["quantity" := PStr "3"]> ∅))
    afternoon shop
  = Some ((ErrorStr "Failed to record sale: " TypeError, 500), shop).
Proof.
  split_and!.
  - vm_compute; reflexivity.
  - vm_compute; reflexivity.
  - eexists. split_and!; vm_compute; reflexivity.
  - eexists. split_and!; vm_compute; reflexivity.
  - vm_compute; reflexivity.
Qed.

(** ** The seven-day trend *)

Section Trend.

Variable sql_sum : list float → float.

Lemma trend_loop_length now data i n :
  length (trend_loop now data i n) = n.
Proof. revert i. induction n as [|n IH]; intros i; simpl; [done|by rewrite IH]. Qed.

(** The trend always has seven entries. *)
Lemma sales_trend_length now st : length (sales_trend sql_sum now st) = 7%nat.
Proof. apply trend_loop_length. Qed.

(** The dict has a key exactly for the dates of the selected sales, with
    the sum of the group. *)
Lemma grouped_lookup (rows : list sale) (total : Z → float) d :
  (list_to_map ((λ s, let d := ts_day (s_sale_date s) in (d, total d)) <$> rows)
     : gmap Z float) !! d
  = if decide (sales_of_day d rows = []) then None else Some (total d).
Proof.
  unfold sales_of_day. induction rows as [|s rows IH]; simpl; [done|].
  rewrite lookup_insert, filter_cons.
  destruct (decide (ts_day (s_sale_date s) = d)) as [->|Hne]; [done|].
  apply IH.
Qed.

(** The selection [sale_date >= ?] keeps the sales of the days after the
    day of the bound, and only those. *)
Lemma sale_date_ge_isoformat_spec t dt :
  sale_date_ge_isoformat t dt = true ↔ dt_day dt < ts_day t.
Proof.
  unfold sale_date_ge_isoformat.
  destruct (Z.compare_spec (ts_day t) (dt_day dt)); split; done || lia.
Qed.

Lemma sales_of_day_recent bound st d :
  dt_day bound < d →
  sales_of_day d (recent_sales bound st) = sales_of_day d (sales st).
Proof.
  intros Hd. unfold sales_of_day, recent_sales.
  induction (sales st) as [|s l IH]; [done|].
  rewrite !filter_cons.
  destruct (decide (sale_date_ge_isoformat (s_sale_date s) bound = true)) as [Hs|Hs].
  - rewrite filter_cons. case_decide; by rewrite IH.
  - rewrite IH. case_decide as Hday; [|done].
    contradict Hs. apply sale_date_ge_isoformat_spec. lia.
Qed.

Lemma sales_data_lookup bound st d :
  dt_day bound < d →
  default 0%float (sales_data sql_sum bound st !! d) = daily_value sql_sum st d.
Proof.
  intros Hd. unfold sales_data, daily_value.
  rewrite (grouped_lookup (recent_sales bound st)
             (λ d, sql_sum (s_total_price <$> sales_of_day d (recent_sales bound st)))).
  rewrite sales_of_day_recent by done.
  case_decide as E; [by rewrite E|]. simpl.
  by destruct (sales_of_day d (sales st)).
Qed.

(** X26: when the clock stays on one date [today] while the loop runs (and
    the query was prepared no later), the trend lists the seven dates that
    end today, in ascending order, each with the sum of the sales of that
    date, [0.0] for a date without sales. *)
Lemma sales_trend_same_day now st today :
  dt_day (now 0%nat) ≤ today →
  (∀ i, (1 ≤ i ≤ 7)%nat → dt_day (now i) = today) →
  sales_trend sql_sum now st
  = (λ i : nat, let d := today - 6 + Z.of_nat i in (d, daily_value sql_sum st d))
      <$> seq 0 7.
Proof.
  intros H0 Hday. unfold sales_trend.
  assert (Hloop : ∀ n i, (i + n ≤ 7)%nat →
    trend_loop now (sales_data sql_sum (minus_days (now 0%nat) 7) st) i n
    = (λ i : nat, let d := today - 6 + Z.of_nat i in (d, daily_value sql_sum st d))
        <$> seq i n).
  { induction n as [|n IH]; intros i Hi; simpl; [done|].
    rewrite IH by lia. rewrite Hday by lia.
    replace (today - (6 - Z.of_nat i)) with (today - 6 + Z.of_nat i) by lia.
    rewrite sales_data_lookup by (simpl; lia). done. }
  by apply Hloop.
Qed.

End Trend.

(** ** The sales history *)

Lemma ts_leb_le a b :
  ts_leb a b = true ↔
  ts_day a < ts_day b ∨ (ts_day a = ts_day b ∧ ts_sec a ≤ ts_sec b).
Proof.
  unfold ts_leb.
  rewrite orb_true_iff, andb_true_iff, Z.ltb_lt, Z.eqb_eq, Z.leb_le. tauto.
Qed.

#[local] Instance not_older_trans : Transitive not_older.
Proof. intros a b c. unfold not_older. rewrite !ts_leb_le. lia. Qed.

Lemma not_older_total a b : not_older a b ∨ not_older b a.
Proof. unfold not_older. rewrite !ts_leb_le. lia. Qed.

(** In a reachable state the join loses no sale. *)
Lemma join_sales_length st :
  sales_have_products st → length (join_sales st) = length (sales st).
Proof.
  unfold sales_have_products, join_sales.
  induction (sales st) as [|s l IH]; intros Hl; simpl; [done|].
  destruct (Hl s) as [p ->]; [left|]. simpl. f_equal. apply IH.
  intros s' Hs'. apply Hl. by right.
Qed.

Lemma elem_of_join_sales st r :
  r ∈ join_sales st ↔
  ∃ s p, s ∈ sales st ∧ products st !! s_product_id s = Some p ∧ r = joined_row s p.
Proof.
  unfold join_sales. rewrite list_elem_of_omap. split.
  - intros (s & Hs & Hr). destruct (products st !! s_product_id s) as [p|] eqn:Hp;
      simplify_eq/=. eauto.
  - intros (s & p & Hs & Hp & ->). exists s. by rewrite Hp.
Qed.

(** C9, as amended: the history is the 100 most recent sales (all of them
    when there are no more than 100), each joined with the name and the sku
    of its product, in descending order of sale time; the handler takes no
    limit from the request.  [order_by] is any implementation of the
    [ORDER BY]. *)
Theorem get_sales_most_recent order_by args st :
  (∀ l, order_by l ≡ₚ l) →
  (∀ l, Sorted not_older (order_by l)) →
  reachable st →
  let rows := get_sales order_by args st in
  length rows = (length (sales st) `min` 100)%nat ∧
  Sorted not_older rows ∧
  (∀ r, r ∈ rows →
     ∃ s p, s ∈ sales st ∧ products st !! s_product_id s = Some p ∧
            r = joined_row s p) ∧
  ∃ older, rows ++ older ≡ₚ join_sales st ∧
    ∀ r r', r ∈ rows → r' ∈ older → not_older r r'.
Proof.
  intros Hperm Hsorted (_ & _ & _ & Hsales)%reachable_invariants rows.
  unfold get_sales in rows.
  pose proof (Hsorted (join_sales st)) as Hstrong.
  apply (Sorted_StronglySorted _) in Hstrong.
  rewrite <- (take_drop 100 (order_by (join_sales st))) in Hstrong.
  fold rows in Hstrong. split_and!.
  - subst rows. rewrite length_take, Hperm, join_sales_length by done. lia.
  - apply StronglySorted_Sorted. by eapply StronglySorted_app_1_l.
  - intros r Hr. apply elem_of_join_sales. rewrite <- (Hperm (join_sales st)).
    by eapply subseteq_take.
  - exists (drop 100 (order_by (join_sales st))). split.
    + subst rows. by rewrite take_drop.
    + intros r r' Hr Hr'. by eapply StronglySorted_app_1_elem_of.
Qed.

(** The insertion sort is an [ORDER BY sale_date DESC]. *)
Lemma insert_desc_perm r l : insert_desc r l ≡ₚ r :: l.
Proof.
  induction l as [|r' l IH]; simpl; [done|].
  case_match; [done|]. by rewrite IH, Permutation_swap.
Qed.

Lemma sort_desc_perm l : sort_desc l ≡ₚ l.
Proof.
  induction l as [|r l IH]; simpl; [done|].
  by rewrite insert_desc_perm, IH.
Qed.

Lemma insert_desc_sorted r l :
  Sorted not_older l → Sorted not_older (insert_desc r l).
Proof.
  induction 1 as [|r' l Hl IH Hhd]; simpl.
  - by repeat constructor.
  - destruct (ts_leb (r_sale_date r') (r_sale_date r)) eqn:E.
    + by repeat constructor.
    + constructor; [done|].
      assert (not_older r' r) by (destruct (not_older_total r r'); [congruence|done]).
      destruct Hhd as [|r'' l' Hr'']; simpl; [by constructor|].
      case_match; by constructor.
Qed.

Lemma sort_desc_sorted l : Sorted not_older (sort_desc l).
Proof.
  induction l as [|r l IH]; simpl; [constructor | by apply insert_desc_sorted].
Qed.

(** * Runs on a concrete shop *)

Lemma reachable_shop : reachable shop.
Proof. apply reachable_after. constructor. Qed.

Lemma reachable_sold : reachable sold.
Proof. apply reachable_after, reachable_shop. Qed.

Lemma reachable_sold_twice : reachable sold_twice.
Proof. apply reachable_after, reachable_sold. Qed.

(** The example of the specification: price 10.00, stock 5, a sale of 3. *)
Example sale_of_three :
  add_sale (sale_of 1 3) noon shop
  = Some ((SaleRecorded 1 "Sale recorded: 3 x Widget" 30%float 2, 201), sold)
  ∧ (l_change_amount <$> stock_logs sold) = [5; -3]
  ∧ (s_total_price <$> sales sold) = [30%float].
Proof. split_and!; vm_compute; reflexivity. Qed.

Lemma stock_is_ledger_sum_witness :
  products sold !! 1 = Some (set_stock 2 (noon 0) widget_row) ∧
  2 = ledger_sum 1 (stock_logs sold).
Proof.
  assert (H : products sold !! 1 = Some (set_stock 2 (noon 0) widget_row))
    by (vm_compute; reflexivity).
  split; [exact H|].
  exact (stock_is_ledger_sum sold 1 _ reachable_sold H).
Defined.

Lemma add_sale_insufficient_stock_witness :
  add_sale (sale_of 1 7) noon shop
  = Some (format_error "Insufficient stock. Available: 5, Requested: 7" 400, shop).
Proof.
  apply (add_sale_insufficient_stock (sale_of 1 7) noon shop 1 widget_row 7).
  - exact reachable_shop.
  - vm_compute; reflexivity.
  - vm_compute; reflexivity.
  - vm_compute; reflexivity.
  - vm_compute; reflexivity.
  - simpl; lia.
Defined.

Lemma add_sale_success_witness :
  ∃ st',
    add_sale (sale_of 1 3) noon shop
    = Some ((SaleRecorded 1 "Sale recorded: 3 x Widget" 30%float 2, 201), st') ∧
    products st' !! 1 = Some (set_stock 2 (noon 0) widget_row) ∧
    (s_total_price <$> sales st') = [30%float] ∧
    (l_change_amount <$> stock_logs st') = [5; -3] ∧
    (l_reason <$> stock_logs st') = ["Initial stock"; "Sale #1"].
Proof.
  destruct (add_sale_success (sale_of 1 3) noon shop 1 widget_row 3)
    as (st' & Hrun & Hproducts & Hsales & Hlogs & _).
  - exact reachable_shop.
  - vm_compute; reflexivity.
  - vm_compute; reflexivity.
  - vm_compute; reflexivity.
  - vm_compute; reflexivity.
  - simpl; lia.
  - exists st'. split; [exact Hrun|].
    rewrite Hproducts, Hsales, Hlogs.
    split_and!; vm_compute; reflexivity.
Defined.

Lemma stock_nonneg_preserved_witness :
  stock_nonneg shop ∧
  perform (RecordSale (sale_of 1 3)) noon shop
    = Some ((SaleRecorded 1 "Sale recorded: 3 x Widget" 30%float 2, 201), sold) ∧
  stock_nonneg sold.
Proof.
  destruct (reachable_invariants shop reachable_shop) as (_ & H0 & _).
  assert (H1 : perform (RecordSale (sale_of 1 3)) noon shop
    = Some ((SaleRecorded 1 "Sale recorded: 3 x Widget" 30%float 2, 201), sold))
    by (vm_compute; reflexivity).
  split_and!; [exact H0 | exact H1 |].
  exact (proj1 (stock_nonneg_preserved _ _ _ _ _ H1) H0).
Defined.

Lemma update_product_stock_ledger_witness :
  ∃ st',
    update_product 1 (stock_to 8) noon shop = Some ((ProductUpdated, 200), st') ∧
    (l_change_amount <$> stock_logs st') = [5; 3] ∧
    (l_reason <$> stock_logs st') = ["Initial stock"; "Stock adjustment"].
Proof.
  destruct (update_product_stock_ledger 1 (stock_to 8) noon shop widget_row
              (PInt 8) 8) as [Hany Hrun].
  - vm_compute; reflexivity.
  - vm_compute; reflexivity.
  - reflexivity.
  - destruct Hrun as [st' Hrun].
    + exact reachable_shop.
    + vm_compute; reflexivity.
    + split; [lia | vm_compute; reflexivity].
    + reflexivity.
    + exists st'. split; [exact Hrun|].
      destruct (Hany _ _ Hrun) as [_ Hlogs].
      rewrite Hlogs by (simpl; lia).
      split; vm_compute; reflexivity.
Defined.

Lemma widget_valid : valid_fields widget "Widget" "W-1" 10%float 4%float 5 5.
Proof. split; try (vm_compute; reflexivity); try done. Qed.

Lemma create_product_duplicate_sku_witness :
  create_product widget afternoon shop
    = Some (format_error "SKU already exists" 400, shop) ∧
  create_product_racing widget afternoon init_db shop
    = Some (format_error "SKU already exists" 400, shop).
Proof.
  destruct (create_product_duplicate_sku widget afternoon init_db shop 1 widget_row)
    as [_ Hvalid].
  - vm_compute; reflexivity.
  - vm_compute; reflexivity.
  - destruct (Hvalid "Widget" 10%float 4%float 5 5 widget_valid) as [Hseq Hrace].
    split; [exact Hseq|].
    apply (Hrace 1 "Electronics").
    + vm_compute; reflexivity.
    + vm_compute; reflexivity.
    + vm_compute; reflexivity.
    + vm_compute; reflexivity.
    + split; vm_compute; [discriminate | reflexivity].
Defined.

Lemma gadget_valid : valid_fields gadget "Gadget" "G-1" 2.5%float 1%float 0 5.
Proof. split; try (vm_compute; reflexivity); try done. Qed.

Lemma create_product_defaults_witness :
  ∃ st' row,
    create_product gadget noon shop
    = Some ((ProductCreated
               ("Product " +:+ dquote +:+ "Gadget" +:+ dquote
                +:+ " created successfully") 2, 201), st') ∧
    products st' !! 2 = Some row ∧
    p_stock_quantity row = 0 ∧ p_min_stock_level row = 5 ∧
    stock_logs st' = stock_logs shop.
Proof.
  destruct (create_product_defaults gadget noon shop "Gadget" "G-1" 2.5%float
              1%float 0 5 2 "Clothing" gadget_valid)
    as (st' & Hrun & Hproducts & _ & Hstock & _).
  - vm_compute; reflexivity.
  - vm_compute; reflexivity.
  - vm_compute; reflexivity.
  - vm_compute; reflexivity.
  - vm_compute; reflexivity.
  - vm_compute; reflexivity.
  - split; vm_compute; [discriminate | reflexivity].
  - destruct Hstock as [_ Hlogs]; [vm_compute; reflexivity|].
    eexists st', _. split; [exact Hrun|].
    rewrite Hproducts. split_and!; [apply lookup_insert_eq | done | done | exact Hlogs].
Defined.

Lemma get_sales_most_recent_witness :
  let rows := get_sales sort_desc ∅ sold_twice in
  length rows = 2%nat ∧ Sorted not_older rows ∧
  (r_quantity <$> rows) = [1; 3] ∧ (r_sku <$> rows) = ["W-1"; "W-1"].
Proof.
  destruct (get_sales_most_recent sort_desc ∅ sold_twice sort_desc_perm
              sort_desc_sorted reachable_sold_twice) as (Hlen & Hsorted & _).
  split_and!; [exact Hlen | exact Hsorted | vm_compute; reflexivity
               | vm_compute; reflexivity].
Defined.

(** C9 as stated fails: the history is not cut at a requested limit.  A
    request for one sale is answered with both sales of the shop; the handler
    never reads the request. *)
Lemma get_sales_ignores_limit :
  ¬ (∀ args st (n : nat),
       args !! "limit" = Some (pretty n) →
       length (get_sales sort_desc args st) = (n `min` length (sales st))%nat) ∧
  (r_id <$> get_sales sort_desc {["limit" := "1"]} sold_twice) = [2; 1].
Proof.
  split; [|vm_compute; reflexivity].
  intros Hall. specialize (Hall {["limit" := "1"]} sold_twice 1%nat).
  vm_compute in Hall. by specialize (Hall eq_refl).
Qed.

(** ** The trend across midnight *)

(** C8 fails when the date changes while [dashboard_stats] runs: the loop
    reads the clock on every pass.  With the sale of 30.00 made two days
    before, a request served within one day reports it under its date; a
    request that spans midnight lists seven dates that skip that very date,
    and reports no sale at all. *)
Theorem sales_trend_across_midnight :
  let zero := 0%float in
  sales_trend sum_left same_day sold
  = [(738994, zero); (738995, zero); (738996, zero); (738997, zero);
     (738998, 30%float); (738999, zero); (739000, zero)] ∧
  sales_trend sum_left across_midnight sold
  = [(738994, zero); (738995, zero); (738996, zero); (738997, zero);
     (738999, zero); (739000, zero); (739001, zero)].
Proof. split; vm_compute; reflexivity. Qed.

(** * The rest of the backend *)


(** ** White space *)

Lemma rstrip_idemp s : rstrip (rstrip s) = rstrip s.
Proof.
  induction s as [|c s IH]; simpl; [done|].
  destruct (rstrip s) as [|c' t] eqn:E.
  - destruct (py_isspace c) eqn:Ec; simpl; [done|]. by rewrite Ec.
  - simpl in *. by rewrite IH.
Qed.

Lemma lstrip_head s :
  lstrip s = "" ∨ ∃ c t, lstrip s = String c t ∧ py_isspace c = false.
Proof.
  induction s as [|c s IH]; simpl; [by left|].
  destruct (py_isspace c) eqn:E; [done|]. right; eauto.
Qed.

(** Stripping gives a text that stripping leaves as it is. *)
Lemma strip_idemp s : rstrip (lstrip (rstrip (lstrip s))) = rstrip (lstrip s).
Proof.
  destruct (lstrip_head s) as [->|(c & t & -> & Hc)]; [done|].
  assert (∃ u, rstrip (String c t) = String c u) as [u Hu].
  { simpl. destruct (rstrip t); rewrite ?Hc; eauto. }
  rewrite Hu. simpl. rewrite Hc. rewrite <- Hu. apply rstrip_idemp.
Qed.

Lemma py_strip_Ret v s :
  py_strip v = Ret s → py_strip (PStr s) = Ret s.
Proof.
  destruct v; simpl; intros [= <-]. by rewrite strip_idemp.
Qed.

(** ** Committed requests, in full *)

Lemma max_key_nonneg {A} (m : gmap Z A) : 0 ≤ max_key m.
Proof.
  unfold max_key.
  induction m as [|i x m Hi Hfold IH] using map_first_key_ind.
  - by rewrite map_fold_empty.
  - rewrite map_fold_insert_first_key by done. lia.
Qed.


Lemma create_product_body_inv data clk seen st r st' :
  create_product_body data clk seen st = Ret (r, st') →
  ∃ name sku cat price pp stock min,
    valid_fields data name sku price pp stock min ∧
    sku_exists sku seen = false ∧
    bind_key (py_get data "category_id") = Ret (Some cat) ∧
    is_Some (categories seen !! cat) ∧
    PrimFloat.is_nan price = false ∧ PrimFloat.is_nan pp = false ∧
    int64 stock = true ∧ int64 min = true ∧
    sku_exists sku st = false ∧
    let row :=
      {| p_name := name; p_sku := sku; p_category_id := cat;
         p_price := price; p_purchasing_price := pp;
         p_stock_quantity := stock; p_min_stock_level := min;
         p_created_at := clk 0%nat; p_updated_at := clk 0%nat |} in
    let st1 :=
      {| categories := categories st;
         products := <[next_product_id st := row]> (products st);
         sales := sales st;
         stock_logs := stock_logs st;
         seq_products := next_product_id st;
         seq_sales := seq_sales st;
         seq_stock_logs := seq_stock_logs st |} in
    st' = (if 0 <? stock
           then insert_stock_log (next_product_id st) stock "Initial stock"
                  (clk 1%nat) st1
           else st1) ∧
    r = (ProductCreated ("Product " +:+ dquote +:+ name +:+ dquote
                 +:+ " created successfully") (next_product_id st), 201).
Proof.
  unfold create_product_body, insert_product. intros H.
  apply bind_Ret in H as ([] & Hreq & H). peel_store.
  match goal with H : _ || _ = false |- _ =>
    apply orb_false_elim in H as [?%bool_decide_eq_false ?%bool_decide_eq_false]
  end.
  eexists _, _, _, _, _, _, _. split; [by split|]. split_and!; eauto.
Qed.

Lemma if_present_Ret {A} key data (branch : pyval → res A) o :
  if_present key data branch = Ret o →
  match o with
  | Some a => ∃ v, data !! key = Some v ∧ branch v = Ret a
  | None => data !! key = None
  end.
Proof.
  unfold if_present. destruct (data !! key) as [v|]; intros H; peel; subst; eauto.
Qed.

Lemma bind_opt_int_Ret o o' :
  bind_opt bind_int o = Ret o' → o' = o ∧ ∀ z, o = Some z → int64 z = true.
Proof.
  destruct o as [z|]; simpl; intros H; peel_store; split; try done.
  by intros ? [= <-].
Qed.

Lemma bind_opt_real_Ret o o' :
  bind_opt bind_real_not_null o = Ret o' →
  o' = o ∧ ∀ f, o = Some f → PrimFloat.is_nan f = false.
Proof.
  destruct o as [f|]; simpl; intros H; peel_store; split; try done.
  by intros ? [= <-].
Qed.

Lemma update_product_body_inv product_id data clk st r st' :
  update_product_body product_id data clk st = Ret (r, st') →
  ∃ row name sku cat price pp stock min,
    products st !! product_id = Some row ∧ int64 product_id = true ∧
    (∀ n, name = Some n → n ≠ "" ∧ py_strip (PStr n) = Ret n) ∧
    (∀ s, sku = Some s →
       s ≠ "" ∧ py_strip (PStr s) = Ret s ∧
       sku_taken_by_other s product_id st = false) ∧
    (∀ c, cat = Some c → is_Some (categories st !! c)) ∧
    (∀ f, price = Some f →
       PrimFloat.is_nan f = false ∧ PrimFloat.leb f 0%float = false) ∧
    (∀ f, pp = Some f →
       PrimFloat.is_nan f = false ∧ PrimFloat.ltb f 0%float = false) ∧
    (∀ n, stock = Some n →
       0 ≤ n ∧ int64 n = true ∧
       ∃ v, data !! "stock_quantity" = Some v ∧ py_int v = Ret n) ∧
    (stock = None → data !! "stock_quantity" = None) ∧
    (∀ m, min = Some m → 0 ≤ m ∧ int64 m = true) ∧
    let row' := set_fields name sku cat price pp stock min (clk 0%nat) row in
    let st1 := with_products (<[product_id := row']> (products st)) st in
    let stock_change := p_stock_quantity row' - p_stock_quantity row in
    st' = (if stock_change =? 0 then st1
           else insert_stock_log product_id stock_change
                  (if 0 <? stock_change then "Stock adjustment"
                   else "Stock reduction") (clk 1%nat) st1) ∧
    r = (ProductUpdated, 200).
Proof.
  unfold update_product_body. intros H.
  apply bind_Ret in H as (pid & Hpid & H).
  apply bind_int_Ret in Hpid as [-> Hpid].
  destruct (products st !! product_id) as [row|] eqn:Hrow; [|done].
  apply bind_Ret in H as (name & Hname%if_present_Ret & H).
  apply bind_Ret in H as (sku & Hsku%if_present_Ret & H).
  apply bind_Ret in H as (cat & Hcat%if_present_Ret & H).
  apply bind_Ret in H as (price & Hprice%if_present_Ret & H).
  apply bind_Ret in H as (pp & Hpp%if_present_Ret & H).
  apply bind_Ret in H as (stock & Hstock%if_present_Ret & H).
  apply bind_Ret in H as (min & Hmin%if_present_Ret & H).
  match type of H with (if ?b then _ else _) = _ => destruct b; [done|] end.
  apply bind_Ret in H as (stock' & [-> Hstock']%bind_opt_int_Ret & H).
  apply bind_Ret in H as (min' & [-> Hmin']%bind_opt_int_Ret & H).
  apply bind_Ret in H as (price' & [-> Hprice']%bind_opt_real_Ret & H).
  apply bind_Ret in H as (pp' & [-> Hpp']%bind_opt_real_Ret & H).
  exists row, name, sku, cat, price, pp, (fst <$> stock), min.
  split_and!; try done.
  - clear H. intros n ->. destruct Hname as (v & _ & Hv). peel; simplify_eq.
    match goal with H : bool_decide _ = false |- _ => apply bool_decide_eq_false in H end.
    eauto using py_strip_Ret.
  - clear H. intros s ->. destruct Hsku as (v & _ & Hv). peel; simplify_eq.
    match goal with H : bool_decide _ = false |- _ => apply bool_decide_eq_false in H end.
    eauto using py_strip_Ret.
  - clear H. intros c ->. destruct Hcat as (v & _ & Hv). peel_store. eauto.
  - clear H. intros f ->. destruct Hprice as (v & _ & Hv). peel; simplify_eq. eauto.
  - clear H. intros f ->. destruct Hpp as (v & _ & Hv). peel; simplify_eq. eauto.
  - clear H. intros n Hn. destruct stock as [[n' change]|]; simplify_eq/=.
    destruct Hstock as (v & Hdata & Hv). peel_store. eauto 10.
  - intros Hn. by destruct stock.
  - clear H. intros m ->. destruct Hmin as (v & _ & Hv). peel_store. eauto.
  - destruct stock as [[n change]|]; simpl in *.
    + destruct Hstock as (v & Hdata & Hv). peel_store.
      * match goal with H : _ - _ = 0 |- _ => by rewrite H end.
      * match goal with H : _ ≠ 0 |- _ => by apply Z.eqb_neq in H as -> end.
    + peel. by rewrite Z.sub_diag.
  - destruct stock as [[n change]|]; peel_store; done.
Qed.

Lemma add_sale_body_inv data clk st r st' :
  add_sale_body data clk st = Ret (r, st') →
  ∃ pid p q,
    bind_key (py_get data "product_id") = Ret (Some pid) ∧
    py_quantity (py_get data "quantity") = Ret q ∧
    products st !! pid = Some p ∧ 0 < q ∧ q ≤ p_stock_quantity p ∧
    let st1 := update_stock pid (p_stock_quantity p - q) (clk 0%nat) st in
    let total := PrimFloat.mul (p_price p) (float_of_Z q) in
    r = (SaleRecorded (next_sale_id st1)
           ("Sale recorded: " +:+ py_str_int (py_get data "quantity") +:+ " x "
            +:+ p_name p)
           total (p_stock_quantity p - q), 201) ∧
    st' = insert_stock_log pid (- q) ("Sale #" +:+ pretty (next_sale_id st1))
            (clk 2%nat) (insert_sale pid q total (clk 1%nat) st1).
Proof.
  unfold add_sale_body. intros H.
  apply bind_Ret in H as ([] & Hcheck & H).
  apply bind_Ret in H as ([pid|] & Hkey & H); [|done]. simpl in H.
  destruct (products st !! pid) as [p|] eqn:Hp; [|done].
  apply bind_Ret in H as (q & Hq & H).
  pose proof (check_quantity_Ret _ _ _ Hcheck Hq).
  exists pid, p, q. do 2 (split; [done|]). clear Hcheck Hq Hkey.
  peel_store. split_and!; done.
Qed.

Lemma restock_body_inv data clk st r st' :
  restock_body data clk st = Ret (r, st') →
  ∃ pid p q reason,
    bind_key (py_get data "product_id") = Ret (Some pid) ∧
    py_quantity (py_get data "quantity") = Ret q ∧
    bind_text_not_null (py_get_default data "reason" (PStr "Manual restock"))
      = Ret reason ∧
    products st !! pid = Some p ∧ 0 < q ∧
    r = (Restocked
           ("Restocked " +:+ py_str_int (py_get data "quantity") +:+ " units of "
            +:+ p_name p) (p_stock_quantity p + q), 200) ∧
    st' = insert_stock_log pid q reason (clk 1%nat)
            (update_stock pid (p_stock_quantity p + q) (clk 0%nat) st).
Proof.
  unfold restock_body. intros H.
  apply bind_Ret in H as ([] & Hcheck & H).
  apply bind_Ret in H as ([pid|] & Hkey & H); [|done]. simpl in H.
  destruct (products st !! pid) as [p|] eqn:Hp; [|done].
  apply bind_Ret in H as (q & Hq & H).
  pose proof (check_quantity_Ret _ _ _ Hcheck Hq).
  apply bind_Ret in H as (n & Hn & H).
  apply bind_Ret in H as (q' & Hq' & H).
  apply bind_Ret in H as (reason & Hreason & H).
  exists pid, p, q, reason. do 3 (split; [done|]). clear Hcheck Hq Hkey Hreason.
  peel_store. split_and!; done.
Qed.

(** A reply that is not an error is the reply of a committed request. *)
Lemma perform_success rq clk st r st' :
  perform rq clk st = Some (r, st') →
  (st' = st ∧ is_error r = true) ∨
  (is_error r = false ∧
   match rq with
   | CreateProduct data => create_product_body data clk st st
   | UpdateProduct product_id data => update_product_body product_id data clk st
   | RecordSale data => add_sale_body data clk st
   | Restock data => restock_body data clk st
   end = Ret (r, st')).
Proof.
  intros [H|H]%perform_Some; [by left|right]. split; [|done].
  destruct rq.
  - by apply create_product_body_inv in H as (?&?&?&?&?&?&?&_&_&_&_&_&_&_&_&_&_&->).
  - by apply update_product_body_inv in H as (?&?&?&?&?&?&?&?&_&_&_&_&_&_&_&_&_&_&_&->).
  - by apply add_sale_body_inv in H as (?&?&?&_&_&_&_&_&->&_).
  - by apply restock_body_inv in H as (?&?&?&?&_&_&_&_&_&->&_).
Qed.

Lemma sku_exists_false sku st pid p :
  sku_exists sku st = false → products st !! pid = Some p → p_sku p ≠ sku.
Proof.
  unfold sku_exists. intros H%bool_decide_eq_false Hp Hsku.
  apply H. by exists pid, p.
Qed.

Lemma sku_taken_by_other_false sku product_id st pid p :
  sku_taken_by_other sku product_id st = false →
  products st !! pid = Some p → p_sku p = sku → pid = product_id.
Proof.
  unfold sku_taken_by_other. intros H%bool_decide_eq_false Hp Hsku.
  destruct (decide (pid = product_id)); [done|].
  destruct H. by exists pid, p.
Qed.

Lemma commits_set_stock st st' pid p n now :
  products st !! pid = Some p →
  categories st' = categories st →
  products st' = products (update_stock pid n now st) →
  (sales st' = sales st ∧ seq_sales st' = seq_sales st ∧
     (stock_logs st' = stock_logs st ∧ seq_stock_logs st' = seq_stock_logs st
      ∨ ∃ change reason now,
          stock_logs st' = stock_logs st ++ [log_entry st pid change reason now] ∧
          seq_stock_logs st' = next_stock_log_id st)
   ∨ ∃ s l,
       sales st' = sales st ++ [s] ∧ s_id s = next_sale_id st ∧
       seq_sales st' = next_sale_id st ∧ 0 < s_quantity s ∧
       stock_logs st' = stock_logs st ++ [l] ∧ l_id l = next_stock_log_id st ∧
       seq_stock_logs st' = next_stock_log_id st ∧ sale_log s l) →
  commits st st' pid (set_stock n now p).
Proof.
  intros Hp Hcat Hps Hrows. unfold commits. rewrite Hp. simpl.
  split_and!; [done| |done| | |done].
  - rewrite Hps. simpl. by apply alter_Some.
  - intros Huniq pid' p' Hp' Hsku. by apply (Huniq pid' pid p' p).
  - by intros ? [= <-].
Qed.

(** Every request answers with an error and changes nothing, or commits. *)
Lemma perform_commits rq clk st r st' :
  perform rq clk st = Some (r, st') →
  (st' = st ∧ is_error r = true) ∨
  (is_error r = false ∧ ∃ pid row', commits st st' pid row').
Proof.
  intros [H|[Hr H]]%perform_success; [by left|right]. split; [done|]. clear Hr.
  destruct rq as [data|product_id data|data|data].
  - apply create_product_body_inv in H
      as (name & sku & cat & price & pp & stock & min & Hvalid & _ & _ & Hcat
          & _ & Hpp & _ & Hmin & Hfree & -> & _).
    eexists (next_product_id st), _. unfold commits.
    rewrite next_product_id_fresh. simpl.
    split_and!; try done.
    + by destruct (0 <? stock).
    + by destruct (0 <? stock).
    + intros _. destruct Hvalid. unfold row_ok. simpl.
      split_and!; eauto using py_strip_Ret.
    + intros _ pid' p' Hp' Hsku. by destruct (sku_exists_false _ _ _ _ Hfree Hp').
    + left. destruct (0 <? stock); simpl; [|by auto].
      split_and!; [done..|]. right. by eexists _, _, _.
  - apply update_product_body_inv in H
      as (row & name & sku & cat & price & pp & stock & min & Hrow & _ & Hname
          & Hsku & Hcat & _ & Hpp & _ & _ & Hmin & -> & _).
    eexists product_id, _. unfold commits. rewrite Hrow. simpl.
    split_and!.
    + by case_match.
    + by case_match.
    + intros (Hn1 & Hn2 & Hs1 & Hs2 & Hp1 & Hp2 & Hc & Hm). unfold row_ok. simpl.
      split_and!.
      * destruct name as [n|]; simpl; [by apply Hname|done].
      * destruct name as [n|]; simpl; [by apply Hname|done].
      * destruct sku as [s|]; simpl; [by apply Hsku|done].
      * destruct sku as [s|]; simpl; [by apply Hsku|done].
      * destruct pp as [f|]; simpl; [by apply Hpp|done].
      * destruct pp as [f|]; simpl; [by apply Hpp|done].
      * destruct cat as [c|]; simpl; [by apply Hcat|done].
      * destruct min as [m|]; simpl; [by apply Hmin|done].
    + intros Huniq pid' p' Hp' Hsku'. destruct sku as [s|]; simpl in *.
      * destruct (Hsku s eq_refl) as (_ & _ & Hother).
        by apply (sku_taken_by_other_false _ _ _ _ _ Hother Hp').
      * by apply (Huniq pid' product_id p' row).
    + by intros ? [= <-].
    + left. case_match; simpl; [by auto|].
      split_and!; [done..|]. right. by eexists _, _, _.
  - apply add_sale_body_inv in H as (pid & p & q & _ & _ & Hp & Hq & _ & _ & ->).
    eexists pid, _. apply commits_set_stock; [done..|].
    right. eexists _, _. simpl. split_and!; done.
  - apply restock_body_inv in H as (pid & p & q & reason & _ & _ & _ & Hp & _ & _ & ->).
    eexists pid, _. apply commits_set_stock; [done..|].
    left. simpl. split_and!; [done..|]. right. by eexists _, _, _.
Qed.

(** ** What holds of every reachable state *)

Lemma row_ok_categories st st' p :
  categories st' = categories st → row_ok st p → row_ok st' p.
Proof. unfold row_ok. by intros ->. Qed.

Lemma max_id_fmap {A} (id : A → Z) rows :
  max_id id rows = foldr Z.max 0 (id <$> rows).
Proof. unfold max_id. induction rows as [|r rows IH]; simpl; [done|by rewrite IH]. Qed.

Lemma foldr_max_snoc l x :
  0 ≤ x → foldr Z.max 0 (l ++ [x]) = Z.max (foldr Z.max 0 l) x.
Proof. intros Hx. induction l as [|y l IH]; simpl; [lia|rewrite IH; lia]. Qed.

Lemma foldr_max_seq n : foldr Z.max 0 (Z.of_nat <$> seq 1 n) = Z.of_nat n.
Proof.
  induction n as [|n IH]; [done|].
  rewrite seq_S, fmap_app. simpl. rewrite foldr_max_snoc, IH by lia. lia.
Qed.

(** AUTOINCREMENT on a table that only grew: the next rowid is the number of
    rows plus one. *)
Lemma ids_from_one_next {A} (id : A → Z) rows last :
  ids_from_one id rows last →
  Z.max last (max_id id rows) + 1 = Z.of_nat (S (length rows)).
Proof. intros [Hids ->]. rewrite max_id_fmap, Hids, foldr_max_seq. lia. Qed.

Lemma ids_from_one_snoc {A} (id : A → Z) rows last r :
  ids_from_one id rows last →
  id r = Z.max last (max_id id rows) + 1 →
  ids_from_one id (rows ++ [r]) (id r).
Proof.
  intros Hrows Hr. rewrite (ids_from_one_next _ _ _ Hrows) in Hr.
  destruct Hrows as [Hids _]. unfold ids_from_one.
  rewrite fmap_app, length_app, Hids, Hr. simpl.
  rewrite Nat.add_1_r, seq_S, fmap_app. simpl. split; [|done].
  do 3 f_equal. lia.
Qed.

Lemma init_db_categories : is_Some (categories init_db !! 1).
Proof. by eexists. Qed.

(** The invariants of the store besides those of the stock. *)
Lemma reachable_store st :
  reachable st →
  sku_unique st ∧ rows_wellformed st ∧ categories st = categories init_db ∧
  ids_from_one s_id (sales st) (seq_sales st) ∧
  ids_from_one l_id (stock_logs st) (seq_stock_logs st) ∧
  sales_logged st.
Proof.
  induction 1 as [|st rq clk r st' _ (IHsku & IHrows & IHcat & IHsales & IHlogs & IHlogged)
                    Hstep].
  - split_and!; [| |done|done|done|].
    + intros pid1 pid2 p1 p2 Hp1. simpl in Hp1. by rewrite lookup_empty in Hp1.
    + intros pid p Hp. simpl in Hp. by rewrite lookup_empty in Hp.
    + by intros s ?%elem_of_nil.
  - apply perform_commits in Hstep as [[-> _]|[_ (pid & row' & Hc)]]; [done|].
    destruct Hc as (Hcat & Hps & Hrow & Hsku & _ & Hrest).
    assert (Hrow' : row_ok st row').
    { apply Hrow. destruct (products st !! pid) as [p|] eqn:Hp; simpl; [|done].
      by eapply IHrows. }
    split_and!.
    + intros pid1 pid2 p1 p2. rewrite Hps, !lookup_insert.
      repeat case_decide; simplify_eq; try done.
      * intros [= <-] Hp2 Hs. symmetry. by eapply Hsku.
      * intros Hp1 [= <-] Hs. by eapply Hsku.
      * apply IHsku.
    + intros pid' p'. rewrite Hps, lookup_insert.
      case_decide; simplify_eq.
      * intros [= <-]. by eapply row_ok_categories.
      * intros Hp'. eapply row_ok_categories; [done|]. by eapply IHrows.
    + by rewrite Hcat.
    + destruct Hrest as [(-> & -> & _)|(s & l & -> & Hs & -> & _)]; [done|].
      rewrite <- Hs. by apply (ids_from_one_snoc _ _ (seq_sales st)).
    + destruct Hrest as [(_ & _ & [[-> ->]|(change & reason & now & -> & ->)])
                        |(s & l & _ & _ & _ & _ & -> & Hl & -> & _)]; [done| |].
      * by apply (ids_from_one_snoc l_id _ (seq_stock_logs st)
                    (log_entry st pid change reason now)).
      * rewrite <- Hl. by apply (ids_from_one_snoc _ _ (seq_stock_logs st)).
    + intros s0.
      destruct Hrest as [(-> & _ & Hlogs)|(s & l & -> & _ & _ & Hq & -> & _ & _ & Hsl)].
      * intros [Hq (l & Hl & Hsl)]%IHlogged. split; [done|]. exists l. split; [|done].
        destruct Hlogs as [[-> _]|(change & reason & now & -> & _)]; [done|].
        apply elem_of_app. by left.
      * intros [[Hq0 (l0 & Hl0 & Hsl0)]%IHlogged| ->%list_elem_of_singleton]%elem_of_app.
        -- split; [done|]. exists l0. split; [|done]. apply elem_of_app. by left.
        -- split; [done|]. exists l. split; [|done]. apply elem_of_app. right.
           by apply list_elem_of_singleton.
Qed.


(** ** The order of texts *)

Lemma ascii_compare_Eq c d : Ascii.compare c d = Eq ↔ c = d.
Proof.
  split; [apply Ascii.compare_eq_iff|]. intros ->.
  unfold Ascii.compare. apply N.compare_refl.
Qed.

Lemma string_compare_trans s1 s2 s3 :
  String.compare s1 s2 = Lt → String.compare s2 s3 = Lt → String.compare s1 s3 = Lt.
Proof.
  revert s2 s3. induction s1 as [|c1 s1 IH]; intros [|c2 s2] [|c3 s3]; simpl;
    try congruence.
  unfold Ascii.compare.
  destruct (N.compare_spec (N_of_ascii c1) (N_of_ascii c2)) as [E12|L12|G12];
    [|intros _|done];
    (destruct (N.compare_spec (N_of_ascii c2) (N_of_ascii c3)) as [E23|L23|G23];
     [|intros _|done]).
  - rewrite E12, E23, N.compare_refl. apply IH.
  - intros _. rewrite E12. by rewrite (proj2 (N.compare_lt_iff _ _) L23).
  - intros _. rewrite <- E23. by rewrite (proj2 (N.compare_lt_iff _ _) L12).
  - assert (L13 : (N_of_ascii c1 < N_of_ascii c3)%N) by lia.
    by rewrite (proj2 (N.compare_lt_iff _ _) L13).
Qed.

Lemma string_leb_trans s1 s2 s3 :
  String.leb s1 s2 = true → String.leb s2 s3 = true → String.leb s1 s3 = true.
Proof.
  unfold String.leb.
  destruct (String.compare s1 s2) eqn:E12; [|
    destruct (String.compare s2 s3) eqn:E23|done].
  - apply String.compare_eq_iff in E12 as ->. done.
  - apply String.compare_eq_iff in E23 as ->. by rewrite E12.
  - by rewrite (string_compare_trans _ _ _ E12 E23).
  - done.
Qed.

#[local] Instance name_le_trans {A} (key : A → string) : Transitive (name_le key).
Proof. intros a b c. apply string_leb_trans. Qed.

Lemma insert_asc_perm {A} (key : A → string) a l : insert_asc key a l ≡ₚ a :: l.
Proof.
  induction l as [|b l IH]; simpl; [done|].
  case_match; [done|]. by rewrite IH, Permutation_swap.
Qed.

Lemma sort_asc_perm A (key : A → string) l : sort_asc A key l ≡ₚ l.
Proof.
  induction l as [|a l IH]; simpl; [done|].
  by rewrite insert_asc_perm, IH.
Qed.

Lemma insert_asc_sorted {A} (key : A → string) a l :
  Sorted (name_le key) l → Sorted (name_le key) (insert_asc key a l).
Proof.
  induction 1 as [|b l Hl IH Hhd]; simpl.
  - by repeat constructor.
  - destruct (String.leb (key a) (key b)) eqn:E.
    + by repeat constructor.
    + constructor; [done|].
      assert (name_le key b a).
      { unfold name_le. destruct (String.leb_total (key a) (key b)); congruence. }
      destruct Hhd as [|b' l' Hb']; simpl; [by constructor|].
      case_match; by constructor.
Qed.

Lemma sort_asc_sorted A (key : A → string) l : Sorted (name_le key) (sort_asc A key l).
Proof.
  induction l as [|a l IH]; simpl; [constructor | by apply insert_asc_sorted].
Qed.

(** Two sorted arrangements of rows with distinct keys are the same list. *)
Lemma sorted_by_distinct_names {A} (key : A → string) l l1 l2 :
  (∀ a b, a ∈ l → b ∈ l → key a = key b → a = b) →
  l1 ≡ₚ l → l2 ≡ₚ l → Sorted (name_le key) l1 → Sorted (name_le key) l2 →
  l1 = l2.
Proof.
  intros Hkey H1 H2 Hs1 Hs2.
  apply (Sorted_unique_strong (name_le key)); [|done|done|by rewrite H1, H2].
  intros a b Ha Hb Hab Hba. apply Hkey.
  - by rewrite <- H1.
  - by rewrite <- H2.
  - by apply String.leb_antisym.
Qed.


(** ** The join of products and categories *)

Lemma elem_of_products_with_categories st r :
  r ∈ products_with_categories st ↔
  ∃ pid p category_name,
    products st !! pid = Some p ∧
    categories st !! p_category_id p = Some category_name ∧
    r = {| lp_row := product_columns pid p category_name;
           lp_created_at := p_created_at p; lp_updated_at := p_updated_at p |}.
Proof.
  unfold products_with_categories, join_category. rewrite list_elem_of_omap. split.
  - intros ([pid p] & Hp%elem_of_map_to_list & Hr). simpl in Hr.
    destruct (categories st !! p_category_id p) as [c|] eqn:Hc; simplify_eq/=.
    by exists pid, p, c.
  - intros (pid & p & c & Hp & Hc & ->). exists (pid, p).
    split; [by apply elem_of_map_to_list|]. simpl. by rewrite Hc.
Qed.

Lemma length_filter_omap {A B} (f : A → option B) (P : A → Prop) (Q : B → Prop)
    `{∀ x, Decision (P x)} `{∀ y, Decision (Q y)} l :
  (∀ x, x ∈ l → ∃ y, f x = Some y ∧ (Q y ↔ P x)) →
  length (filter Q (omap f l)) = length (filter P l).
Proof.
  induction l as [|x l IH]; intros Hl; [done|]. simpl.
  destruct (Hl x) as (y & -> & Hy); [left|].
  assert (IH' : length (filter Q (omap f l)) = length (filter P l)).
  { apply IH. intros x' Hx'. apply Hl. by right. }
  rewrite !filter_cons.
  destruct (decide (Q y)), (decide (P x)); simpl; try tauto;
    try f_equal; exact IH'.
Qed.

Lemma map_filter_size {A} (P : Z * A → Prop) `{∀ x, Decision (P x)} (m : gmap Z A) :
  size (filter P m) = length (filter P (map_to_list m)).
Proof.
  rewrite map_filter_alt, map_size_list_to_map; [done|].
  apply NoDup_fmap_fst.
  - intros k y1 y2 [_ H1%elem_of_map_to_list]%list_elem_of_filter
      [_ H2%elem_of_map_to_list]%list_elem_of_filter. congruence.
  - apply NoDup_filter, NoDup_map_to_list.
Qed.

Lemma join_category_Some st pid p :
  rows_wellformed st → products st !! pid = Some p →
  ∃ category_name,
    categories st !! p_category_id p = Some category_name ∧
    join_category st (pid, p)
    = Some {| lp_row := product_columns pid p category_name;
              lp_created_at := p_created_at p; lp_updated_at := p_updated_at p |}.
Proof.
  intros Hst Hp. destruct (Hst _ _ Hp) as (_ & _ & _ & _ & _ & _ & [c Hc] & _).
  exists c. split; [done|]. unfold join_category. simpl. by rewrite Hc.
Qed.

(** In a reachable state the join loses no product. *)
Lemma length_products_with_categories st (Q : listed_product → Prop)
    (P : Z * product → Prop) `{∀ x, Decision (P x)} `{∀ y, Decision (Q y)} :
  rows_wellformed st →
  (∀ pid p category_name,
     Q {| lp_row := product_columns pid p category_name;
          lp_created_at := p_created_at p; lp_updated_at := p_updated_at p |}
     ↔ P (pid, p)) →
  length (filter Q (products_with_categories st))
  = size (filter P (products st)).
Proof.
  intros Hst HQ. rewrite map_filter_size. apply length_filter_omap.
  intros [pid p] Hp%elem_of_map_to_list.
  destruct (join_category_Some _ _ _ Hst Hp) as (c & _ & ->). eauto.
Qed.

Lemma length_products_joined st :
  rows_wellformed st → length (products_with_categories st) = size (products st).
Proof.
  intros Hst. unfold products_with_categories.
  rewrite <- length_map_to_list.
  assert (Hl : ∀ x, x ∈ map_to_list (products st) → is_Some (join_category st x)).
  { intros [pid p] Hp%elem_of_map_to_list.
    destruct (join_category_Some _ _ _ Hst Hp) as (c & _ & ->). by eexists. }
  induction (map_to_list (products st)) as [|x l IH]; [done|]. simpl.
  destruct (Hl x) as [y ->]; [left|]. simpl. f_equal. apply IH.
  intros x' Hx'. apply Hl. by right.
Qed.

Lemma length_filter_fmap {A B} (f : A → B) (Q : B → Prop) `{∀ y, Decision (Q y)} l :
  length (filter Q (f <$> l)) = length (filter (λ x, Q (f x)) l).
Proof.
  induction l as [|x l IH]; [done|]. rewrite fmap_cons, !filter_cons.
  case_decide; simpl; by rewrite IH.
Qed.

(** Counting the rows of a list in two disjoint classes. *)
Lemma length_filter_split {A} (P P1 P2 : A → Prop)
    `{∀ x, Decision (P x)} `{∀ x, Decision (P1 x)} `{∀ x, Decision (P2 x)} l :
  (∀ x, P x ↔ P1 x ∨ P2 x) → (∀ x, P1 x → P2 x → False) →
  length (filter P l) = (length (filter P1 l) + length (filter P2 l))%nat.
Proof.
  intros Hor Hdisj. induction l as [|x l IH]; [done|]. rewrite !filter_cons.
  specialize (Hor x). specialize (Hdisj x).
  destruct (decide (P x)), (decide (P1 x)), (decide (P2 x)); simpl; rewrite IH;
    tauto || lia.
Qed.

(** The report shows a row as "Low Stock" or "Out of Stock" when its stock
    is at or below the threshold, or is zero above a negative threshold. *)
Lemma stock_status_not_in_stock s m :
  stock_status s m ≠ "In Stock" ↔ s ≤ m ∨ (s = 0 ∧ m < 0).
Proof.
  unfold stock_status.
  destruct (Z.eqb_spec s 0), (Z.leb_spec s m); split; try done; lia.
Qed.


(** ** [LIKE] with a plain text between two ['%'] *)

Lemma like_any pattern s :
  like (String "%" pattern) s
  = like pattern s ||
    match s with
    | String _ s' => like (String "%" pattern) s'
    | EmptyString => false
    end.
Proof. by destruct s. Qed.

Lemma like_percent s : like "%" s = true.
Proof.
  induction s as [|c s IH]; [done|]. rewrite like_any. simpl like at 1.
  by rewrite IH.
Qed.

Lemma like_plain_prefix t s :
  plain_text t = true → like (t +:+ "%") s = starts_nocase t s.
Proof.
  revert s. induction t as [|c t IH]; intros s Ht.
  - apply like_percent.
  - simpl in Ht. apply andb_prop in Ht as [[[Hp Hu]%andb_prop _]%andb_prop Ht].
    apply negb_true_iff in Hp, Hu.
    change (String c t +:+ "%") with (String c (t +:+ "%")).
    simpl. rewrite Hp, Hu. destruct s as [|d s]; [done|]. simpl. by rewrite IH.
Qed.

(** The pattern of a search for a plain text finds the texts in which it
    occurs. *)
Lemma like_plain_occurs t s :
  plain_text t = true → like ("%" +:+ t +:+ "%") s = occurs_nocase t s.
Proof.
  intros Ht. change ("%" +:+ t +:+ "%") with (String "%" (t +:+ "%")).
  induction s as [|d s IH]; rewrite like_any, like_plain_prefix by done.
  - done.
  - simpl occurs_nocase. by rewrite IH.
Qed.

Lemma c_str_plain t : plain_text t = true → c_str (t +:+ "%") = t +:+ "%".
Proof.
  induction t as [|c t IH]; [done|]. simpl. intros Ht.
  apply andb_prop in Ht as [[_ Hz%negb_true_iff]%andb_prop Ht].
  by rewrite Hz, IH.
Qed.

Lemma sql_like_plain t s :
  plain_text t = true →
  sql_like ("%" +:+ t +:+ "%") s = occurs_nocase t (c_str s).
Proof.
  intros Ht. unfold sql_like.
  change ("%" +:+ t +:+ "%") with (String "%" (t +:+ "%")).
  change (c_str (String "%" (t +:+ "%"))) with (String "%" (c_str (t +:+ "%"))).
  rewrite c_str_plain by done. by apply like_plain_occurs.
Qed.

(** A ['%'] in the search is read as a wild card. *)
Lemma sql_like_percent s : sql_like "%%%" s = true.
Proof.
  unfold sql_like. change (c_str "%%%") with "%%%".
  induction (c_str s) as [|c t IH]; [done|].
  rewrite like_any. by rewrite IH, orb_true_r.
Qed.


(** ** Reading the catalogue *)

Section CatalogueProperties.

Variable order_by : ∀ A : Type, (A → string) → list A → list A.
Hypothesis order_by_perm : ∀ A key l, order_by A key l ≡ₚ l.
Hypothesis order_by_sorted : ∀ A key l, Sorted (name_le key) (order_by A key l).

(** X16: a request for a product of the store is answered with its row and
    the name of its category; a request for an id that no product has, with
    "Product not found" (404); an id that SQLite cannot hold, with an
    internal error (500). *)
Theorem get_product_reachable st product_id :
  reachable st → 0 ≤ product_id →
  (2 ^ 63 ≤ product_id →
   get_product product_id st
   = Some (inr (ErrorStr "Failed to fetch product: " OverflowError, 500))) ∧
  (product_id < 2 ^ 63 →
   match products st !! product_id with
   | Some p =>
       ∃ category_name,
         categories st !! p_category_id p = Some category_name ∧
         get_product product_id st
         = Some (inl (product_columns product_id p category_name))
   | None =>
       get_product product_id st
       = Some (inr (format_error "Product not found" 404))
   end).
Proof.
  intros (_ & Hrows & _)%reachable_store Hpos.
  unfold get_product, get_product_body. split; intros Hid.
  - unfold bind_int, int64.
    destruct (Z.ltb_spec product_id (2 ^ 63)); [lia|]. by rewrite andb_false_r.
  - run_bind_int product_id.
    destruct (products st !! product_id) as [p|] eqn:Hp; [|done].
    destruct (Hrows _ _ Hp) as (_ & _ & _ & _ & _ & _ & [c Hc] & _).
    exists c. by rewrite Hc.
Qed.

(** X17: a product that was created can be fetched under the id of the reply:
    the row holds the fields of the request as they were converted, and the
    name of the category. *)
Theorem create_product_then_get data clk st message product_id st' :
  create_product data clk st = Some ((ProductCreated message product_id, 201), st') →
  product_id < 2 ^ 63 →
  ∃ row,
    get_product product_id st' = Some (inl row) ∧
    pr_id row = product_id ∧
    py_strip (py_get data "name") = Ret (pr_name row) ∧
    py_strip (py_get data "sku") = Ret (pr_sku row) ∧
    bind_key (py_get data "category_id") = Ret (Some (pr_category_id row)) ∧
    categories st !! pr_category_id row = Some (pr_category_name row) ∧
    py_float (py_get data "price") = Ret (pr_price row) ∧
    py_float (py_get_default data "purchasing_price" (PInt 0))
      = Ret (pr_purchasing_price row) ∧
    py_int (py_get_default data "stock_quantity" (PInt 0))
      = Ret (pr_stock_quantity row) ∧
    py_int (py_get_default data "min_stock_level" (PInt 5))
      = Ret (pr_min_stock_level row).
Proof.
  intros [H|[_ H]]%create_product_racing_Some Hid; [|done].
  apply create_product_body_inv in H
    as (name & sku & cat & price & pp & stock & min & Hvalid & _ & Hkey & [c Hc]
        & _ & _ & _ & _ & _ & -> & [= -> ->]).
  destruct Hvalid.
  assert (0 < next_product_id st).
  { pose proof (max_key_nonneg (products st)). unfold next_product_id. lia. }
  eexists. split.
  - unfold get_product, get_product_body. run_bind_int (next_product_id st).
    destruct (0 <? stock); simpl; rewrite lookup_insert_eq; simpl; by rewrite Hc.
  - simpl. split_and!; done.
Qed.

(** The run of [get_products] when the pattern is within SQLite's limit. *)
Lemma get_products_run args st :
  let search := rstrip (lstrip (default "" (args !! "search"))) in
  let low_stock_only :=
    bool_decide (py_lower (default "false" (args !! "low_stock_only")) = "true") in
  search = "" ∨ utf8_length ("%" +:+ search +:+ "%") ≤ max_like_pattern_length →
  get_products order_by args st
  = Some (inl (order_by _ (λ r, pr_name (lp_row r))
       (let rows := products_with_categories st in
        let rows :=
          if bool_decide (search = "") then rows
          else filter (λ r, matches_search search r = true) rows in
        if low_stock_only then filter (λ r, is_low_stock r = true) rows
        else rows))).
Proof.
  intros search low_stock_only Hlen. unfold get_products, get_products_body.
  fold search.
  destruct Hlen as [->|Hlen]; [done|].
  destruct (Z.ltb_spec max_like_pattern_length (utf8_length ("%" +:+ search +:+ "%")));
    [lia|]. by rewrite andb_false_r.
Qed.

(** X18: without a search text and without the low-stock flag (which only
    the text "true", in any case of its letters, sets), the list holds every
    product of the store once, with the name of its category, in ascending
    order of the product names. *)
Theorem get_products_lists_all args st :
  reachable st →
  rstrip (lstrip (default "" (args !! "search"))) = "" →
  py_lower (default "false" (args !! "low_stock_only")) ≠ "true" →
  ∃ rows,
    get_products order_by args st = Some (inl rows) ∧
    Sorted (name_le (λ r, pr_name (lp_row r))) rows ∧
    length rows = size (products st) ∧
    ∀ pid p, products st !! pid = Some p →
      ∃ category_name,
        categories st !! p_category_id p = Some category_name ∧
        {| lp_row := product_columns pid p category_name;
           lp_created_at := p_created_at p;
           lp_updated_at := p_updated_at p |} ∈ rows.
Proof.
  intros (_ & Hrows & _)%reachable_store Hsearch Hflag.
  eexists. split; [apply get_products_run; by left|].
  rewrite Hsearch, (bool_decide_eq_false_2 _ Hflag). simpl.
  split_and!.
  - apply order_by_sorted.
  - by rewrite order_by_perm, length_products_joined.
  - intros pid p Hp.
    destruct (Hrows _ _ Hp) as (_ & _ & _ & _ & _ & _ & [c Hc] & _).
    exists c. split; [done|]. rewrite order_by_perm.
    apply elem_of_products_with_categories. by exists pid, p, c.
Qed.

(** X19: with the low-stock flag set and no search text, the list holds
    exactly the products whose stock is at or below their threshold, and as
    many rows as the dashboard counts. *)
Theorem get_products_low_stock args st flag :
  reachable st →
  rstrip (lstrip (default "" (args !! "search"))) = "" →
  args !! "low_stock_only" = Some flag → py_lower flag = "true" →
  ∃ rows,
    get_products order_by args st = Some (inl rows) ∧
    Z.of_nat (length rows) = low_stock_count st ∧
    ∀ r, r ∈ rows ↔
      ∃ pid p category_name,
        products st !! pid = Some p ∧
        categories st !! p_category_id p = Some category_name ∧
        p_stock_quantity p ≤ p_min_stock_level p ∧
        r = {| lp_row := product_columns pid p category_name;
               lp_created_at := p_created_at p;
               lp_updated_at := p_updated_at p |}.
Proof.
  intros (_ & Hrows & _)%reachable_store Hsearch Hflag Hlow.
  eexists. split; [apply get_products_run; by left|].
  rewrite Hsearch, Hflag. simpl. rewrite Hlow. simpl.
  split.
  - rewrite order_by_perm. unfold low_stock_count. f_equal.
    apply length_products_with_categories; [done|].
    intros pid p c. unfold is_low_stock. simpl. apply Z.leb_le.
  - intros r. rewrite order_by_perm, list_elem_of_filter,
      elem_of_products_with_categories.
    unfold is_low_stock. rewrite Z.leb_le. split.
    + intros (Hle & pid & p & c & Hp & Hc & ->). by exists pid, p, c.
    + intros (pid & p & c & Hp & Hc & Hle & ->). split; [done|]. by exists pid, p, c.
Qed.

(** X20: a search for a plain text (no ['%'], ['_'] or NUL in it) lists
    exactly the products in whose name or sku the text occurs, up to the case
    of ASCII letters; the name and the sku are read up to their first NUL.
    White space around the text is dropped. *)
Theorem get_products_search args st search :
  rstrip (lstrip (default "" (args !! "search"))) = search →
  search ≠ "" → plain_text search = true →
  utf8_length search + 2 ≤ max_like_pattern_length →
  py_lower (default "false" (args !! "low_stock_only")) ≠ "true" →
  ∃ rows,
    get_products order_by args st = Some (inl rows) ∧
    Sorted (name_le (λ r, pr_name (lp_row r))) rows ∧
    ∀ r, r ∈ rows ↔
      ∃ pid p category_name,
        products st !! pid = Some p ∧
        categories st !! p_category_id p = Some category_name ∧
        (occurs_nocase search (c_str (p_name p)) = true
         ∨ occurs_nocase search (c_str (p_sku p)) = true) ∧
        r = {| lp_row := product_columns pid p category_name;
               lp_created_at := p_created_at p;
               lp_updated_at := p_updated_at p |}.
Proof.
  intros Hsearch Hne Hplain Hlen Hflag.
  assert (Hutf : ∀ t, utf8_length (t +:+ "%") = utf8_length t + 1).
  { induction t as [|c t IH]; [done|]. simpl. rewrite IH. lia. }
  eexists. split.
  { apply get_products_run. right. rewrite Hsearch.
    change ("%" +:+ search +:+ "%") with (String "%" (search +:+ "%")).
    simpl. rewrite Hutf. lia. }
  rewrite Hsearch, (bool_decide_eq_false_2 _ Hflag), (bool_decide_eq_false_2 _ Hne).
  simpl. split; [apply order_by_sorted|].
  intros r. rewrite order_by_perm, list_elem_of_filter,
    elem_of_products_with_categories.
  unfold matches_search. rewrite orb_true_iff, !sql_like_plain by done. split.
  - intros (Hocc & pid & p & c & Hp & Hc & ->). by exists pid, p, c.
  - intros (pid & p & c & Hp & Hc & Hocc & ->). split; [done|]. by exists pid, p, c.
Qed.

(** X21: a ['%'] in the search is not looked for in the names: it is the
    wild card of [LIKE], and a search for it lists every product. *)
Theorem get_products_search_percent args st :
  reachable st →
  rstrip (lstrip (default "" (args !! "search"))) = "%" →
  py_lower (default "false" (args !! "low_stock_only")) ≠ "true" →
  ∃ rows,
    get_products order_by args st = Some (inl rows) ∧
    length rows = size (products st) ∧
    rows ≡ₚ products_with_categories st.
Proof.
  intros (_ & Hrows & _)%reachable_store Hsearch Hflag.
  eexists. split.
  { apply get_products_run. right. rewrite Hsearch. by vm_compute. }
  rewrite Hsearch, (bool_decide_eq_false_2 _ Hflag). simpl.
  assert (Hall : filter (λ r, matches_search "%" r = true) (products_with_categories st)
                 = products_with_categories st).
  { induction (products_with_categories st) as [|r l IH]; [done|].
    rewrite filter_cons, IH. unfold matches_search.
    change ("%" +:+ "%" +:+ "%") with "%%%". by rewrite sql_like_percent. }
  rewrite Hall. split; [|apply order_by_perm].
  by rewrite order_by_perm, length_products_joined.
Qed.

(** X22: no request adds, renames or removes a category: in every reachable
    state the list of categories is the eight of [init_db], in ascending
    order of their names. *)
Theorem get_categories_reachable st :
  reachable st →
  categories st = categories init_db ∧
  get_categories order_by st
  = [(4, "Books"); (2, "Clothing"); (1, "Electronics"); (3, "Food & Beverages");
     (8, "Health & Beauty"); (5, "Home & Garden"); (6, "Sports & Outdoors");
     (7, "Toys & Games")].
Proof.
  intros (_ & _ & Hcat & _)%reachable_store. split; [done|].
  unfold get_categories. rewrite Hcat.
  set (l := map_to_list (categories init_db)).
  assert (Hsort : sort_asc _ snd l
                  = [(4, "Books"); (2, "Clothing"); (1, "Electronics");
                     (3, "Food & Beverages"); (8, "Health & Beauty");
                     (5, "Home & Garden"); (6, "Sports & Outdoors");
                     (7, "Toys & Games")]) by (vm_compute; reflexivity).
  rewrite <- Hsort.
  apply (sorted_by_distinct_names snd l);
    [|apply order_by_perm|apply sort_asc_perm|apply order_by_sorted
     |apply sort_asc_sorted].
  assert (Hdistinct : Forall (λ a, Forall (λ b, a.2 = b.2 → a = b) l) l)
    by (vm_compute; repeat constructor; congruence).
  intros a b Ha Hb. rewrite Forall_forall in Hdistinct.
  specialize (Hdistinct a Ha). rewrite Forall_forall in Hdistinct. by apply Hdistinct.
Qed.

Variable format_2f : float → string.

(** X23: the table of the report has the header and one row for every
    product of the store; the coloured cells are those of the data rows, the
    header is not coloured.  Every product that the dashboard counts as low
    in stock is reported as "Low Stock" or "Out of Stock"; the report shows
    more such rows than the dashboard counts exactly by the products out of
    stock whose threshold is negative. *)
Theorem export_pdf_rows st :
  reachable st →
  length (table_data order_by format_2f st) = S (size (products st)) ∧
  (status_colours order_by st).*1 = seq 1 (size (products st)) ∧
  Z.of_nat (length (filter (λ r, rr_status r ≠ "In Stock")
                      (report_rows order_by st)))
  = low_stock_count st
    + Z.of_nat (length (filter (λ r, rr_stock_quantity r = 0 ∧
                                       rr_min_stock_level r < 0)
                          (report_rows order_by st))).
Proof.
  intros (_ & Hrows & _)%reachable_store.
  assert (Hlen : length (report_rows order_by st) = size (products st)).
  { unfold report_rows.
    by rewrite order_by_perm, length_fmap, length_products_joined. }
  split_and!.
  - unfold table_data. simpl. by rewrite length_fmap, Hlen.
  - unfold status_colours. rewrite fmap_imap.
    rewrite (imap_seq_0 _ (λ j, S j)), Hlen.
    by rewrite <- fmap_S_seq.
  - unfold report_rows, low_stock_count. rewrite !order_by_perm, !length_filter_fmap.
    rewrite <- (length_products_with_categories st (λ r, is_low_stock r = true)
                  (λ kp : Z * product, p_stock_quantity kp.2 ≤ p_min_stock_level kp.2))
      by (try done; intros; unfold is_low_stock; simpl; apply Z.leb_le).
    rewrite <- Nat2Z.inj_add. f_equal.
    apply length_filter_split; intros r; unfold is_low_stock; simpl.
    + by rewrite stock_status_not_in_stock, Z.leb_le.
    + rewrite Z.leb_le. lia.
Qed.

End CatalogueProperties.


(** ** Starting the server again *)

Lemma insert_or_ignore_category_taken st name :
  map_Exists (λ _ n, n = name) (categories st) →
  insert_or_ignore_category st name = st.
Proof. intros H. unfold insert_or_ignore_category. by rewrite bool_decide_eq_true_2. Qed.

Lemma insert_or_ignore_category_keeps st name k n :
  categories st !! k = Some n →
  categories (insert_or_ignore_category st name) !! k = Some n.
Proof.
  intros Hk. unfold insert_or_ignore_category. case_bool_decide; [done|]. simpl.
  rewrite lookup_insert_ne; [done|].
  apply max_key_ge in Hk. lia.
Qed.

Lemma insert_or_ignore_category_has st name :
  map_Exists (λ _ n, n = name) (categories (insert_or_ignore_category st name)).
Proof.
  unfold insert_or_ignore_category. case_bool_decide as H; [done|]. simpl.
  eexists _, _. split; [apply lookup_insert_eq|done].
Qed.

Lemma run_init_db_keeps names st k n :
  categories st !! k = Some n →
  categories (foldl insert_or_ignore_category st names) !! k = Some n.
Proof.
  revert st. induction names as [|name names IH]; intros st Hk; [done|].
  simpl. by apply IH, insert_or_ignore_category_keeps.
Qed.

Lemma run_init_db_has names st name :
  name ∈ names →
  map_Exists (λ _ n, n = name) (categories (foldl insert_or_ignore_category st names)).
Proof.
  revert st. induction names as [|name' names IH]; intros st; [by intros ?%elem_of_nil|].
  intros [<-|Hin]%elem_of_cons; simpl; [|by apply IH].
  destruct (insert_or_ignore_category_has st name) as (k & n & Hk & Hn).
  exists k, n. split; [|done]. by apply run_init_db_keeps.
Qed.

Lemma run_init_db_taken names st :
  (∀ name, name ∈ names → map_Exists (λ _ n, n = name) (categories st)) →
  foldl insert_or_ignore_category st names = st.
Proof.
  induction names as [|name names IH]; intros Hst; [done|]. simpl.
  rewrite insert_or_ignore_category_taken by (apply Hst; left).
  apply IH. intros name' Hin. apply Hst. by right.
Qed.

Lemma run_init_db_rows names st :
  let st' := foldl insert_or_ignore_category st names in
  products st' = products st ∧ sales st' = sales st ∧
  stock_logs st' = stock_logs st ∧ seq_products st' = seq_products st ∧
  seq_sales st' = seq_sales st ∧ seq_stock_logs st' = seq_stock_logs st.
Proof.
  revert st. induction names as [|name names IH]; intros st; [done|]. simpl.
  destruct (IH (insert_or_ignore_category st name)) as (-> & -> & -> & -> & -> & ->).
  unfold insert_or_ignore_category. by case_bool_decide.
Qed.

(** X24: [init_db] run on the empty database file gives the fresh database;
    run on any database it keeps every row of the four tables (categories
    included), makes the eight sample categories present, and a second run
    changes nothing more. *)
Theorem run_init_db_idempotent st :
  run_init_db no_rows = init_db ∧
  run_init_db (run_init_db st) = run_init_db st ∧
  products (run_init_db st) = products st ∧
  sales (run_init_db st) = sales st ∧
  stock_logs (run_init_db st) = stock_logs st ∧
  (∀ k n, categories st !! k = Some n → categories (run_init_db st) !! k = Some n) ∧
  (∀ name, name ∈ sample_categories →
     ∃ k, categories (run_init_db st) !! k = Some name).
Proof.
  unfold run_init_db.
  destruct (run_init_db_rows sample_categories st) as (Hp & Hs & Hl & _).
  split_and!; [vm_compute; reflexivity| |done..| |].
  - apply run_init_db_taken. intros name Hin. by apply run_init_db_has.
  - intros k n. apply run_init_db_keeps.
  - intros name Hin.
    destruct (run_init_db_has sample_categories st name Hin) as (k & n & Hk & ->).
    by exists k.
Qed.

(** X25: a start of the server on a store that requests have built changes
    nothing. *)
Theorem run_init_db_reachable st : reachable st → run_init_db st = st.
Proof.
  intros (_ & _ & Hcat & _)%reachable_store.
  apply run_init_db_taken. intros name Hin. rewrite Hcat.
  assert (Hall : Forall (λ name, map_Exists (λ _ n, n = name) (categories init_db))
                   sample_categories).
  { repeat constructor.
    - by exists 1, "Electronics".
    - by exists 2, "Clothing".
    - by exists 3, "Food & Beverages".
    - by exists 4, "Books".
    - by exists 5, "Home & Garden".
    - by exists 6, "Sports & Outdoors".
    - by exists 7, "Toys & Games".
    - by exists 8, "Health & Beauty". }
  rewrite Forall_forall in Hall. by apply Hall.
Qed.


(** ** The rows of a reachable store *)

(** X12: no two products of a reachable store have the same sku. *)
Theorem reachable_sku_unique st pid1 pid2 p1 p2 :
  reachable st →
  products st !! pid1 = Some p1 → products st !! pid2 = Some p2 →
  pid1 ≠ pid2 → p_sku p1 ≠ p_sku p2.
Proof.
  intros (Hsku & _)%reachable_store Hp1 Hp2 Hne Heq.
  by apply Hne, (Hsku pid1 pid2 p1 p2).
Qed.

Lemma float_nonneg f :
  PrimFloat.is_nan f = false → PrimFloat.ltb f 0%float = false →
  PrimFloat.leb 0%float f = true.
Proof.
  intros Hnan%is_nan_false Hlt.
  rewrite FloatAxioms.ltb_spec in Hlt. rewrite FloatAxioms.leb_spec.
  change (Prim2SF 0) with (S754_zero false) in *.
  by destruct (Prim2SF f) as [[]|[]| |[] m e].
Qed.

(** X13: every product of a reachable store has a name and a sku that are not
    empty and carry no white space at either end (stripping them changes
    nothing), a purchasing price that is zero or more, and a category that
    exists. *)
Theorem reachable_product_fields st pid p :
  reachable st → products st !! pid = Some p →
  p_name p ≠ "" ∧ py_strip (PStr (p_name p)) = Ret (p_name p) ∧
  p_sku p ≠ "" ∧ py_strip (PStr (p_sku p)) = Ret (p_sku p) ∧
  PrimFloat.leb 0%float (p_purchasing_price p) = true ∧
  ∃ category_name, categories st !! p_category_id p = Some category_name.
Proof.
  intros (_ & Hrows & _)%reachable_store Hp.
  destruct (Hrows _ _ Hp) as (? & ? & ? & ? & ? & ? & [c Hc] & _).
  split_and!; eauto using float_nonneg.
Qed.

(** X14: the sales and the ledger rows of a reachable store are numbered 1,
    2, 3, ... in the order in which they were written, so the next sale gets
    the number of sales plus one. *)
Theorem reachable_ids st :
  reachable st →
  s_id <$> sales st = Z.of_nat <$> seq 1 (length (sales st)) ∧
  l_id <$> stock_logs st = Z.of_nat <$> seq 1 (length (stock_logs st)) ∧
  next_sale_id st = Z.of_nat (length (sales st)) + 1 ∧
  next_stock_log_id st = Z.of_nat (length (stock_logs st)) + 1.
Proof.
  intros (_ & _ & _ & Hsales & Hlogs & _)%reachable_store.
  pose proof (ids_from_one_next _ _ _ Hsales).
  pose proof (ids_from_one_next _ _ _ Hlogs).
  destruct Hsales as [? _], Hlogs as [? _].
  unfold next_sale_id, next_stock_log_id. split_and!; [done|done|lia|lia].
Qed.

(** X15: every sale of a reachable store has a positive quantity, is the sale
    of a product of the store, and is accounted for in the ledger by a row
    of that product with the negated quantity and the reason "Sale #<id>". *)
Theorem reachable_sale_logged st s :
  reachable st → s ∈ sales st →
  0 < s_quantity s ∧ is_Some (products st !! s_product_id s) ∧
  ∃ l, l ∈ stock_logs st ∧ l_product_id l = s_product_id s ∧
       l_change_amount l = - s_quantity s ∧
       l_reason l = "Sale #" +:+ pretty (s_id s).
Proof.
  intros Hst Hs.
  destruct (reachable_invariants _ Hst) as (_ & _ & _ & Hproducts).
  destruct (reachable_store _ Hst) as (_ & _ & _ & _ & _ & Hlogged).
  destruct (Hlogged _ Hs) as (Hq & l & Hl & ? & ? & ?).
  split_and!; [done|by apply Hproducts|]. by exists l.
Qed.

(** ** What a request leaves as it is *)

(** X10: a request that is answered with an error changes nothing.  One that
    is not keeps every sale and every ledger row where it is (rows are only
    appended), keeps every product in the store, with its time of creation,
    and keeps the categories. *)
Theorem perform_append_only rq clk st r st' :
  perform rq clk st = Some (r, st') →
  (is_error r = true → st' = st) ∧
  sales st `prefix_of` sales st' ∧
  stock_logs st `prefix_of` stock_logs st' ∧
  categories st' = categories st ∧
  ∀ pid p, products st !! pid = Some p →
    ∃ p', products st' !! pid = Some p' ∧ p_created_at p' = p_created_at p.
Proof.
  intros [[-> Hr]|[Hr (pid & row' & Hc)]]%perform_commits.
  - split_and!; eauto.
  - destruct Hc as (Hcat & Hps & _ & _ & Hcreated & Hrest).
    split_and!; [congruence| | |done|].
    + destruct Hrest as [(-> & _)|(s & l & -> & _)]; [done|]. by apply prefix_app_r.
    + destruct Hrest as [(_ & _ & [[-> _]|(? & ? & ? & -> & _)])
                        |(s & l & _ & _ & _ & _ & -> & _)];
        [done|by apply prefix_app_r..].
    + intros pid' p Hp. rewrite Hps, lookup_insert. case_decide; simplify_eq; eauto.
Qed.

(** X11: the number of orders that the dashboard reports grows by one with a
    sale that is recorded, and with nothing else. *)
Theorem perform_total_orders rq clk st r st' :
  perform rq clk st = Some (r, st') →
  total_orders st'
  = total_orders st +
    match rq with
    | RecordSale _ => if is_error r then 0 else 1
    | _ => 0
    end.
Proof.
  intros H. unfold total_orders.
  apply perform_success in H as [[-> ->]|[-> H]].
  { destruct rq; lia. }
  destruct rq as [data|product_id data|data|data].
  - apply create_product_body_inv in H as (?&?&?&?&?&stock&?&_&_&_&_&_&_&_&_&_&->&_).
    destruct (0 <? stock); simpl; lia.
  - apply update_product_body_inv in H as (?&?&?&?&?&?&?&?&_&_&_&_&_&_&_&_&_&_&->&_).
    case_match; simpl; lia.
  - apply add_sale_body_inv in H as (?&?&?&_&_&_&_&_&_&->).
    simpl. rewrite length_app. simpl. lia.
  - apply restock_body_inv in H as (?&?&?&?&_&_&_&_&_&_&->). simpl. lia.
Qed.


(** ** Requests that are refused *)

(** X2: a sale or a restock of a product that the store does not have is
    answered with "Product not found" (404) and changes nothing. *)
Theorem unknown_product_not_found data clk st pid q :
  data !! "product_id" = Some (PInt pid) →
  data !! "quantity" = Some (PInt q) →
  pid ≠ 0 → - 2 ^ 63 ≤ pid < 2 ^ 63 → 0 < q →
  products st !! pid = None →
  add_sale data clk st = Some (format_error "Product not found" 404, st) ∧
  restock data clk st = Some (format_error "Product not found" 404, st).
Proof.
  intros Hpid Hq Hne Hrange Hpos Hnone.
  unfold add_sale, add_sale_body, restock, restock_body, check_quantity, py_get.
  rewrite Hpid, Hq. simpl.
  destruct (Z.eqb_spec pid 0); [lia|]. destruct (Z.eqb_spec q 0); [lia|].
  destruct (Z.leb_spec q 0); [lia|]. simpl.
  run_bind_int pid. by rewrite Hnone.
Qed.

(** X27: a sale or a restock of a quantity that compares as zero or less,
    an integer or a float (a negative fraction, minus infinity), is refused
    with "Quantity must be greater than 0" (400) by the check made before
    the store is opened, and nothing is committed. *)
Theorem nonpositive_quantity_refused data clk st :
  truthy (py_get data "product_id") = true →
  truthy (py_get data "quantity") = true →
  py_le_zero (py_get data "quantity") = Ret true →
  check_quantity (py_get data "product_id") (py_get data "quantity")
    = ReturnError "Quantity must be greater than 0" 400 ∧
  add_sale data clk st
    = Some (format_error "Quantity must be greater than 0" 400, st) ∧
  restock data clk st
    = Some (format_error "Quantity must be greater than 0" 400, st) ∧
  add_sale_float data clk st
    = Some (ErrorReply (format_error "Quantity must be greater than 0" 400), st) ∧
  restock_float data clk st
    = Some (ErrorReply (format_error "Quantity must be greater than 0" 400), st).
Proof.
  intros Hp Hq Hle.
  pose proof (check_quantity_nonpositive _ _ Hp Hq Hle) as Hcheck.
  split; [done|].
  unfold add_sale, add_sale_body, restock, restock_body, add_sale_float,
    add_sale_float_body, add_sale_float_checks, restock_float,
    restock_float_body.
  by rewrite Hcheck.
Qed.

(** X3: a sale or a restock whose [product_id] or [quantity] is missing,
    null, zero, false or empty is answered with "product_id and quantity are
    required" (400): a quantity of zero is reported as missing, not as too
    small. *)
Theorem falsy_fields_required data clk st :
  truthy (py_get data "product_id") = false
  ∨ truthy (py_get data "quantity") = false →
  add_sale data clk st
    = Some (format_error "product_id and quantity are required" 400, st) ∧
  restock data clk st
    = Some (format_error "product_id and quantity are required" 400, st).
Proof.
  intros H.
  assert (Hcheck : check_quantity (py_get data "product_id") (py_get data "quantity")
                   = ReturnError "product_id and quantity are required" 400).
  { unfold check_quantity. destruct H as [-> | ->]; [done|]. by rewrite orb_true_r. }
  unfold add_sale, add_sale_body, restock, restock_body. by rewrite Hcheck.
Qed.

(** X4: an update of a product that the store does not have is answered
    with "Product not found" (404) whatever the fields are; an update of an
    existing product that names none of the seven fields, with "No fields to
    update" (400).  Neither changes anything. *)
Theorem update_product_nothing_to_do product_id data clk st :
  - 2 ^ 63 ≤ product_id < 2 ^ 63 →
  match products st !! product_id with
  | None =>
      update_product product_id data clk st
      = Some (format_error "Product not found" 404, st)
  | Some _ =>
      (∀ key, key ∈ ["name"; "sku"; "category_id"; "price"; "purchasing_price";
                     "stock_quantity"; "min_stock_level"] →
              data !! key = None) →
      update_product product_id data clk st
      = Some (format_error "No fields to update" 400, st)
  end.
Proof.
  intros Hrange. unfold update_product, update_product_body.
  run_bind_int product_id.
  destruct (products st !! product_id) as [row|]; [|done].
  intros Hnone. unfold if_present.
  rewrite !Hnone by (repeat (by left) || right). done.
Qed.

Lemma check_required_missing before field after data :
  (∀ f, f ∈ before → is_Some (data !! f)) → data !! field = None →
  check_required (before ++ field :: after) data
  = ReturnError (field +:+ " is required") 400.
Proof.
  intros Hbefore Hfield. induction before as [|f before IH]; simpl.
  - unfold py_in. rewrite Hfield. rewrite bool_decide_eq_false_2; [done|].
    by intros [? ?].
  - unfold py_in at 1. rewrite bool_decide_eq_true_2 by (apply Hbefore; left).
    apply IH. intros f' Hf'. apply Hbefore. by right.
Qed.

(** X5: a creation that lacks required fields is answered with "<field> is
    required" (400) for the first of them in the order name, sku,
    category_id, price, purchasing_price, and changes nothing. *)
Theorem create_product_missing_field data clk st before field after :
  required_fields = before ++ field :: after →
  (∀ f, f ∈ before → is_Some (data !! f)) →
  data !! field = None →
  create_product data clk st
  = Some (format_error (field +:+ " is required") 400, st).
Proof.
  intros Hfields Hbefore Hfield.
  unfold create_product, create_product_racing, create_product_body.
  rewrite Hfields, (check_required_missing _ _ _ _ Hbefore Hfield). done.
Qed.

(** X6: a price or a purchasing price that is not a number (NaN) passes the
    checks of the values; the store refuses the row, and the reply is "SKU
    already exists" (400) though no product need have the sku. *)
Theorem create_product_nan_price data clk st name sku price pp stock min cat cname :
  valid_fields data name sku price pp stock min →
  PrimFloat.is_nan price = true ∨ PrimFloat.is_nan pp = true →
  bind_key (py_get data "category_id") = Ret (Some cat) →
  categories st !! cat = Some cname →
  stock < 2 ^ 63 → - 2 ^ 63 ≤ min < 2 ^ 63 →
  create_product data clk st
  = Some (format_error "SKU already exists" 400, st).
Proof.
  intros Hvalid Hnan Hkey Hcat Hstock Hmin.
  pose proof (vf_stock_nonneg _ _ _ _ _ _ _ Hvalid).
  unfold create_product, create_product_racing.
  rewrite (create_product_body_valid _ _ _ _ _ _ _ _ _ _ Hvalid).
  destruct (sku_exists sku st); [done|].
  rewrite Hkey. simpl. rewrite Hcat. unfold insert_product.
  run_bind_int stock. run_bind_int min. unfold bind_real_not_null.
  destruct Hnan as [-> | ->]; [done|]. by destruct (PrimFloat.is_nan price).
Qed.

(** ** Updates and the stock *)

(** X7: an update that does not name [stock_quantity] leaves the stock of
    every product, the ledger and the sales as they are. *)
Theorem update_product_keeps_stock product_id data clk st r st' :
  data !! "stock_quantity" = None →
  update_product product_id data clk st = Some (r, st') →
  stock_logs st' = stock_logs st ∧ sales st' = sales st ∧
  ∀ pid, p_stock_quantity <$> products st' !! pid
         = p_stock_quantity <$> products st !! pid.
Proof.
  intros Hnone [H|[-> _]]%handle_Some; [|done].
  apply update_product_body_inv in H
    as (row & name & sku & cat & price & pp & stock & min & Hrow & _ & _ & _ & _
        & _ & _ & Hstock & _ & _ & -> & _).
  destruct stock as [n|].
  { destruct (Hstock n eq_refl) as (_ & _ & v & Hv & _). congruence. }
  simpl. rewrite Z.sub_diag. simpl. split_and!; [done..|].
  intros pid. rewrite lookup_insert. case_decide; simplify_eq; [|done].
  by rewrite Hrow.
Qed.

(** X8: an update of the sku of a product to the sku of another product is
    refused with "SKU already exists" (400) and changes nothing; an update to
    a sku that no other product has is accepted, and so is an update to the
    sku that the product has already. *)
Theorem update_product_sku product_id clk st row v sku :
  reachable st →
  - 2 ^ 63 ≤ product_id < 2 ^ 63 →
  products st !! product_id = Some row →
  py_strip v = Ret sku → sku ≠ "" →
  let data : gmap string pyval := {["sku" := v]} in
  let updated :=
    Some ((ProductUpdated, 200),
          with_products
            (<[product_id :=
                 set_fields None (Some sku) None None None None None
                   (clk 0%nat) row]> (products st)) st) in
  (∀ other p, products st !! other = Some p → other ≠ product_id →
     p_sku p = sku →
     update_product product_id data clk st
     = Some (format_error "SKU already exists" 400, st)) ∧
  ((∀ other p, products st !! other = Some p → other ≠ product_id →
      p_sku p ≠ sku) →
   update_product product_id data clk st = updated) ∧
  (sku = p_sku row → update_product product_id data clk st = updated).
Proof.
  intros (Huniq & _)%reachable_store Hrange Hrow Hv Hsku data updated.
  assert (Hrun : update_product product_id data clk st
    = if sku_taken_by_other sku product_id st
      then Some (format_error "SKU already exists" 400, st)
      else updated).
  { unfold update_product, update_product_body, if_present, data.
    run_bind_int product_id. rewrite Hrow.
    rewrite !lookup_singleton_ne by done. rewrite lookup_singleton_eq. simpl.
    rewrite Hv. simpl. rewrite bool_decide_eq_false_2 by done.
    by destruct (sku_taken_by_other sku product_id st). }
  rewrite Hrun. unfold sku_taken_by_other.
  assert (Hfree : (∀ other p, products st !! other = Some p → other ≠ product_id →
                     p_sku p ≠ sku) →
    (if bool_decide (map_Exists (λ k p, p_sku p = sku ∧ k ≠ product_id) (products st))
     then Some (format_error "SKU already exists" 400, st) else updated) = updated).
  { intros Hfree. rewrite bool_decide_eq_false_2; [done|].
    intros (other & p & Hp & Hs & Hne). by apply (Hfree other p). }
  split_and!.
  - intros other p Hp Hne Hs. rewrite bool_decide_eq_true_2; [done|].
    by exists other, p.
  - exact Hfree.
  - intros -> . apply Hfree. intros other p Hp Hne Hs.
    exact (Hne (Huniq other product_id p row Hp Hrow Hs)).
Qed.

(** ** A sale and its return *)

(** X9: a recorded sale followed by a restock of the same product and
    quantity leaves every stock as it was before the sale; the ledger has
    gained two rows of that product whose changes cancel. *)
Theorem sale_then_restock data clk clk' st r1 st1 r2 st2 :
  add_sale data clk st = Some (r1, st1) → is_error r1 = false →
  restock data clk' st1 = Some (r2, st2) → is_error r2 = false →
  (∀ pid, p_stock_quantity <$> products st2 !! pid
          = p_stock_quantity <$> products st !! pid) ∧
  ∃ l1 l2,
    stock_logs st2 = stock_logs st ++ [l1; l2] ∧
    l_product_id l1 = l_product_id l2 ∧
    l_change_amount l1 + l_change_amount l2 = 0.
Proof.
  intros [H1|[_ H1]]%handle_Some Hr1 [H2|[_ H2]]%handle_Some Hr2; try congruence.
  apply add_sale_body_inv in H1
    as (pid & p & q & Hkey & Hq & Hp & _ & _ & _ & ->).
  apply restock_body_inv in H2
    as (pid' & p' & q' & reason & Hkey' & Hq' & _ & Hp' & _ & _ & ->).
  rewrite Hkey in Hkey'. rewrite Hq in Hq'. simplify_eq.
  simpl in Hp'. rewrite lookup_alter_eq, Hp in Hp'. simplify_eq/=. split.
  - intros pid. rewrite lookup_alter.
    case_decide; simplify_eq; [|by rewrite lookup_alter_ne].
    rewrite lookup_alter_eq, Hp. simpl. f_equal. lia.
  - eexists _, _. rewrite <- app_assoc. split; [done|]. simpl. split; [done|lia].
Qed.


(** * Runs of the rest of the backend *)

Lemma reachable_two_products : reachable two_products.
Proof. apply reachable_after, reachable_shop. Qed.

Lemma reachable_three_products : reachable three_products.
Proof. apply reachable_after, reachable_two_products. Qed.

Lemma get_product_reachable_witness :
  (∃ category_name,
     categories two_products !! 2 = Some category_name ∧
     get_product 2 two_products
     = Some (inl (product_columns 2
                    {| p_name := "Gadget"; p_sku := "G-1"; p_category_id := 2;
                       p_price := 2.5%float; p_purchasing_price := 1%float;
                       p_stock_quantity := 0; p_min_stock_level := 5;
                       p_created_at := noon 0; p_updated_at := noon 0 |}
                    category_name))) ∧
  get_product 7 two_products = Some (inr (format_error "Product not found" 404)) ∧
  get_product (2 ^ 63) two_products
  = Some (inr (ErrorStr "Failed to fetch product: " OverflowError, 500)).
Proof.
  split_and!.
  - assert (H : 0 ≤ 2) by lia.
    apply (proj2 (get_product_reachable two_products 2 reachable_two_products H)).
    vm_compute; reflexivity.
  - assert (H : 0 ≤ 7) by lia.
    apply (proj2 (get_product_reachable two_products 7 reachable_two_products H)).
    vm_compute; reflexivity.
  - assert (H : 0 ≤ 2 ^ 63) by lia.
    apply (proj1 (get_product_reachable two_products (2 ^ 63)
                    reachable_two_products H)).
    lia.
Defined.

Lemma create_product_then_get_witness :
  ∃ row,
    get_product 2 two_products = Some (inl row) ∧ pr_id row = 2 ∧
    pr_name row = "Gadget" ∧ pr_category_name row = "Clothing" ∧
    pr_stock_quantity row = 0 ∧ pr_min_stock_level row = 5.
Proof.
  destruct (create_product_then_get gadget noon shop
              ("Product " +:+ dquote +:+ "Gadget" +:+ dquote
               +:+ " created successfully") 2 two_products)
    as (row & Hget & Hid & Hname & _ & Hcat & Hcname & _ & _ & Hstock & Hmin).
  - vm_compute; reflexivity.
  - vm_compute; reflexivity.
  - exists row. split_and!; [done|done| | | |].
    + assert (py_strip (py_get gadget "name") = Ret "Gadget")
        by (vm_compute; reflexivity). congruence.
    + assert (bind_key (py_get gadget "category_id") = Ret (Some 2))
        by (vm_compute; reflexivity).
      assert (categories shop !! 2 = Some "Clothing") by (vm_compute; reflexivity).
      congruence.
    + assert (py_int (py_get_default gadget "stock_quantity" (PInt 0)) = Ret 0)
        by (vm_compute; reflexivity). congruence.
    + assert (py_int (py_get_default gadget "min_stock_level" (PInt 5)) = Ret 5)
        by (vm_compute; reflexivity). congruence.
Defined.

Lemma get_products_lists_all_witness :
  ∃ rows,
    get_products sort_asc {["low_stock_only" := "yes"]} three_products
      = Some (inl rows) ∧
    Sorted (name_le (λ r, pr_name (lp_row r))) rows ∧
    length rows = 3%nat.
Proof.
  destruct (get_products_lists_all sort_asc sort_asc_perm sort_asc_sorted
              {["low_stock_only" := "yes"]} three_products
              reachable_three_products)
    as (rows & Hrun & Hsorted & Hlen & _).
  - vm_compute; reflexivity.
  - vm_compute. discriminate.
  - exists rows. split_and!; [exact Hrun | exact Hsorted |].
    rewrite Hlen. vm_compute; reflexivity.
Defined.

Lemma get_products_low_stock_witness :
  ∃ rows,
    get_products sort_asc {["low_stock_only" := "TRUE"]} three_products
      = Some (inl rows) ∧
    Z.of_nat (length rows) = low_stock_count three_products ∧
    low_stock_count three_products = 2.
Proof.
  destruct (get_products_low_stock sort_asc sort_asc_perm
              {["low_stock_only" := "TRUE"]} three_products "TRUE"
              reachable_three_products)
    as (rows & Hrun & Hlen & _).
  - vm_compute; reflexivity.
  - vm_compute; reflexivity.
  - vm_compute; reflexivity.
  - exists rows. split_and!; [exact Hrun | exact Hlen | vm_compute; reflexivity].
Defined.

Lemma get_products_search_witness :
  ∃ rows,
    get_products sort_asc {["search" := " gad "]} three_products = Some (inl rows) ∧
    Sorted (name_le (λ r, pr_name (lp_row r))) rows ∧
    ∀ r, r ∈ rows ↔
      ∃ pid p category_name,
        products three_products !! pid = Some p ∧
        categories three_products !! p_category_id p = Some category_name ∧
        (occurs_nocase "gad" (c_str (p_name p)) = true
         ∨ occurs_nocase "gad" (c_str (p_sku p)) = true) ∧
        r = {| lp_row := product_columns pid p category_name;
               lp_created_at := p_created_at p;
               lp_updated_at := p_updated_at p |}.
Proof.
  apply (get_products_search sort_asc sort_asc_perm sort_asc_sorted
           {["search" := " gad "]} three_products "gad").
  - vm_compute; reflexivity.
  - discriminate.
  - vm_compute; reflexivity.
  - vm_compute. discriminate.
  - vm_compute. discriminate.
Defined.

Lemma get_products_search_percent_witness :
  ∃ rows,
    get_products sort_asc {["search" := "%"]} three_products = Some (inl rows) ∧
    length rows = size (products three_products) ∧
    rows ≡ₚ products_with_categories three_products.
Proof.
  apply (get_products_search_percent sort_asc sort_asc_perm
           {["search" := "%"]} three_products reachable_three_products).
  - vm_compute; reflexivity.
  - vm_compute. discriminate.
Defined.

Lemma get_categories_reachable_witness :
  categories sold = categories init_db ∧
  get_categories sort_asc sold
  = [(4, "Books"); (2, "Clothing"); (1, "Electronics"); (3, "Food & Beverages");
     (8, "Health & Beauty"); (5, "Home & Garden"); (6, "Sports & Outdoors");
     (7, "Toys & Games")].
Proof.
  exact (get_categories_reachable sort_asc sort_asc_perm sort_asc_sorted sold
           reachable_sold).
Defined.

Lemma export_pdf_rows_witness :
  length (table_data sort_asc (λ _, "0.00") three_products) = 4%nat ∧
  (status_colours sort_asc three_products).*1 = [1; 2; 3]%nat ∧
  Z.of_nat (length (filter (λ r, rr_status r ≠ "In Stock")
                      (report_rows sort_asc three_products)))
  = low_stock_count three_products + 1.
Proof.
  destruct (export_pdf_rows sort_asc sort_asc_perm (λ _, "0.00") three_products
              reachable_three_products) as (Hlen & Hcolours & Hlow).
  split_and!.
  - rewrite Hlen. vm_compute; reflexivity.
  - rewrite Hcolours. vm_compute; reflexivity.
  - rewrite Hlow. f_equal.
Defined.

Lemma run_init_db_reachable_witness : run_init_db sold_twice = sold_twice.
Proof. exact (run_init_db_reachable sold_twice reachable_sold_twice). Defined.

Lemma reachable_sku_unique_witness :
  ∃ p1 p2,
    products two_products !! 1 = Some p1 ∧ products two_products !! 2 = Some p2 ∧
    p_sku p1 ≠ p_sku p2.
Proof.
  eexists _, _.
  assert (H1 : products two_products !! 1 = Some widget_row)
    by (vm_compute; reflexivity).
  assert (H2 : products two_products !! 2
               = Some {| p_name := "Gadget"; p_sku := "G-1"; p_category_id := 2;
                         p_price := 2.5%float; p_purchasing_price := 1%float;
                         p_stock_quantity := 0; p_min_stock_level := 5;
                         p_created_at := noon 0; p_updated_at := noon 0 |})
    by (vm_compute; reflexivity).
  split_and!; [exact H1 | exact H2 |].
  apply (reachable_sku_unique two_products 1 2 _ _ reachable_two_products H1 H2).
  lia.
Defined.

Lemma reachable_product_fields_witness :
  p_name widget_row ≠ "" ∧
  py_strip (PStr (p_name widget_row)) = Ret (p_name widget_row) ∧
  p_sku widget_row ≠ "" ∧
  py_strip (PStr (p_sku widget_row)) = Ret (p_sku widget_row) ∧
  PrimFloat.leb 0%float (p_purchasing_price widget_row) = true ∧
  ∃ category_name, categories shop !! p_category_id widget_row = Some category_name.
Proof.
  apply (reachable_product_fields shop 1 widget_row reachable_shop).
  vm_compute; reflexivity.
Defined.

Lemma reachable_ids_witness :
  s_id <$> sales sold_twice = [1; 2] ∧
  l_id <$> stock_logs sold_twice = [1; 2; 3] ∧
  next_sale_id sold_twice = 3 ∧ next_stock_log_id sold_twice = 4.
Proof.
  destruct (reachable_ids sold_twice reachable_sold_twice) as (Hs & Hl & Hns & Hnl).
  rewrite Hs, Hl, Hns, Hnl. split_and!; vm_compute; reflexivity.
Defined.

Lemma reachable_sale_logged_witness :
  ∃ s, s ∈ sales sold ∧ s_quantity s = 3 ∧
    ∃ l, l ∈ stock_logs sold ∧ l_product_id l = s_product_id s ∧
         l_change_amount l = - s_quantity s ∧
         l_reason l = "Sale #" +:+ pretty (s_id s).
Proof.
  assert (Hs : {| s_id := 1; s_product_id := 1; s_quantity := 3;
                  s_total_price := 30%float; s_sale_date := noon 1 |} ∈ sales sold).
  { replace (sales sold) with
      [{| s_id := 1; s_product_id := 1; s_quantity := 3;
          s_total_price := 30%float; s_sale_date := noon 1 |}]
      by (vm_compute; reflexivity).
    apply list_elem_of_singleton. reflexivity. }
  eexists. split; [exact Hs|]. split; [reflexivity|].
  exact (proj2 (proj2 (reachable_sale_logged sold _ reachable_sold Hs))).
Defined.

Lemma perform_append_only_witness :
  sales shop `prefix_of` sales sold ∧ stock_logs shop `prefix_of` stock_logs sold ∧
  categories sold = categories shop.
Proof.
  assert (H : perform (RecordSale (sale_of 1 3)) noon shop
    = Some ((SaleRecorded 1 "Sale recorded: 3 x Widget" 30%float 2, 201), sold))
    by (vm_compute; reflexivity).
  destruct (perform_append_only _ _ _ _ _ H) as (_ & Hsales & Hlogs & Hcat & _).
  split_and!; [exact Hsales | exact Hlogs | exact Hcat].
Defined.

Lemma perform_total_orders_witness :
  total_orders sold = total_orders shop + 1 ∧
  total_orders (after (RecordSale (sale_of 1 7)) noon shop) = total_orders shop + 0.
Proof.
  split.
  - assert (H : perform (RecordSale (sale_of 1 3)) noon shop
      = Some ((SaleRecorded 1 "Sale recorded: 3 x Widget" 30%float 2, 201), sold))
      by (vm_compute; reflexivity).
    exact (perform_total_orders _ _ _ _ _ H).
  - assert (H : perform (RecordSale (sale_of 1 7)) noon shop
      = Some (format_error "Insufficient stock. Available: 5, Requested: 7" 400,
              after (RecordSale (sale_of 1 7)) noon shop))
      by (vm_compute; reflexivity).
    exact (perform_total_orders _ _ _ _ _ H).
Defined.

Lemma unknown_product_not_found_witness :
  add_sale (sale_of 9 1) noon shop = Some (format_error "Product not found" 404, shop) ∧
  restock (sale_of 9 1) noon shop = Some (format_error "Product not found" 404, shop).
Proof.
  apply (unknown_product_not_found (sale_of 9 1) noon shop 9 1).
  - vm_compute; reflexivity.
  - vm_compute; reflexivity.
  - lia.
  - split; vm_compute; [discriminate | reflexivity].
  - lia.
  - vm_compute; reflexivity.
Defined.

Lemma nonpositive_quantity_refused_witness :
  check_quantity (PInt 1) (PFloat (-2.5)%float)
    = ReturnError "Quantity must be greater than 0" 400 ∧
  add_sale (float_quantity 1 (-2.5)%float) noon shop
    = Some (format_error "Quantity must be greater than 0" 400, shop) ∧
  restock (float_quantity 1 (-2.5)%float) noon shop
    = Some (format_error "Quantity must be greater than 0" 400, shop) ∧
  add_sale_float (float_quantity 1 (-2.5)%float) noon shop
    = Some (ErrorReply (format_error "Quantity must be greater than 0" 400), shop) ∧
  restock_float (float_quantity 1 (-2.5)%float) noon shop
    = Some (ErrorReply (format_error "Quantity must be greater than 0" 400), shop).
Proof.
  apply (nonpositive_quantity_refused (float_quantity 1 (-2.5)%float) noon shop).
  - vm_compute; reflexivity.
  - vm_compute; reflexivity.
  - vm_compute; reflexivity.
Defined.

Lemma falsy_fields_required_witness :
  add_sale (sale_of 1 0) noon shop
    = Some (format_error "product_id and quantity are required" 400, shop) ∧
  restock (sale_of 1 0) noon shop
    = Some (format_error "product_id and quantity are required" 400, shop).
Proof.
  apply (falsy_fields_required (sale_of 1 0) noon shop).
  right. vm_compute; reflexivity.
Defined.

Lemma update_product_nothing_to_do_witness :
  update_product 9 (stock_to 8) noon shop
    = Some (format_error "Product not found" 404, shop) ∧
  update_product 1 {["colour" := PStr "red"]} noon shop
    = Some (format_error "No fields to update" 400, shop).
Proof.
  split.
  - assert (Hrange : - 2 ^ 63 ≤ 9 < 2 ^ 63) by (split; vm_compute; [discriminate | reflexivity]).
    pose proof (update_product_nothing_to_do 9 (stock_to 8) noon shop Hrange) as H.
    replace (products shop !! 9) with (@None product) in H by (vm_compute; reflexivity).
    exact H.
  - assert (Hrange : - 2 ^ 63 ≤ 1 < 2 ^ 63) by (split; vm_compute; [discriminate | reflexivity]).
    pose proof (update_product_nothing_to_do 1 {["colour" := PStr "red"]} noon shop
                  Hrange) as H.
    replace (products shop !! 1) with (Some widget_row) in H by (vm_compute; reflexivity).
    apply H. intros key Hkey.
    repeat (apply elem_of_cons in Hkey as [->|Hkey]; [vm_compute; reflexivity|]).
    by apply elem_of_nil in Hkey.
Defined.

Lemma create_product_missing_field_witness :
  create_product {["name" := PStr "Thing"; "price" := PInt 1]} noon shop
  = Some (format_error "sku is required" 400, shop).
Proof.
  apply (create_product_missing_field _ noon shop ["name"] "sku"
           ["category_id"; "price"; "purchasing_price"]).
  - reflexivity.
  - intros f ->%list_elem_of_singleton. vm_compute. by eexists.
  - vm_compute; reflexivity.
Defined.

Lemma gadget_nan_valid :
  valid_fields (<["price" := PFloat nan]> gadget) "Gadget" "G-1" nan 1%float 0 5.
Proof. split; try (vm_compute; reflexivity); try done. Qed.

Lemma create_product_nan_price_witness :
  sku_exists "G-1" shop = false ∧
  create_product (<["price" := PFloat nan]> gadget) noon shop
  = Some (format_error "SKU already exists" 400, shop).
Proof.
  split; [vm_compute; reflexivity|].
  apply (create_product_nan_price _ noon shop "Gadget" "G-1" nan 1%float 0 5 2
           "Clothing" gadget_nan_valid).
  - left. vm_compute; reflexivity.
  - vm_compute; reflexivity.
  - vm_compute; reflexivity.
  - vm_compute; reflexivity.
  - split; vm_compute; [discriminate | reflexivity].
Defined.

Lemma update_product_keeps_stock_witness :
  ∃ st',
    update_product 1 {["price" := PFloat 12%float]} afternoon shop
      = Some ((ProductUpdated, 200), st') ∧
    stock_logs st' = stock_logs shop ∧ sales st' = sales shop ∧
    p_stock_quantity <$> products st' !! 1 = Some 5.
Proof.
  assert (∃ st', update_product 1 {["price" := PFloat 12%float]} afternoon shop
                 = Some ((ProductUpdated, 200), st')) as [st' Hrun]
    by (eexists; vm_compute; reflexivity).
  exists st'. split; [exact Hrun|].
  destruct (update_product_keeps_stock 1 {["price" := PFloat 12%float]} afternoon
              shop (ProductUpdated, 200) st') as (Hlogs & Hsales & Hstock).
  - vm_compute; reflexivity.
  - exact Hrun.
  - split_and!; [exact Hlogs | exact Hsales |].
    rewrite Hstock. vm_compute; reflexivity.
Defined.

Lemma update_product_sku_witness :
  update_product 1 {["sku" := PStr " G-1 "]} afternoon two_products
    = Some (format_error "SKU already exists" 400, two_products) ∧
  update_product 1 {["sku" := PStr "W-1"]} afternoon two_products
    = Some ((ProductUpdated, 200),
            with_products
              (<[1 := set_fields None (Some "W-1") None None None None None
                        (afternoon 0) widget_row]> (products two_products))
              two_products).
Proof.
  assert (Hrange : - 2 ^ 63 ≤ 1 < 2 ^ 63)
    by (split; vm_compute; [discriminate | reflexivity]).
  assert (Hrow : products two_products !! 1 = Some widget_row)
    by (vm_compute; reflexivity).
  split.
  - destruct (update_product_sku 1 afternoon two_products widget_row
                (PStr " G-1 ") "G-1" reachable_two_products Hrange Hrow)
      as (Htaken & _ & _).
    + vm_compute; reflexivity.
    + discriminate.
    + eapply (Htaken 2).
      * vm_compute; reflexivity.
      * lia.
      * reflexivity.
  - destruct (update_product_sku 1 afternoon two_products widget_row
                (PStr "W-1") "W-1" reachable_two_products Hrange Hrow)
      as (_ & _ & Hown).
    + vm_compute; reflexivity.
    + discriminate.
    + apply Hown. reflexivity.
Defined.

Lemma sale_then_restock_witness :
  (∀ pid, p_stock_quantity <$> products returned !! pid
          = p_stock_quantity <$> products shop !! pid) ∧
  ∃ l1 l2,
    stock_logs returned = stock_logs shop ++ [l1; l2] ∧
    l_product_id l1 = l_product_id l2 ∧
    l_change_amount l1 + l_change_amount l2 = 0.
Proof.
  apply (sale_then_restock (sale_of 1 3) noon afternoon shop
           (SaleRecorded 1 "Sale recorded: 3 x Widget" 30%float 2, 201) sold
           (Restocked "Restocked 3 units of Widget" 5, 200) returned).
  - vm_compute; reflexivity.
  - reflexivity.
  - vm_compute; reflexivity.
  - reflexivity.
Defined.

Lemma restock_success_witness :
  ∃ st',
    restock (sale_of 1 3) afternoon sold
    = Some ((Restocked "Restocked 3 units of Widget" 5, 200), st') ∧
    (l_change_amount <$> stock_logs st') = [5; -3; 3] ∧
    (l_reason <$> stock_logs st') = ["Initial stock"; "Sale #1"; "Manual restock"].
Proof.
  destruct (restock_success (sale_of 1 3) afternoon sold 1
              (set_stock 2 (noon 0) widget_row) 3)
    with (reason := "Manual restock")
    as (st' & Hrun & _ & Hlogs & _).
  - exact reachable_sold.
  - vm_compute; reflexivity.
  - vm_compute; reflexivity.
  - vm_compute; reflexivity.
  - vm_compute; reflexivity.
  - lia.
  - vm_compute; reflexivity.
  - vm_compute; reflexivity.
  - exists st'. split; [exact Hrun|]. rewrite Hlogs.
    split; vm_compute; reflexivity.
Defined.

Lemma sales_trend_same_day_witness :
  sales_trend sum_left same_day sold
  = (λ i : nat, let d := 739000 - 6 + Z.of_nat i in (d, daily_value sum_left sold d))
      <$> seq 0 7.
Proof.
  apply (sales_trend_same_day sum_left same_day sold 739000).
  - vm_compute. discriminate.
  - intros i _. reflexivity.
Defined.
